(** * cluster-api-provider-vsphere: session cache and reconcilers

    A shallow embedding of
    - [pkg/session]: [GetOrCreate], [newClient], [newManager], [clearCache];
    - [controllers/vspherecluster_controller.go]: [reconcileDelete],
      [reconcileNormal], [reconcileDeploymentZones], [shouldIncludeZone];
    - [controllers/vspherevm_controller.go]: [reconcileNormal],
      [isWaitingForStaticIPAllocation], [reconcileNetwork];
    followed by the properties of these functions.

    Conventions.  Go strings are [string]s (byte sequences).  A Go pair
    [(v, err)] is a pair of options, [None] standing for [nil].  Calls that
    leave the process (vCenter, the REST endpoint, the API server) take their
    answers from a record of functions and are recorded, in order, in a trace.
    Logging is not modelled. *)

From Stdlib Require Import String Ascii List ZArith Bool Lia.
From stdpp Require Import base option gmap strings list.

Local Open Scope string_scope.
Local Open Scope Z_scope.
Local Open Scope list_scope.

(** Go [error] values: the API server's not-found status, which
    apierrors.IsNotFound recognises, and every other error, kept as its
    message. *)
Inductive error :=
| NotFoundError (msg : string)
| OtherError (msg : string).

Definition errorMessage (e : error) : string :=
  match e with
  | NotFoundError m => m
  | OtherError m => m
  end.

Definition IsNotFound (e : error) : bool :=
  match e with
  | NotFoundError _ => true
  | OtherError _ => false
  end.

(** errors.New / errors.Errorf *)
Definition Errorf (msg : string) : error := OtherError msg.

(** errors.Wrap / errors.Wrapf: a new error value carrying the message of
    the cause. *)
Definition Wrap (e : error) (msg : string) : error :=
  OtherError (msg +:+ ": " +:+ errorMessage e).

Inductive result (A : Type) :=
| Ok (a : A)
| Err (e : error).
Arguments Ok {A} a.
Arguments Err {A} e.

(** time.Duration counts nanoseconds. *)
Definition Duration := Z.
Definition Second : Duration := 1000000000.

(* ===================================================================== *)
(** ** pkg/session *)
(* ===================================================================== *)

Module session.

(** url.Userinfo; the code only ever holds a pointer to it. *)
Record Userinfo := { username : string; password : string }.

(** The Username method of url.Userinfo is nil-safe: a nil receiver yields
    the empty string. *)
Definition Username (u : option Userinfo) : string :=
  match u with
  | Some u => username u
  | None => ""
  end.

Record Feature := {
  EnableKeepAlive : bool;
  KeepAliveDuration : Duration
}.

Record Params := {
  server : string;
  datacenter : string;
  userinfo : option Userinfo;
  thumbprint : string;
  feature : Feature;
  refreshRestClient : bool;
  caller : string
}.

(** What the code uses of url.URL. *)
Record URL := { Host : string; User : option Userinfo }.

(** govmomi.Client as [newClient] configures it. *)
Record GovmomiClient := {
  client_url : URL;
  client_insecure : bool;
  client_thumbprint : option (string * string);
  client_keepalive : option Duration;
  UserAgent : string
}.

(** tags.Manager over a logged-in rest.Client. *)
Record TagsManager := { manager_user : option Userinfo }.

(** object.Datacenter, an opaque managed-object reference. *)
Definition DatacenterRef := string.

(** find.Finder; [SetDatacenter] fills [finder_dc]. *)
Record FinderT := { finder_dc : option DatacenterRef }.

(** The reply of the REST session endpoint. *)
Record RestSession := { rest_user : string }.

(** [Session] is handled through pointers; [addr] is the address of the
    struct, which is what pointer equality compares. *)
Record Session := {
  addr : nat;
  Client : option GovmomiClient;
  Finder : option FinderT;
  sess_datacenter : option DatacenterRef;
  TagManager : option TagsManager
}.

(** Calls that leave the process, in the order they are issued. *)
Inductive Event :=
| EvTagManagerSession (a : nat)
| EvTagManagerLogout (a : nat)
| EvSessionManagerLogout (a : nat)
| EvParseURL (s : string)
| EvNewClient (u : URL) (insecure : bool)
| EvLogin (u : option Userinfo)
| EvRestLogin (u : option Userinfo)
| EvFinderDatacenter (name : string)
| EvGetCurrentTime.

(** The answers of the vSphere side (govmomi is not part of the sources). *)
Record Platform := {
  ParseURL : string -> option URL * option error;
  vim25_NewClient : URL -> bool -> option error;
  Login : URL -> option error;
  rest_Login : option Userinfo -> option error;
  Finder_Datacenter : string -> option DatacenterRef * option error;
  TagManager_Session : nat -> option RestSession * option error;
  GetCurrentTime : option error
}.

(** The package-level [sessionCache], the allocator and the trace. *)
Record State := {
  sessionCache : gmap string Session;
  next_addr : nat;
  trace : list Event
}.

Definition M (A : Type) : Type := State -> A * State.

Definition ret {A} (a : A) : M A := fun st => (a, st).

Definition bind {A B} (m : M A) (k : A -> M B) : M B :=
  fun st => let '(a, st') := m st in k a st'.

Notation "'let*' x ':=' m 'in' k" := (bind m (fun x => k))
  (at level 10, x name, m at level 100, k at level 200, only parsing).
Notation "'exec' m 'then' k" := (bind m (fun _ => k))
  (at level 10, m at level 100, k at level 200, only parsing).

Definition emit (e : Event) : M unit :=
  fun st => (tt, {| sessionCache := sessionCache st;
                    next_addr := next_addr st;
                    trace := trace st ++ [e] |}).

(** sessionCache.Load *)
Definition cacheLoad (k : string) : M (option Session) :=
  fun st => (sessionCache st !! k, st).

(** sessionCache.Store *)
Definition cacheStore (k : string) (s : Session) : M unit :=
  fun st => (tt, {| sessionCache := <[k := s]> (sessionCache st);
                    next_addr := next_addr st;
                    trace := trace st |}).

(** sessionCache.Delete *)
Definition cacheDelete (k : string) : M unit :=
  fun st => (tt, {| sessionCache := delete k (sessionCache st);
                    next_addr := next_addr st;
                    trace := trace st |}).

(** Taking the address of a new struct. *)
Definition alloc : M nat :=
  fun st => (next_addr st, {| sessionCache := sessionCache st;
                              next_addr := S (next_addr st);
                              trace := trace st |}).

(** [clearCache]: both logouts are attempted on a cached session, their
    errors are only logged, and the entry is deleted in every case. *)
Definition clearCache (sessionKey : string) : M unit :=
  let* cachedSession := cacheLoad sessionKey in
  exec
    match cachedSession with
    | Some s =>
        exec emit (EvTagManagerLogout (addr s)) then
        emit (EvSessionManagerLogout (addr s))
    | None => ret tt
    end
  then
  cacheDelete sessionKey.

(** The callback [newClient] hands to session.KeepAliveHandler. *)
Definition keepAlive (pf : Platform) (sessionKey : string) : M (option error) :=
  exec emit EvGetCurrentTime then
  match GetCurrentTime pf with
  | Some e => exec clearCache sessionKey then ret (Some e)
  | None => ret None
  end.

Definition newClient (pf : Platform) (sessionKey : string) (url : URL)
    (thumbprint : string) (feature : Feature) : M (result GovmomiClient) :=
  let insecure := String.eqb thumbprint "" in
  let tp := if negb insecure then Some (Host url, thumbprint) else None in
  exec emit (EvNewClient url insecure) then
  match vim25_NewClient pf url insecure with
  | Some e => ret (Err e)
  | None =>
      let c := {| client_url := url;
                  client_insecure := insecure;
                  client_thumbprint := tp;
                  client_keepalive :=
                    if EnableKeepAlive feature
                    then Some (KeepAliveDuration feature) else None;
                  UserAgent := "" |} in
      exec emit (EvLogin (User url)) then
      match Login pf url with
      | Some e => ret (Err e)
      | None => ret (Ok c)
      end
  end.

Definition newManager (pf : Platform) (user : option Userinfo)
    : M (result TagsManager) :=
  exec emit (EvRestLogin user) then
  match rest_Login pf user with
  | Some e => ret (Err e)
  | None => ret (Ok {| manager_user := user |})
  end.

(** v1alpha4.GroupVersion.String() *)
Definition GroupVersion : string := "infrastructure.cluster.x-k8s.io/v1alpha4".

Definition withUserAgent (ua : string) (c : GovmomiClient) : GovmomiClient :=
  {| client_url := client_url c;
     client_insecure := client_insecure c;
     client_thumbprint := client_thumbprint c;
     client_keepalive := client_keepalive c;
     UserAgent := ua |}.

Definition sessionKeyOf (params : Params) : string :=
  server params +:+ Username (userinfo params) +:+ datacenter params.

(** Lines 179-221 of [GetOrCreate]: what runs when no cached session is
    returned. *)
Definition GetOrCreate_create (pf : Platform) (params : Params)
    : M (result Session) :=
  let sessionKey := sessionKeyOf params in
  exec clearCache sessionKey then
  exec emit (EvParseURL (server params)) then
  match ParseURL pf (server params) with
  | (_, Some e) =>
      ret (Err (Wrap e "error parsing vSphere URL"))
  | (None, None) =>
      ret (Err (Errorf "error parsing vSphere URL"))
  | (Some soapURL0, None) =>
      let soapURL := {| Host := Host soapURL0; User := userinfo params |} in
      let* r := newClient pf sessionKey soapURL (thumbprint params) (feature params) in
      match r with
      | Err e => ret (Err e)
      | Ok client =>
          let* a := alloc in
          let client := withUserAgent GroupVersion client in
          let finder := {| finder_dc := None |} in
          let* m := newManager pf (User soapURL) in
          match m with
          | Err e => ret (Err (Wrap e "unable to create tags manager"))
          | Ok manager =>
              if negb (String.eqb (datacenter params) "") then
                exec emit (EvFinderDatacenter (datacenter params)) then
                match Finder_Datacenter pf (datacenter params) with
                | (_, Some e) =>
                    ret (Err (Wrap e "unable to find datacenter"))
                | (dc, None) =>
                    let s := {| addr := a;
                                Client := Some client;
                                Finder := Some {| finder_dc := dc |};
                                sess_datacenter := dc;
                                TagManager := Some manager |} in
                    exec cacheStore sessionKey s then
                    ret (Ok s)
                end
              else
                let s := {| addr := a;
                            Client := Some client;
                            Finder := Some finder;
                            sess_datacenter := None;
                            TagManager := Some manager |} in
                exec cacheStore sessionKey s then
                ret (Ok s)
          end
      end
  end.

(** Lines 160-169: the liveness probe.  The error is only logged; the
    decision is taken on the returned session being nil. *)
Definition probe (pf : Platform) (s : Session) : M bool :=
  exec emit (EvTagManagerSession (addr s)) then
  let '(tagManagerSession, err) := TagManager_Session pf (addr s) in
  match tagManagerSession with
  | None => ret false
  | Some _ => ret true
  end.

Definition GetOrCreate (pf : Platform) (params : Params) : M (result Session) :=
  let sessionKey := sessionKeyOf params in
  let* cachedSession := cacheLoad sessionKey in
  match cachedSession with
  | Some s =>
      let* returnCached :=
        (if refreshRestClient params then probe pf s else ret true) in
      if returnCached : bool then ret (Ok s)
      else GetOrCreate_create pf params
  | None => GetOrCreate_create pf params
  end.

End session.

(* ===================================================================== *)
(** ** Kubernetes objects and helpers shared by the two reconcilers *)
(* ===================================================================== *)

(** reconcile.Result *)
Record Result := { Requeue : bool; RequeueAfter : Duration }.

(** reconcile.Result{} *)
Definition ResultZero : Result := {| Requeue := false; RequeueAfter := 0 |}.

Inductive ConditionStatus := ConditionTrue | ConditionFalse | ConditionUnknown.

Record Condition := {
  cond_Status : ConditionStatus;
  cond_Reason : string;
  cond_Severity : string;
  cond_Message : string
}.

(** The condition list of an object.  cluster-api's conditions.Set upserts
    by condition type, so the list is kept as a map from type to condition;
    transition times and the order of the list are left out. *)
Abbreviation Conditions := (gmap string Condition).

(** conditions.MarkTrue *)
Definition MarkTrue (t : string) (cs : Conditions) : Conditions :=
  <[t := {| cond_Status := ConditionTrue; cond_Reason := "";
            cond_Severity := ""; cond_Message := "" |}]> cs.

(** conditions.MarkFalse *)
Definition MarkFalse (t reason severity message : string) (cs : Conditions)
    : Conditions :=
  <[t := {| cond_Status := ConditionFalse; cond_Reason := reason;
            cond_Severity := severity; cond_Message := message |}]> cs.

(** conditions.IsTrue *)
Definition condIsTrue (t : string) (cs : Conditions) : bool :=
  match cs !! t with
  | Some c => match cond_Status c with ConditionTrue => true | _ => false end
  | None => false
  end.

(** clusterv1.ConditionSeverity* and clusterv1.DeletingReason *)
Definition ConditionSeverityError : string := "Error".
Definition ConditionSeverityWarning : string := "Warning".
Definition ConditionSeverityInfo : string := "Info".
Definition DeletingReason : string := "Deleting".

(** controllerutil.ContainsFinalizer *)
Definition ContainsFinalizer (fs : list string) (f : string) : bool :=
  existsb (String.eqb f) fs.

(** controllerutil.AddFinalizer: appended unless already present. *)
Definition AddFinalizer (fs : list string) (f : string) : list string :=
  if ContainsFinalizer fs f then fs else fs ++ [f].

(** controllerutil.RemoveFinalizer: every occurrence is dropped. *)
Definition RemoveFinalizer (fs : list string) (f : string) : list string :=
  List.filter (fun e => negb (String.eqb e f)) fs.

(** Modelled from the spec: the finalizer strings, the condition types and
    the reasons are constants of the api package, which is not among the
    sources.  The spec requires distinct finalizers for cluster resources,
    VM resources and identity secrets. *)
Definition ClusterFinalizer : string :=
  "vspherecluster.infrastructure.cluster.x-k8s.io".
Definition VMFinalizer : string :=
  "vspherevm.infrastructure.cluster.x-k8s.io".
Definition SecretIdentitySetFinalizer : string :=
  "vspherecluster/infrastructure.cluster.x-k8s.io".
Definition CCMAvailableCondition : string := "CCMAvailable".
Definition CSIAvailableCondition : string := "CSIAvailable".
Definition VCenterAvailableCondition : string := "VCenterAvailable".
Definition FailureDomainsAvailableCondition : string :=
  "FailureDomainsAvailable".
Definition VMProvisionedCondition : string := "VMProvisioned".
Definition VCenterUnreachableReason : string := "VCenterUnreachable".
Definition WaitingForFailureDomainStatusReason : string :=
  "WaitingForFailureDomainStatus".
Definition FailureDomainsSkippedReason : string := "FailureDomainsSkipped".
Definition WaitingForStaticIPAllocationReason : string :=
  "WaitingForStaticIPAllocation".
Definition SecretKind : string := "Secret".

(** A function either returns or panics (nil pointer dereference). *)
Inductive outcome (A : Type) :=
| Returned (a : A)
| Panicked.
Arguments Returned {A} a.
Arguments Panicked {A}.

(* ===================================================================== *)
(** ** controllers/vspherecluster_controller.go *)
(* ===================================================================== *)

Module clusterReconciler.

Record APIEndpoint := { ep_Host : string; ep_Port : Z }.

Definition APIEndpoint_IsZero (e : APIEndpoint) : bool :=
  String.eqb (ep_Host e) "" && Z.eqb (ep_Port e) 0.

Record VSphereIdentityReference := { ref_Kind : string; ref_Name : string }.

Record FailureDomainSpec := { fd_ControlPlane : bool }.

(** infrav1.VSphereCluster: metadata, spec and status, flattened. *)
Record VSphereCluster := {
  Kind : string;
  Namespace : string;
  Name : string;
  UID : string;
  Annotations : gmap string string;
  Finalizers : list string;
  DeletionTimestamp : option Z;
  Spec_Server : string;
  Spec_Thumbprint : string;
  Spec_IdentityRef : option VSphereIdentityReference;
  Spec_ControlPlaneEndpoint : APIEndpoint;
  Status_Ready : bool;
  Status_Conditions : Conditions;
  Status_FailureDomains : gmap string FailureDomainSpec
}.

Definition setFinalizers (fs : list string) (c : VSphereCluster) :=
  {| Kind := Kind c; Namespace := Namespace c; Name := Name c; UID := UID c;
     Annotations := Annotations c; Finalizers := fs;
     DeletionTimestamp := DeletionTimestamp c;
     Spec_Server := Spec_Server c; Spec_Thumbprint := Spec_Thumbprint c;
     Spec_IdentityRef := Spec_IdentityRef c;
     Spec_ControlPlaneEndpoint := Spec_ControlPlaneEndpoint c;
     Status_Ready := Status_Ready c;
     Status_Conditions := Status_Conditions c;
     Status_FailureDomains := Status_FailureDomains c |}.

Definition setConditions (cs : Conditions) (c : VSphereCluster) :=
  {| Kind := Kind c; Namespace := Namespace c; Name := Name c; UID := UID c;
     Annotations := Annotations c; Finalizers := Finalizers c;
     DeletionTimestamp := DeletionTimestamp c;
     Spec_Server := Spec_Server c; Spec_Thumbprint := Spec_Thumbprint c;
     Spec_IdentityRef := Spec_IdentityRef c;
     Spec_ControlPlaneEndpoint := Spec_ControlPlaneEndpoint c;
     Status_Ready := Status_Ready c;
     Status_Conditions := cs;
     Status_FailureDomains := Status_FailureDomains c |}.

Definition setFailureDomains (fds : gmap string FailureDomainSpec)
    (c : VSphereCluster) :=
  {| Kind := Kind c; Namespace := Namespace c; Name := Name c; UID := UID c;
     Annotations := Annotations c; Finalizers := Finalizers c;
     DeletionTimestamp := DeletionTimestamp c;
     Spec_Server := Spec_Server c; Spec_Thumbprint := Spec_Thumbprint c;
     Spec_IdentityRef := Spec_IdentityRef c;
     Spec_ControlPlaneEndpoint := Spec_ControlPlaneEndpoint c;
     Status_Ready := Status_Ready c;
     Status_Conditions := Status_Conditions c;
     Status_FailureDomains := fds |}.

Definition setReady (b : bool) (c : VSphereCluster) :=
  {| Kind := Kind c; Namespace := Namespace c; Name := Name c; UID := UID c;
     Annotations := Annotations c; Finalizers := Finalizers c;
     DeletionTimestamp := DeletionTimestamp c;
     Spec_Server := Spec_Server c; Spec_Thumbprint := Spec_Thumbprint c;
     Spec_IdentityRef := Spec_IdentityRef c;
     Spec_ControlPlaneEndpoint := Spec_ControlPlaneEndpoint c;
     Status_Ready := b;
     Status_Conditions := Status_Conditions c;
     Status_FailureDomains := Status_FailureDomains c |}.

Definition markTrue (t : string) (c : VSphereCluster) :=
  setConditions (MarkTrue t (Status_Conditions c)) c.

Definition markFalse (t reason severity message : string)
    (c : VSphereCluster) :=
  setConditions (MarkFalse t reason severity message (Status_Conditions c)) c.

(** infrav1.VSphereDeploymentZone; [ControlPlane] and [Ready] are pointers
    to booleans. *)
Record VSphereDeploymentZone := {
  zone_Name : string;
  zone_Server : string;
  zone_ControlPlane : option bool;
  zone_Ready : option bool
}.

Record VSphereMachine := { machine_Name : string }.

Record OwnerReference := {
  owner_APIVersion : string;
  owner_Kind : string;
  owner_Name : string;
  owner_UID : string
}.

Record Secret := {
  secret_Namespace : string;
  secret_Name : string;
  secret_OwnerReferences : list OwnerReference;
  secret_Finalizers : list string
}.

Definition secretSetFinalizers (fs : list string) (s : Secret) : Secret :=
  {| secret_Namespace := secret_Namespace s; secret_Name := secret_Name s;
     secret_OwnerReferences := secret_OwnerReferences s;
     secret_Finalizers := fs |}.

Definition secretSetOwnerReferences (rs : list OwnerReference) (s : Secret)
    : Secret :=
  {| secret_Namespace := secret_Namespace s; secret_Name := secret_Name s;
     secret_OwnerReferences := rs;
     secret_Finalizers := secret_Finalizers s |}.

(** The owning clusterv1.Cluster, as far as the reconciler reads it. *)
Record Cluster := {
  cluster_UID : string;
  cluster_DeletionTimestamp : option Z;
  cluster_Conditions : Conditions
}.

Definition ControlPlaneInitializedCondition : string :=
  "ControlPlaneInitialized".

(** Requests sent through ctx.Client, in the order they are sent. *)
Inductive ClientCall :=
| CallListDeploymentZones
| CallListVSphereMachines (ns name : string)
| CallGetSecret (ns name : string)
| CallUpdateSecret (s : Secret)
| CallDeleteSecret (s : Secret).

(** What lies outside the reconciler: the answers of the API server, the
    helpers of other packages, and the controller manager's settings. *)
Record Env := {
  ListDeploymentZones : result (list VSphereDeploymentZone);
  GetVSphereMachinesInCluster : string -> string -> result (list VSphereMachine);
  GetSecret : string -> string -> result Secret;
  UpdateSecret : Secret -> option error;
  DeleteSecret : Secret -> option error;
  IsOwnedByObject : Secret -> VSphereCluster -> bool;
  GetCredentials : VSphereCluster -> result session.Userinfo;
  isAPIServerOnline : bool;
  vsphere : session.Platform;
  ctx_Username : string;
  ctx_Password : string;
  ctx_EnableKeepAlive : bool;
  ctx_KeepAliveDuration : Duration
}.

(** What a pass leaves behind. *)
Record Pass := {
  pass_cluster : VSphereCluster;
  pass_result : Result;
  pass_err : option error;
  pass_calls : list ClientCall
}.

(** Modelled from the spec: identity.IsSecretIdentity is not among the
    sources; an identity-bound secret is an identity reference of kind
    Secret. *)
Definition IsSecretIdentity (c : VSphereCluster) : bool :=
  match Spec_IdentityRef c with
  | Some r => String.eqb (ref_Kind r) SecretKind
  | None => false
  end.

(** The Name of an identity reference; Go dereferences the pointer, which
    is non-nil whenever [IsSecretIdentity] holds. *)
Definition identityRefName (c : VSphereCluster) : string :=
  match Spec_IdentityRef c with
  | Some r => ref_Name r
  | None => ""
  end.

Definition reconcileDelete (env : Env) (vsphereCluster : VSphereCluster)
    : Pass :=
  let c := markFalse CCMAvailableCondition DeletingReason
             ConditionSeverityInfo "" vsphereCluster in
  let c := markFalse CSIAvailableCondition DeletingReason
             ConditionSeverityInfo "" c in
  let calls := [CallListVSphereMachines (Namespace c) (Name c)] in
  match GetVSphereMachinesInCluster env (Namespace c) (Name c) with
  | Err e =>
      {| pass_cluster := c; pass_result := ResultZero;
         pass_err := Some (Wrap e "unable to list VSphereMachines part of VSphereCluster");
         pass_calls := calls |}
  | Ok vsphereMachines =>
      if (0 <? length vsphereMachines)%nat then
        {| pass_cluster := c;
           pass_result := {| Requeue := false; RequeueAfter := 10 * Second |};
           pass_err := None; pass_calls := calls |}
      else if IsSecretIdentity c then
        let calls := calls ++ [CallGetSecret (Namespace c) (identityRefName c)] in
        match GetSecret env (Namespace c) (identityRefName c) with
        | Err e =>
            if IsNotFound e then
              {| pass_cluster :=
                   setFinalizers (RemoveFinalizer (Finalizers c) ClusterFinalizer) c;
                 pass_result := ResultZero; pass_err := None;
                 pass_calls := calls |}
            else
              {| pass_cluster := c; pass_result := ResultZero;
                 pass_err := Some e; pass_calls := calls |}
        | Ok secret =>
            let secret :=
              secretSetFinalizers
                (RemoveFinalizer (secret_Finalizers secret)
                   SecretIdentitySetFinalizer) secret in
            let calls := calls ++ [CallUpdateSecret secret] in
            match UpdateSecret env secret with
            | Some e =>
                {| pass_cluster := c; pass_result := ResultZero;
                   pass_err := Some e; pass_calls := calls |}
            | None =>
                let calls := calls ++ [CallDeleteSecret secret] in
                match DeleteSecret env secret with
                | Some e =>
                    {| pass_cluster := c; pass_result := ResultZero;
                       pass_err := Some e; pass_calls := calls |}
                | None =>
                    {| pass_cluster :=
                         setFinalizers
                           (RemoveFinalizer (Finalizers c) ClusterFinalizer) c;
                       pass_result := ResultZero; pass_err := None;
                       pass_calls := calls |}
                end
            end
        end
      else
        {| pass_cluster :=
             setFinalizers (RemoveFinalizer (Finalizers c) ClusterFinalizer) c;
           pass_result := ResultZero; pass_err := None;
           pass_calls := calls |}
  end.

(** strings.Split(s, ":"): the pieces between the colons; a string without
    colon, the empty one included, gives a single piece. *)
Fixpoint splitColon (s : string) : list string :=
  match s with
  | EmptyString => [""]
  | String c rest =>
      if Ascii.eqb c ":"%char then "" :: splitColon rest
      else match splitColon rest with
           | piece :: pieces => String c piece :: pieces
           | [] => [String c ""]
           end
  end.

Definition contains (list : list string) (search : string) : bool :=
  existsb (fun item => String.eqb item search) list.

Definition adoptAnnotation : string :=
  "vsphere.infrastructure.cluster.x-k8s.io/adopt-deploymentzone".

Definition shouldIncludeZone (zone : VSphereDeploymentZone)
    (cluster : VSphereCluster) : bool :=
  match Annotations cluster !! adoptAnnotation with
  | None => false
  | Some deploymentZones =>
      let deploymentZonesList := splitColon deploymentZones in
      String.eqb (zone_Server zone) (Spec_Server cluster)
      && contains deploymentZonesList (zone_Name zone)
  end.

(** The locals of the loop of [reconcileDeploymentZones].  The counters
    are Go ints; they never exceed the length of the zone list. *)
Record ZoneLoop := {
  readyNotReported : nat;
  notReady : nat;
  failureDomains : gmap string FailureDomainSpec
}.

(** One iteration; [None] is the panic of dereferencing a nil
    Spec.ControlPlane. *)
Definition zoneIter (cluster : VSphereCluster) (acc : ZoneLoop)
    (zone : VSphereDeploymentZone) : option ZoneLoop :=
  if shouldIncludeZone zone cluster then
    match zone_Ready zone with
    | None =>
        match zone_ControlPlane zone with
        | None => None
        | Some cp =>
            Some {| readyNotReported := S (readyNotReported acc);
                    notReady := notReady acc;
                    failureDomains :=
                      <[zone_Name zone := {| fd_ControlPlane := cp |}]>
                        (failureDomains acc) |}
        end
    | Some true =>
        match zone_ControlPlane zone with
        | None => None
        | Some cp =>
            Some {| readyNotReported := readyNotReported acc;
                    notReady := notReady acc;
                    failureDomains :=
                      <[zone_Name zone := {| fd_ControlPlane := cp |}]>
                        (failureDomains acc) |}
        end
    | Some false =>
        Some {| readyNotReported := readyNotReported acc;
                notReady := S (notReady acc);
                failureDomains := failureDomains acc |}
    end
  else Some acc.

Fixpoint zoneLoop (cluster : VSphereCluster) (acc : ZoneLoop)
    (zones : list VSphereDeploymentZone) : option ZoneLoop :=
  match zones with
  | [] => Some acc
  | zone :: rest =>
      match zoneIter cluster acc zone with
      | None => None
      | Some acc' => zoneLoop cluster acc' rest
      end
  end.

Definition zoneLoopInit : ZoneLoop :=
  {| readyNotReported := 0; notReady := 0; failureDomains := ∅ |}.

(** Returns the cluster as left by the function, and its two results. *)
Definition reconcileDeploymentZones (env : Env) (cluster : VSphereCluster)
    : outcome (VSphereCluster * bool * option error) :=
  match ListDeploymentZones env with
  | Err e =>
      Returned (cluster, false, Some (Wrap e "unable to list deployment zones"))
  | Ok items =>
      match zoneLoop cluster zoneLoopInit items with
      | None => Panicked
      | Some acc =>
          let c := setFailureDomains (failureDomains acc) cluster in
          if (0 <? readyNotReported acc)%nat then
            Returned
              (markFalse FailureDomainsAvailableCondition
                 WaitingForFailureDomainStatusReason ConditionSeverityInfo
                 "waiting for failure domains to report ready status" c,
               false, None)
          else if (0 <? size (failureDomains acc))%nat then
            if (0 <? notReady acc)%nat then
              Returned
                (markFalse FailureDomainsAvailableCondition
                   FailureDomainsSkippedReason ConditionSeverityInfo
                   "one or more failure domains are not ready" c,
                 true, None)
            else
              Returned (markTrue FailureDomainsAvailableCondition c, true, None)
          else Returned (c, true, None)
      end
  end.

(** [Some e] is the error returned; the requests sent come with it. *)
Definition reconcileIdentitySecret (env : Env) (vsphereCluster : VSphereCluster)
    : option error * list ClientCall :=
  if IsSecretIdentity vsphereCluster then
    let ns := Namespace vsphereCluster in
    let name := identityRefName vsphereCluster in
    let calls := [CallGetSecret ns name] in
    match GetSecret env ns name with
    | Err e => (Some e, calls)
    | Ok secret =>
        let owned := IsOwnedByObject env secret vsphereCluster in
        if negb owned && (0 <? length (secret_OwnerReferences secret))%nat then
          (Some (Errorf "another cluster has set the OwnerRef for secret"),
           calls)
        else
          let secret :=
            if negb owned then
              secretSetOwnerReferences
                [{| owner_APIVersion := session.GroupVersion;
                    owner_Kind := Kind vsphereCluster;
                    owner_Name := Name vsphereCluster;
                    owner_UID := UID vsphereCluster |}] secret
            else secret in
          let secret :=
            if negb (ContainsFinalizer (secret_Finalizers secret)
                       SecretIdentitySetFinalizer)
            then secretSetFinalizers
                   (AddFinalizer (secret_Finalizers secret)
                      SecretIdentitySetFinalizer) secret
            else secret in
          (UpdateSecret env secret, calls ++ [CallUpdateSecret secret])
    end
  else (None, []).

Definition resultError {A} (r : result A) : option error :=
  match r with
  | Ok _ => None
  | Err e => Some e
  end.

(** The session is dropped; only the error of [GetOrCreate] is returned. *)
Definition reconcileVCenterConnectivity (env : Env)
    (vsphereCluster : VSphereCluster) : session.M (option error) :=
  let params (u : session.Userinfo) :=
    {| session.server := Spec_Server vsphereCluster;
       session.datacenter := "";
       session.userinfo := Some u;
       session.thumbprint := Spec_Thumbprint vsphereCluster;
       session.feature :=
         {| session.EnableKeepAlive := ctx_EnableKeepAlive env;
            session.KeepAliveDuration := ctx_KeepAliveDuration env |};
       session.refreshRestClient := false;
       session.caller := "clusterReconciler" |} in
  match Spec_IdentityRef vsphereCluster with
  | Some _ =>
      match GetCredentials env vsphereCluster with
      | Err e => session.ret (Some e)
      | Ok creds =>
          session.bind (session.GetOrCreate (vsphere env) (params creds))
            (fun r => session.ret (resultError r))
      end
  | None =>
      session.bind
        (session.GetOrCreate (vsphere env)
           (params {| session.username := ctx_Username env;
                      session.password := ctx_Password env |}))
        (fun r => session.ret (resultError r))
  end.

(** The package-level [apiServerTriggers] after the call, and whether the
    polling goroutine was started.  The goroutine itself is not modelled. *)
Definition reconcileVSphereClusterWhenAPIServerIsOnline (cluster : Cluster)
    (apiServerTriggers : gset string) : gset string * bool :=
  if condIsTrue ControlPlaneInitializedCondition (cluster_Conditions cluster)
  then (apiServerTriggers, false)
  else if bool_decide (cluster_UID cluster ∈ apiServerTriggers)
  then (apiServerTriggers, false)
  else ({[cluster_UID cluster]} ∪ apiServerTriggers, true).

(** What a Normal pass leaves behind: the pass itself, the session cache,
    the trigger set and the goroutine started, if any. *)
Record NormalPass := {
  normal_pass : Pass;
  normal_sessions : session.State;
  normal_triggers : gset string;
  normal_spawned : bool
}.

Definition reconcileNormal (env : Env) (cluster : Cluster)
    (vsphereCluster : VSphereCluster) (sessions : session.State)
    (apiServerTriggers : gset string) : outcome NormalPass :=
  let stop c res err calls sessions triggers spawned :=
    Returned {| normal_pass := {| pass_cluster := c; pass_result := res;
                                  pass_err := err; pass_calls := calls |};
                normal_sessions := sessions;
                normal_triggers := triggers;
                normal_spawned := spawned |} in
  let c :=
    setFinalizers (AddFinalizer (Finalizers vsphereCluster) ClusterFinalizer)
      vsphereCluster in
  let calls := [CallListDeploymentZones] in
  match reconcileDeploymentZones env c with
  | Panicked => Panicked
  | Returned (c, _, Some err) =>
      stop c ResultZero (Some err) calls sessions apiServerTriggers false
  | Returned (c, false, None) =>
      stop c {| Requeue := false; RequeueAfter := 10 * Second |} None calls
        sessions apiServerTriggers false
  | Returned (c, true, None) =>
      match reconcileIdentitySecret env c with
      | (Some err, calls') =>
          stop (markFalse VCenterAvailableCondition VCenterUnreachableReason
                  ConditionSeverityError (errorMessage err) c)
            ResultZero (Some err) (calls ++ calls') sessions
            apiServerTriggers false
      | (None, calls') =>
          let calls := calls ++ calls' in
          match reconcileVCenterConnectivity env c sessions with
          | (Some err, sessions) =>
              stop (markFalse VCenterAvailableCondition
                      VCenterUnreachableReason ConditionSeverityError
                      (errorMessage err) c)
                ResultZero
                (Some (Wrap err "unexpected error while probing vcenter"))
                calls sessions apiServerTriggers false
          | (None, sessions) =>
              let c := markTrue VCenterAvailableCondition c in
              let c := setReady true c in
              let '(triggers, spawned) :=
                reconcileVSphereClusterWhenAPIServerIsOnline cluster
                  apiServerTriggers in
              if APIEndpoint_IsZero (Spec_ControlPlaneEndpoint c) then
                stop c ResultZero None calls sessions triggers spawned
              else if negb (bool_decide (cluster_DeletionTimestamp cluster = None)) then
                stop (markFalse CSIAvailableCondition DeletingReason
                        ConditionSeverityInfo ""
                        (markFalse CCMAvailableCondition DeletingReason
                           ConditionSeverityInfo "" c))
                  ResultZero None calls sessions triggers spawned
              else if negb (isAPIServerOnline env) then
                stop c ResultZero None calls sessions triggers spawned
              else
                stop (markTrue CSIAvailableCondition c) ResultZero None calls
                  sessions triggers spawned
          end
      end
  end.

End clusterReconciler.

(* ===================================================================== *)
(** ** controllers/vspherevm_controller.go *)
(* ===================================================================== *)

Module vmReconciler.

Record NetworkDeviceSpec := {
  DHCP4 : bool;
  DHCP6 : bool;
  IPAddrs : list string
}.

Record NetworkStatus := {
  net_Connected : bool;
  net_IPAddrs : list string;
  net_MACAddr : string;
  net_NetworkName : string
}.

(** infrav1.VirtualMachineState is a string type. *)
Definition VirtualMachineStateNotFound : string := "notfound".
Definition VirtualMachineStatePending : string := "pending".
Definition VirtualMachineStateReady : string := "ready".

(** infrav1.VirtualMachine, the report of the lifecycle service. *)
Record VirtualMachine := {
  vm_Name : string;
  vm_BiosUUID : string;
  vm_State : string;
  vm_Network : list NetworkStatus
}.

(** infrav1.VSphereVM: metadata, spec and status, flattened.  The two
    failure fields are pointers. *)
Record VSphereVM := {
  Namespace : string;
  Name : string;
  Finalizers : list string;
  DeletionTimestamp : option Z;
  Spec_BiosUUID : string;
  Spec_Devices : list NetworkDeviceSpec;
  Status_Ready : bool;
  Status_Network : list NetworkStatus;
  Status_Addresses : list string;
  Status_FailureReason : option string;
  Status_FailureMessage : option string;
  Status_Conditions : Conditions
}.

Definition setFinalizers (fs : list string) (v : VSphereVM) :=
  {| Namespace := Namespace v; Name := Name v; Finalizers := fs;
     DeletionTimestamp := DeletionTimestamp v;
     Spec_BiosUUID := Spec_BiosUUID v; Spec_Devices := Spec_Devices v;
     Status_Ready := Status_Ready v; Status_Network := Status_Network v;
     Status_Addresses := Status_Addresses v;
     Status_FailureReason := Status_FailureReason v;
     Status_FailureMessage := Status_FailureMessage v;
     Status_Conditions := Status_Conditions v |}.

Definition setBiosUUID (u : string) (v : VSphereVM) :=
  {| Namespace := Namespace v; Name := Name v; Finalizers := Finalizers v;
     DeletionTimestamp := DeletionTimestamp v;
     Spec_BiosUUID := u; Spec_Devices := Spec_Devices v;
     Status_Ready := Status_Ready v; Status_Network := Status_Network v;
     Status_Addresses := Status_Addresses v;
     Status_FailureReason := Status_FailureReason v;
     Status_FailureMessage := Status_FailureMessage v;
     Status_Conditions := Status_Conditions v |}.

Definition setReady (b : bool) (v : VSphereVM) :=
  {| Namespace := Namespace v; Name := Name v; Finalizers := Finalizers v;
     DeletionTimestamp := DeletionTimestamp v;
     Spec_BiosUUID := Spec_BiosUUID v; Spec_Devices := Spec_Devices v;
     Status_Ready := b; Status_Network := Status_Network v;
     Status_Addresses := Status_Addresses v;
     Status_FailureReason := Status_FailureReason v;
     Status_FailureMessage := Status_FailureMessage v;
     Status_Conditions := Status_Conditions v |}.

Definition setNetwork (n : list NetworkStatus) (addrs : list string)
    (v : VSphereVM) :=
  {| Namespace := Namespace v; Name := Name v; Finalizers := Finalizers v;
     DeletionTimestamp := DeletionTimestamp v;
     Spec_BiosUUID := Spec_BiosUUID v; Spec_Devices := Spec_Devices v;
     Status_Ready := Status_Ready v; Status_Network := n;
     Status_Addresses := addrs;
     Status_FailureReason := Status_FailureReason v;
     Status_FailureMessage := Status_FailureMessage v;
     Status_Conditions := Status_Conditions v |}.

Definition setConditions (cs : Conditions) (v : VSphereVM) :=
  {| Namespace := Namespace v; Name := Name v; Finalizers := Finalizers v;
     DeletionTimestamp := DeletionTimestamp v;
     Spec_BiosUUID := Spec_BiosUUID v; Spec_Devices := Spec_Devices v;
     Status_Ready := Status_Ready v; Status_Network := Status_Network v;
     Status_Addresses := Status_Addresses v;
     Status_FailureReason := Status_FailureReason v;
     Status_FailureMessage := Status_FailureMessage v;
     Status_Conditions := cs |}.

Definition markTrue (t : string) (v : VSphereVM) :=
  setConditions (MarkTrue t (Status_Conditions v)) v.

Definition markFalse (t reason severity message : string) (v : VSphereVM) :=
  setConditions (MarkFalse t reason severity message (Status_Conditions v)) v.

(** The VM lifecycle service (services.VirtualMachineService), which is
    not among the sources: what it reports for the VM it is handed. *)
Record VirtualMachineService := {
  ReconcileVM : VSphereVM -> VirtualMachine * option error;
  DestroyVM : VSphereVM -> VirtualMachine * option error
}.

(** Calls made to the lifecycle service, in order. *)
Inductive ServiceCall :=
| CallReconcileVM (v : VSphereVM)
| CallDestroyVM (v : VSphereVM).

Record Pass := {
  pass_vm : VSphereVM;
  pass_result : Result;
  pass_err : option error;
  pass_calls : list ServiceCall
}.

Definition reconcileDelete (vmService : VirtualMachineService)
    (vsphereVM : VSphereVM) : Pass :=
  let v := markFalse VMProvisionedCondition DeletingReason
             ConditionSeverityInfo "" vsphereVM in
  let calls := [CallDestroyVM v] in
  match DestroyVM vmService v with
  | (_, Some err) =>
      {| pass_vm := markFalse VMProvisionedCondition "DeletionFailed"
                      ConditionSeverityWarning (errorMessage err) v;
         pass_result := ResultZero;
         pass_err := Some (Wrap err "failed to destroy VM");
         pass_calls := calls |}
  | (vm, None) =>
      if negb (String.eqb (vm_State vm) VirtualMachineStateNotFound) then
        {| pass_vm := v; pass_result := ResultZero; pass_err := None;
           pass_calls := calls |}
      else
        {| pass_vm := setFinalizers (RemoveFinalizer (Finalizers v) VMFinalizer) v;
           pass_result := ResultZero; pass_err := None;
           pass_calls := calls |}
  end.

Definition isWaitingForStaticIPAllocation (vsphereVM : VSphereVM) : bool :=
  existsb
    (fun dev => negb (DHCP4 dev) && negb (DHCP6 dev)
                && (length (IPAddrs dev) =? 0)%nat)
    (Spec_Devices vsphereVM).

Definition reconcileNetwork (vsphereVM : VSphereVM) (vm : VirtualMachine)
    : VSphereVM :=
  let ipAddrs := concat (map net_IPAddrs (vm_Network vm)) in
  setNetwork (vm_Network vm) ipAddrs vsphereVM.

Definition reconcileNormal (vmService : VirtualMachineService)
    (vsphereVM : VSphereVM) : Pass :=
  if negb (bool_decide (Status_FailureReason vsphereVM = None))
     || negb (bool_decide (Status_FailureMessage vsphereVM = None)) then
    {| pass_vm := vsphereVM; pass_result := ResultZero; pass_err := None;
       pass_calls := [] |}
  else
    let v := setFinalizers (AddFinalizer (Finalizers vsphereVM) VMFinalizer)
               vsphereVM in
    if isWaitingForStaticIPAllocation v then
      {| pass_vm := markFalse VMProvisionedCondition
                      WaitingForStaticIPAllocationReason
                      ConditionSeverityInfo "" v;
         pass_result := ResultZero; pass_err := None; pass_calls := [] |}
    else
      let calls := [CallReconcileVM v] in
      match ReconcileVM vmService v with
      | (_, Some err) =>
          {| pass_vm := v; pass_result := ResultZero;
             pass_err := Some (Wrap err "failed to reconcile VM");
             pass_calls := calls |}
      | (vm, None) =>
          if negb (String.eqb (vm_State vm) VirtualMachineStateReady) then
            {| pass_vm := v; pass_result := ResultZero; pass_err := None;
               pass_calls := calls |}
          else if negb (String.eqb (vm_BiosUUID vm) "") then
            let v := setBiosUUID (vm_BiosUUID vm) v in
            let v := reconcileNetwork v vm in
            if (length (Status_Addresses v) =? 0)%nat then
              {| pass_vm := v;
                 pass_result := {| Requeue := false;
                                   RequeueAfter := 10 * Second |};
                 pass_err := None; pass_calls := calls |}
            else
              {| pass_vm := markTrue VMProvisionedCondition (setReady true v);
                 pass_result := ResultZero; pass_err := None;
                 pass_calls := calls |}
          else
            {| pass_vm := v; pass_result := ResultZero;
               pass_err := Some (Errorf "bios uuid is empty while VM is ready");
               pass_calls := calls |}
      end.

End vmReconciler.

(* ===================================================================== *)
(** ** pkg/session: parameters and lookups by UUID *)
(* ===================================================================== *)

Module sessionAPI.
Import session.

Section Builders.

(** constants.DefaultEnableKeepAlive, a constant of pkg/constants. *)
Variable DefaultEnableKeepAlive : bool.

Definition DefaultFeature : Feature :=
  {| EnableKeepAlive := DefaultEnableKeepAlive; KeepAliveDuration := 0 |}.

Definition NewParams : Params :=
  {| server := ""; datacenter := ""; userinfo := None; thumbprint := "";
     feature := DefaultFeature; refreshRestClient := false; caller := "" |}.

End Builders.

Definition WithServer (server : string) (p : Params) : Params :=
  {| session.server := server; datacenter := datacenter p;
     userinfo := userinfo p; thumbprint := thumbprint p;
     feature := feature p; refreshRestClient := refreshRestClient p;
     caller := caller p |}.

Definition WithDatacenter (datacenter : string) (p : Params) : Params :=
  {| server := server p; session.datacenter := datacenter;
     userinfo := userinfo p; thumbprint := thumbprint p;
     feature := feature p; refreshRestClient := refreshRestClient p;
     caller := caller p |}.

(** url.UserPassword(username, password) *)
Definition WithUserInfo (username password : string) (p : Params) : Params :=
  {| server := server p; datacenter := datacenter p;
     userinfo := Some {| session.username := username;
                         session.password := password |};
     thumbprint := thumbprint p;
     feature := feature p; refreshRestClient := refreshRestClient p;
     caller := caller p |}.

Definition WithThumbprint (thumbprint : string) (p : Params) : Params :=
  {| server := server p; datacenter := datacenter p;
     userinfo := userinfo p; session.thumbprint := thumbprint;
     feature := feature p; refreshRestClient := refreshRestClient p;
     caller := caller p |}.

Definition WithFeatures (feature : Feature) (p : Params) : Params :=
  {| server := server p; datacenter := datacenter p;
     userinfo := userinfo p; thumbprint := thumbprint p;
     session.feature := feature; refreshRestClient := refreshRestClient p;
     caller := caller p |}.

Definition RefreshRestClient (p : Params) : Params :=
  {| server := server p; datacenter := datacenter p;
     userinfo := userinfo p; thumbprint := thumbprint p;
     feature := feature p; refreshRestClient := true;
     caller := caller p |}.

Definition Caller (name : string) (p : Params) : Params :=
  {| server := server p; datacenter := datacenter p;
     userinfo := userinfo p; thumbprint := thumbprint p;
     feature := feature p; refreshRestClient := refreshRestClient p;
     caller := name |}.

(** object.Reference, an opaque managed-object reference. *)
Definition Reference := string.

(** The search index of the vCenter: FindByUuid(datacenter, uuid, vmSearch,
    instanceUuid). *)
Definition SearchIndex :=
  option DatacenterRef -> string -> bool -> bool
  -> option Reference * option error.

Definition findByUUID (si : SearchIndex) (s : Session) (uuid : string)
    (findByInstanceUUID : bool) : option Reference * option error :=
  match Client s with
  | None => (None, Some (Errorf "vSphere client is not initialized"))
  | Some _ =>
      match si (sess_datacenter s) uuid true findByInstanceUUID with
      | (_, Some err) => (None, Some (Wrap err "error finding object by uuid"))
      | (ref, None) => (ref, None)
      end
  end.

Definition FindByBIOSUUID (si : SearchIndex) (s : Session) (uuid : string) :=
  findByUUID si s uuid false.

Definition FindByInstanceUUID (si : SearchIndex) (s : Session)
    (uuid : string) :=
  findByUUID si s uuid true.

End sessionAPI.

(* ===================================================================== *)
(** ** package util: Ignition bootstrap data *)
(* ===================================================================== *)

Module util.

Definition hostNamePath : string := "/etc/hostname".
Definition rootFileSystem : string := "root".

(** ignitionTypes.File, with the fields the code sets; the others keep
    their zero value. *)
Record File := {
  Filesystem : string;
  Path : string;
  Append : bool;
  Contents_Source : string;
  Mode : option Z
}.

Record Networkdunit := {
  Contents : string;
  unit_Name : string
}.

(** ignitionTypes.Config, reduced to the two lists the code reads and
    extends. *)
Record Config := {
  Storage_Files : list File;
  Networkd_Units : list Networkdunit
}.

(** The loop returns at the first file whose path is the hostname path;
    otherwise the file is appended. *)
Definition setHostName (hostname : string) (config : Config) : Config :=
  if existsb (fun file => String.eqb (Path file) hostNamePath)
       (Storage_Files config)
  then config
  else
    {| Storage_Files :=
         Storage_Files config ++
         [{| Filesystem := rootFileSystem;
             Path := hostNamePath;
             Append := false;
             Contents_Source := "data:," +:+ hostname;
             Mode := Some 420 |}];
       Networkd_Units := Networkd_Units config |}.

(** The line feed of the format string. *)
Definition LF : string := String (ascii_of_nat 10) EmptyString.

(** The loop over the devices (infrav1.NetworkDeviceSpec, of which only
    IPAddrs is read): every device with an address overrides [ip4] with its
    first address. *)
Definition lastFirstAddress (devices : list vmReconciler.NetworkDeviceSpec)
    : string :=
  fold_left
    (fun ip4 device =>
       match vmReconciler.IPAddrs device with
       | addr :: _ => addr
       | [] => ip4
       end)
    devices "".

Definition setNetowrk (devices : list vmReconciler.NetworkDeviceSpec)
    (config : Config) : Config :=
  let ip4 := lastFirstAddress devices in
  if (length (Networkd_Units config) =? 0)%nat then
    {| Storage_Files := Storage_Files config;
       Networkd_Units :=
         Networkd_Units config ++
         [{| Contents := "[Match]" +:+ LF +:+ "Name=ens12" +:+ LF +:+ LF
                         +:+ "[Network]" +:+ LF +:+ "Address=" +:+ ip4;
             unit_Name := "00-ens12.network" |}] |}
  else config.

End util.

(* ===================================================================== *)
(** ** Polling, shared by the two controllers *)
(* ===================================================================== *)

(** wait.PollImmediateInfinite over the successive values of the condition,
    none of which errors here: the number of evaluations made when the poll
    ends, [None] when it has not ended by the end of the values given. *)
Fixpoint pollImmediateInfinite (conditions : list bool) : option nat :=
  match conditions with
  | [] => None
  | true :: _ => Some 1%nat
  | false :: rest => S <$> pollImmediateInfinite rest
  end.

(* ===================================================================== *)
(** ** controllers/vspherecluster_controller.go: entry point, probes and
       watch mappings *)
(* ===================================================================== *)

Module clusterController.
Import clusterReconciler.

(** [isControlPlaneInitialized]: [get] is the answer to the Get of the
    owning cluster.  The fetched object is not read: the condition is looked
    up on the cluster held by the context. *)
Definition isControlPlaneInitialized (get : result Cluster) (cluster : Cluster)
    : bool :=
  match get with
  | Err e => if negb (IsNotFound e) then false else true
  | Ok _ => condIsTrue ControlPlaneInitializedCondition
              (cluster_Conditions cluster)
  end.

(** [isAPIServerOnline]: the answers of infrautilv1.NewKubeClient and of
    the node listing; the later Get only changes what is logged. *)
Definition isAPIServerOnline (newKubeClient nodesList : option error) : bool :=
  match newKubeClient with
  | None => match nodesList with
            | None => true
            | Some _ => false
            end
  | Some _ => false
  end.

(** What the goroutine started by
    [reconcileVSphereClusterWhenAPIServerIsOnline] does to the package-level
    [apiServerTriggers], given the successive answers met by its two polls:
    the key is deleted once both polls have ended. *)
Definition apiServerOnlineGoroutine (cluster : Cluster)
    (online : list bool) (gets : list (result Cluster))
    (apiServerTriggers : gset string) : option (gset string) :=
  match pollImmediateInfinite online with
  | None => None
  | Some _ =>
      match pollImmediateInfinite
              (map (fun get => isControlPlaneInitialized get cluster) gets) with
      | None => None
      | Some _ => Some (apiServerTriggers ∖ {[cluster_UID cluster]})
      end
  end.

(** metav1.ObjectReference, a pointer in Cluster.Spec. *)
Record ObjectReference := { ref_Name : string }.

(** clusterv1.Cluster as the mapping functions read it. *)
Record OwnerCluster := {
  oc_Namespace : string;
  oc_Name : string;
  oc_Conditions : Conditions;
  oc_ControlPlaneEndpoint : APIEndpoint;
  oc_InfrastructureRef : option ObjectReference
}.

(** infrav1.VSphereMachine as the mapping functions read it; of the
    addresses only their number matters. *)
Record InfraMachine := {
  im_Namespace : string;
  im_Name : string;
  im_Addresses : list string
}.

(** client.Object, by dynamic type. *)
Inductive Object :=
| ObjVSphereMachine (m : InfraMachine)
| ObjVSphereDeploymentZone (z : VSphereDeploymentZone)
| ObjOther.

(** ctrl.Request *)
Record Request := {
  req_Namespace : string;
  req_Name : string
}.

(** What the mapping functions ask of other packages and of the API
    server. *)
Record WatchEnv := {
  IsControlPlaneMachine : InfraMachine -> bool;
  GetMachinePreferredIPAddress : InfraMachine -> result string;
  GetClusterFromMetadata : InfraMachine -> result OwnerCluster;
  GetVSphereCluster : string -> string -> result VSphereCluster;
  ListVSphereClusters : result (list VSphereCluster)
}.

(** [controlPlaneMachineToCluster]; dereferencing a nil
    Spec.InfrastructureRef panics. *)
Definition controlPlaneMachineToCluster (env : WatchEnv) (o : Object)
    : outcome (list Request) :=
  match o with
  | ObjVSphereMachine vsphereMachine =>
      if negb (IsControlPlaneMachine env vsphereMachine) then Returned []
      else if (length (im_Addresses vsphereMachine) =? 0)%nat then Returned []
      else
        match GetMachinePreferredIPAddress env vsphereMachine with
        | Err _ => Returned []
        | Ok _ =>
            match GetClusterFromMetadata env vsphereMachine with
            | Err _ => Returned []
            | Ok cluster =>
                if condIsTrue ControlPlaneInitializedCondition
                     (oc_Conditions cluster)
                then Returned []
                else if negb (APIEndpoint_IsZero
                                (oc_ControlPlaneEndpoint cluster))
                then Returned []
                else
                  match oc_InfrastructureRef cluster with
                  | None => Panicked
                  | Some infrastructureRef =>
                      let ns := im_Namespace vsphereMachine in
                      let name := ref_Name infrastructureRef in
                      match GetVSphereCluster env ns name with
                      | Err _ => Returned []
                      | Ok vsphereCluster =>
                          if negb (APIEndpoint_IsZero
                                     (Spec_ControlPlaneEndpoint vsphereCluster))
                          then Returned []
                          else Returned [{| req_Namespace := ns;
                                            req_Name := name |}]
                      end
                  end
            end
        end
  | _ => Returned []
  end.


(** What [Reconcile] asks before and after the pass itself. *)
Record ReconcileEnv := {
  Get : result VSphereCluster;
  GetOwnerCluster : result (option Cluster);
  IsPaused : Cluster -> VSphereCluster -> bool;
  NewHelper : option error;
  Patch : VSphereCluster -> option error;
  passEnv : Env
}.

(** What [Reconcile] leaves behind: its two results, the objects handed
    to the deferred patch, and the package-level state. *)
Record Reconciled := {
  rec_result : Result;
  rec_err : option error;
  rec_patched : list VSphereCluster;
  rec_sessions : session.State;
  rec_triggers : gset string
}.

(** The deferred function: the patch error becomes the returned error when
    there was none. *)
Definition patchOnExit (env : ReconcileEnv) (pass : Pass)
    (sessions : session.State) (triggers : gset string) : Reconciled :=
  {| rec_result := pass_result pass;
     rec_err := match Patch env (pass_cluster pass) with
                | Some err => match pass_err pass with
                              | None => Some err
                              | Some reterr => Some reterr
                              end
                | None => pass_err pass
                end;
     rec_patched := [pass_cluster pass];
     rec_sessions := sessions;
     rec_triggers := triggers |}.

Definition Reconcile (env : ReconcileEnv) (sessions : session.State)
    (apiServerTriggers : gset string) : outcome Reconciled :=
  let stop err :=
    Returned {| rec_result := ResultZero; rec_err := err; rec_patched := [];
                rec_sessions := sessions;
                rec_triggers := apiServerTriggers |} in
  match Get env with
  | Err err => if IsNotFound err then stop None else stop (Some err)
  | Ok vsphereCluster =>
      match GetOwnerCluster env with
      | Err err => stop (Some err)
      | Ok None => stop None
      | Ok (Some cluster) =>
          if IsPaused env cluster vsphereCluster then stop None
          else
            match NewHelper env with
            | Some err => stop (Some (Wrap err "failed to init patch helper"))
            | None =>
                if negb (bool_decide (DeletionTimestamp vsphereCluster = None))
                then
                  Returned (patchOnExit env
                              (reconcileDelete (passEnv env) vsphereCluster)
                              sessions apiServerTriggers)
                else
                  match reconcileNormal (passEnv env) cluster vsphereCluster
                          sessions apiServerTriggers with
                  | Panicked => Panicked
                  | Returned np =>
                      Returned (patchOnExit env (normal_pass np)
                                  (normal_sessions np) (normal_triggers np))
                  end
            end
      end
  end.

End clusterController.

(* ===================================================================== *)
(** ** controllers/vspherevm_controller.go: entry point and session
       retrieval *)
(* ===================================================================== *)

Module vmController.
Import vmReconciler.

(** The fields of VSphereVM.Spec that name the vCenter; the record of the
    reconciler above leaves them out. *)
Record Connection := {
  Spec_Server : string;
  Spec_Datacenter : string;
  Spec_Thumbprint : string
}.

(** What [retrieveVcenterSession] asks of the API server and of the
    identity package, and the settings of the controller manager. *)
Record SessionEnv := {
  GetClusterFromMetadata : result clusterController.OwnerCluster;
  GetVSphereCluster :
    string -> string -> result clusterReconciler.VSphereCluster;
  GetCredentials : clusterReconciler.VSphereCluster -> result session.Userinfo;
  ctx_Username : string;
  ctx_Password : string;
  ctx_EnableKeepAlive : bool;
  ctx_KeepAliveDuration : Duration;
  vsphere : session.Platform
}.

Definition sessionParams (env : SessionEnv) (vm : Connection)
    (username password : string) : session.Params :=
  {| session.server := Spec_Server vm;
     session.datacenter := Spec_Datacenter vm;
     session.userinfo := Some {| session.username := username;
                                 session.password := password |};
     session.thumbprint := Spec_Thumbprint vm;
     session.feature :=
       {| session.EnableKeepAlive := ctx_EnableKeepAlive env;
          session.KeepAliveDuration := ctx_KeepAliveDuration env |};
     session.refreshRestClient := false;
     session.caller := "vmReconciler" |}.

(** [retrieveVcenterSession]; dereferencing a nil Spec.InfrastructureRef
    of the owning cluster panics. *)
Definition retrieveVcenterSession (env : SessionEnv) (vm : Connection)
    : session.M (outcome (result session.Session)) :=
  let fallback :=
    session.bind
      (session.GetOrCreate (vsphere env)
         (sessionParams env vm (ctx_Username env) (ctx_Password env)))
      (fun r => session.ret (Returned r)) in
  match GetClusterFromMetadata env with
  | Err _ => fallback
  | Ok cluster =>
      match clusterController.oc_InfrastructureRef cluster with
      | None => session.ret Panicked
      | Some infrastructureRef =>
          match GetVSphereCluster env
                  (clusterController.oc_Namespace cluster)
                  (clusterController.ref_Name infrastructureRef) with
          | Err _ => fallback
          | Ok vsphereCluster =>
              match clusterReconciler.Spec_IdentityRef vsphereCluster with
              | Some _ =>
                  match GetCredentials env vsphereCluster with
                  | Err err =>
                      session.ret
                        (Returned
                           (Err (Wrap err
                                   "failed to retrieve credentials from IdentityRef")))
                  | Ok creds =>
                      session.bind
                        (session.GetOrCreate (vsphere env)
                           (sessionParams env vm (session.username creds)
                              (session.password creds)))
                        (fun r => session.ret (Returned r))
                  end
              | None => fallback
              end
          end
      end
  end.

(** The VSphereVM as the API server returns it to the poll that follows
    the patch. *)
Record Remote := {
  remote_ResourceVersion : string;
  remote_Status : VSphereVM
}.

(** The condition of the poll that follows the patch.  [localVersion] is
    the resource version of the local object after the patch, and [equal]
    stands for cmp.Equal on the two statuses with cmpopts.EquateEmpty. *)
Definition patchObserved (equal : VSphereVM -> VSphereVM -> bool)
    (localVersion : string) (localObj : VSphereVM) (get : result Remote)
    : bool :=
  match get with
  | Err err => IsNotFound err
  | Ok remoteObj =>
      if negb (String.eqb localVersion (remote_ResourceVersion remoteObj))
      then true
      else if equal localObj (remote_Status remoteObj) then true
      else false
  end.

(** clusterv1.Machine, of which the failure domain is read. *)
Record Machine := { machine_FailureDomain : option string }.

(** What [Reconcile] asks before and after the pass itself.  [Patch] is
    the answer of the patch helper for the object it is handed and
    [afterPatch] that object as the helper leaves it, of which the closing
    poll compares the status. *)
Record ReconcileEnv := {
  Get : result (VSphereVM * Connection);
  NewHelper : option error;
  sessionEnv : SessionEnv;
  HasOwnerHAProxy : VSphereVM -> bool;
  GetOwnerVSphereMachine : result (option clusterController.InfraMachine);
  GetOwnerMachine : result (option Machine);
  GetFailureDomain : string -> option error;
  GetCluster : result clusterController.OwnerCluster;
  IsPaused : clusterController.OwnerCluster -> VSphereVM -> bool;
  SetSummary : VSphereVM -> VSphereVM;
  Patch : VSphereVM -> option error;
  afterPatch : VSphereVM -> VSphereVM;
  vmService : VirtualMachineService;
  localVersion : string;
  statusEqual : VSphereVM -> VSphereVM -> bool;
  remoteGets : list (result Remote)
}.

(** What [Reconcile] leaves behind.  [rec_polls] is the number of Gets the
    closing poll made; it is [None] when the poll has not ended by the end
    of the answers given, in which case [Reconcile] has not returned. *)
Record Reconciled := {
  rec_result : Result;
  rec_err : option error;
  rec_patched : list VSphereVM;
  rec_calls : list ServiceCall;
  rec_polls : option nat;
  rec_sessions : session.State
}.

(** The deferred function: summary, patch, poll. *)
Definition patchOnExit (env : ReconcileEnv) (pass : Pass)
    (sessions : session.State) : Reconciled :=
  let vsphereVM := SetSummary env (pass_vm pass) in
  {| rec_result := pass_result pass;
     rec_err := match Patch env vsphereVM with
                | Some err => match pass_err pass with
                              | None => Some err
                              | Some reterr => Some reterr
                              end
                | None => pass_err pass
                end;
     rec_patched := [vsphereVM];
     rec_calls := pass_calls pass;
     rec_polls :=
       pollImmediateInfinite
         (map (patchObserved (statusEqual env) (localVersion env)
                 (afterPatch env vsphereVM))
            (remoteGets env));
     rec_sessions := sessions |}.

Definition Reconcile (env : ReconcileEnv) (sessions : session.State)
    : outcome Reconciled :=
  let stop err sessions :=
    Returned {| rec_result := ResultZero; rec_err := err; rec_patched := [];
                rec_calls := []; rec_polls := Some 0%nat;
                rec_sessions := sessions |} in
  match Get env with
  | Err err =>
      if IsNotFound err then stop None sessions else stop (Some err) sessions
  | Ok (vsphereVM, connection) =>
      match NewHelper env with
      | Some err =>
          stop (Some (Wrap err "failed to init patch helper")) sessions
      | None =>
          match retrieveVcenterSession (sessionEnv env) connection sessions with
          | (Panicked, _) => Panicked
          | (Returned (Err err), sessions) => stop (Some err) sessions
          | (Returned (Ok authSession), sessions) =>
              let vsphereVM := markTrue VCenterAvailableCondition vsphereVM in
              let dispatch :=
                let paused :=
                  match GetCluster env with
                  | Ok cluster => IsPaused env cluster vsphereVM
                  | Err _ => false
                  end in
                if paused then
                  Returned (patchOnExit env
                              {| pass_vm := vsphereVM;
                                 pass_result := ResultZero;
                                 pass_err := None; pass_calls := [] |}
                              sessions)
                else if negb (bool_decide (DeletionTimestamp vsphereVM = None))
                then Returned (patchOnExit env
                                 (reconcileDelete (vmService env) vsphereVM)
                                 sessions)
                else Returned (patchOnExit env
                                 (reconcileNormal (vmService env) vsphereVM)
                                 sessions) in
              if negb (HasOwnerHAProxy env vsphereVM) then
                match GetOwnerVSphereMachine env with
                | Err _ => stop None sessions
                | Ok None => stop None sessions
                | Ok (Some vsphereMachine) =>
                    match GetOwnerMachine env with
                    | Err err => stop (Some err) sessions
                    | Ok None => stop None sessions
                    | Ok (Some machine) =>
                        match machine_FailureDomain machine with
                        | Some failureDomain =>
                            match GetFailureDomain env failureDomain with
                            | Some err =>
                                if IsNotFound err then dispatch
                                else stop
                                       (Some (Wrap err
                                                "failed to find vsphere failure domain"))
                                       sessions
                            | None => dispatch
                            end
                        | None => dispatch
                        end
                    end
                end
              else dispatch
          end
      end
  end.

End vmController.

(* ===================================================================== *)
(** ** Specification-level notions for the session cache *)
(* ===================================================================== *)

Module sessionSpec.
Import session.

(** The URL [GetOrCreate] connects to, when the server string parses. *)
Definition soapURLOf (pf : Platform) (p : Params) : option URL :=
  match ParseURL pf (server p) with
  | (Some u, None) => Some {| Host := Host u; User := userinfo p |}
  | _ => None
  end.

Definition isNil {A} (o : option A) : bool :=
  match o with
  | None => true
  | Some _ => false
  end.

(** The platform connection is established. *)
Definition connected (pf : Platform) (p : Params) : bool :=
  match soapURLOf pf p with
  | Some url => isNil (vim25_NewClient pf url (String.eqb (thumbprint p) ""))
  | None => false
  end.

(** The platform login succeeds. *)
Definition authenticated (pf : Platform) (p : Params) : bool :=
  match soapURLOf pf p with
  | Some url => isNil (Login pf url)
  | None => false
  end.

(** The tag-management login succeeds. *)
Definition tagAuthenticated (pf : Platform) (p : Params) : bool :=
  isNil (rest_Login pf (userinfo p)).

(** The datacenter, when one is requested, is resolved by the finder. *)
Definition datacenterScoped (pf : Platform) (p : Params) : bool :=
  String.eqb (datacenter p) ""
  || isNil (snd (Finder_Datacenter pf (datacenter p))).

Definition buildSucceeds (pf : Platform) (p : Params) : bool :=
  connected pf p && authenticated pf p && tagAuthenticated pf p
  && datacenterScoped pf p.

(** A session with its three handles in place, the finder scoped to the
    session's datacenter. *)
Definition complete (s : Session) : Prop :=
  is_Some (Client s) /\ is_Some (TagManager s)
  /\ exists f, Finder s = Some f /\ finder_dc f = sess_datacenter s.

Definition cacheComplete (st : State) : Prop :=
  forall k s, sessionCache st !! k = Some s -> complete s.

(** Every cached session lives at an address already handed out. *)
Definition addrsAllocated (st : State) : Prop :=
  forall k s, sessionCache st !! k = Some s -> (addr s < next_addr st)%nat.

(** The state after the probe has been sent. *)
Definition probed (s : Session) (st : State) : State :=
  {| sessionCache := sessionCache st;
     next_addr := next_addr st;
     trace := trace st ++ [EvTagManagerSession (addr s)] |}.

(** What the Session method of govmomi's rest.Client (v0.23.1, the version
    go.mod pins) guarantees: a nil session next to every error. *)
Definition probeContract (r : option RestSession * option error) : Prop :=
  snd r <> None -> fst r = None.

Definition emptyState : State :=
  {| sessionCache := ∅; next_addr := 0; trace := [] |}.

(** NewParams().WithServer(..).WithUserInfo(..).WithDatacenter(..) with
    the key-relevant fields given and no forced refresh. *)
Definition paramsOf (server username datacenter : string) : Params :=
  {| session.server := server;
     session.datacenter := datacenter;
     userinfo := Some {| session.username := username; password := "" |};
     thumbprint := "";
     feature := {| EnableKeepAlive := false; KeepAliveDuration := 0 |};
     refreshRestClient := false;
     caller := "" |}.

(** A vCenter that accepts everything, whose REST endpoint answers the
    probe with an error. *)
Definition vcenterUp : Platform :=
  {| ParseURL := fun s => (Some {| Host := s; User := None |}, None);
     vim25_NewClient := fun _ _ => None;
     Login := fun _ => None;
     rest_Login := fun _ => None;
     Finder_Datacenter := fun name => (Some name, None);
     TagManager_Session := fun _ => (None, Some (OtherError "connection reset"));
     GetCurrentTime := None |}.

(** The same vCenter with a finder that resolves no datacenter. *)
Definition vcenterNoDatacenter : Platform :=
  {| ParseURL := ParseURL vcenterUp;
     vim25_NewClient := vim25_NewClient vcenterUp;
     Login := Login vcenterUp;
     rest_Login := rest_Login vcenterUp;
     Finder_Datacenter :=
       fun name => (None, Some (OtherError "datacenter not found"));
     TagManager_Session := TagManager_Session vcenterUp;
     GetCurrentTime := None |}.

(** The REST endpoint answers the probe with a session and an error. *)
Definition vcenterProbeErrorWithSession : Platform :=
  {| ParseURL := ParseURL vcenterUp;
     vim25_NewClient := vim25_NewClient vcenterUp;
     Login := Login vcenterUp;
     rest_Login := rest_Login vcenterUp;
     Finder_Datacenter := Finder_Datacenter vcenterUp;
     TagManager_Session :=
       fun _ => (Some {| rest_user := "admin" |},
                 Some (OtherError "unexpected end of JSON input"));
     GetCurrentTime := None |}.

(** A vCenter that refuses every connection. *)
Definition vcenterDown : Platform :=
  {| ParseURL := ParseURL vcenterUp;
     vim25_NewClient := fun _ _ => Some (OtherError "connection refused");
     Login := fun _ => Some (OtherError "connection refused");
     rest_Login := fun _ => Some (OtherError "connection refused");
     Finder_Datacenter :=
       fun _ => (None, Some (OtherError "connection refused"));
     TagManager_Session :=
       fun _ => (None, Some (OtherError "connection refused"));
     GetCurrentTime := Some (OtherError "connection refused") |}.

Definition refreshing (p : Params) : Params :=
  {| session.server := session.server p;
     session.datacenter := session.datacenter p;
     userinfo := userinfo p;
     thumbprint := thumbprint p;
     feature := feature p;
     refreshRestClient := true;
     caller := caller p |}.

(** A session built earlier for ("vcenter", "admin", ""), and a cache that
    holds it. *)
Definition oldSession : Session :=
  {| addr := 0;
     Client := Some {| client_url := {| Host := "vcenter"; User := None |};
                       client_insecure := true;
                       client_thumbprint := None;
                       client_keepalive := None;
                       UserAgent := GroupVersion |};
     Finder := Some {| finder_dc := None |};
     sess_datacenter := None;
     TagManager := Some {| manager_user := None |} |}.

Definition oldState : State :=
  {| sessionCache := {[ "vcenteradmin" := oldSession ]};
     next_addr := 1;
     trace := [] |}.

End sessionSpec.

(* ===================================================================== *)
(** ** Specification-level notions for the cluster reconciler *)
(* ===================================================================== *)

Module clusterSpec.
Import clusterReconciler.

(** A zone matches a cluster: same server, and the zone's name is one of
    the colon-separated names of the adoption annotation. *)
Definition matched (cluster : VSphereCluster) (zone : VSphereDeploymentZone)
    : Prop :=
  zone_Server zone = Spec_Server cluster
  /\ exists names, Annotations cluster !! adoptAnnotation = Some names
                   /\ In (zone_Name zone) (splitColon names).

(** The cluster resource together with the machines it owns. *)
Record World := {
  world_cluster : VSphereCluster;
  world_machines : list VSphereMachine
}.

(** The list a Deleting pass receives is the list of the machines that
    exist, unless the request fails. *)
Definition observes (env : Env) (w : World) : Prop :=
  let c := world_cluster w in
  GetVSphereMachinesInCluster env (Namespace c) (Name c)
    = Ok (world_machines w)
  \/ exists e, GetVSphereMachinesInCluster env (Namespace c) (Name c) = Err e.

(** While a cluster is being deleted, either a Deleting pass runs or some
    of its machines go away. *)
Inductive step : World -> World -> Prop :=
| step_reconcileDelete env w :
    observes env w ->
    step w {| world_cluster := pass_cluster (reconcileDelete env (world_cluster w));
              world_machines := world_machines w |}
| step_drain w remaining :
    sublist remaining (world_machines w) ->
    step w {| world_cluster := world_cluster w;
              world_machines := remaining |}.

Definition reachable (w0 w : World) : Prop := rtc step w0 w.

Definition zone (name server : string) (controlPlane ready : option bool)
    : VSphereDeploymentZone :=
  {| zone_Name := name; zone_Server := server;
     zone_ControlPlane := controlPlane; zone_Ready := ready |}.

(** Matched zones that have not reported, and matched zones that report
    not-ready. *)
Definition unreported (cluster : VSphereCluster) (z : VSphereDeploymentZone)
    : bool :=
  shouldIncludeZone z cluster && bool_decide (zone_Ready z = None).

Definition reportedNotReady (cluster : VSphereCluster)
    (z : VSphereDeploymentZone) : bool :=
  shouldIncludeZone z cluster && bool_decide (zone_Ready z = Some false).

(** An API server with the given answers, next to a vCenter that is up. *)
Definition envOf (zones : result (list VSphereDeploymentZone))
    (machines : result (list VSphereMachine)) (secret : result Secret)
    (update delete : option error) : Env :=
  {| ListDeploymentZones := zones;
     GetVSphereMachinesInCluster := fun _ _ => machines;
     GetSecret := fun _ _ => secret;
     UpdateSecret := fun _ => update;
     DeleteSecret := fun _ => delete;
     IsOwnedByObject := fun _ _ => true;
     GetCredentials :=
       fun _ => Ok {| session.username := "admin"; session.password := "" |};
     isAPIServerOnline := false;
     vsphere := sessionSpec.vcenterUp;
     ctx_Username := "admin";
     ctx_Password := "";
     ctx_EnableKeepAlive := false;
     ctx_KeepAliveDuration := 0 |}.

(** A cluster on server S1 that adopts the zones A and B, takes its
    credentials from a secret and carries its finalizer. *)
Definition exampleCluster : VSphereCluster :=
  {| Kind := "VSphereCluster";
     Namespace := "default";
     Name := "c1";
     UID := "uid-c1";
     Annotations := {[ adoptAnnotation := "A:B" ]};
     Finalizers := [ClusterFinalizer];
     DeletionTimestamp := None;
     Spec_Server := "S1";
     Spec_Thumbprint := "";
     Spec_IdentityRef := Some {| ref_Kind := SecretKind; ref_Name := "creds" |};
     Spec_ControlPlaneEndpoint := {| ep_Host := ""; ep_Port := 0 |};
     Status_Ready := false;
     Status_Conditions := ∅;
     Status_FailureDomains := ∅ |}.

Definition exampleSecret : Secret :=
  {| secret_Namespace := "default";
     secret_Name := "creds";
     secret_OwnerReferences := [];
     secret_Finalizers := [SecretIdentitySetFinalizer] |}.

Definition exampleOwner : Cluster :=
  {| cluster_UID := "uid-owner";
     cluster_DeletionTimestamp := None;
     cluster_Conditions := ∅ |}.

(** The secret is there when it is read and gone when it is updated. *)
Definition secretVanishes : Env :=
  envOf (Ok []) (Ok []) (Ok exampleSecret)
    (Some (NotFoundError "secrets creds not found")) None.

End clusterSpec.

(* ===================================================================== *)
(** ** Specification-level notions for the VM reconciler *)
(* ===================================================================== *)

Module vmSpec.
Import vmReconciler.

(** Some device asks for neither DHCPv4 nor DHCPv6 and has no static
    address. *)
Definition lacksAddress (v : VSphereVM) : Prop :=
  exists dev, In dev (Spec_Devices v)
              /\ DHCP4 dev = false /\ DHCP6 dev = false /\ IPAddrs dev = [].

(** The condition [reconcileNormal] records while it waits for a static
    address. *)
Definition waitingForStaticIP : Condition :=
  {| cond_Status := ConditionFalse;
     cond_Reason := WaitingForStaticIPAllocationReason;
     cond_Severity := ConditionSeverityInfo;
     cond_Message := "" |}.

(** A lifecycle service that reports the given state and identifier, with
    one connected interface holding one address. *)
Definition reporting (state biosUUID : string) : VirtualMachineService :=
  let report v :=
    ({| vm_Name := Name v; vm_BiosUUID := biosUUID; vm_State := state;
        vm_Network := [{| net_Connected := true;
                          net_IPAddrs := ["10.0.0.5"];
                          net_MACAddr := "00:50:56:00:00:01";
                          net_NetworkName := "vm-network" |}] |}, None) in
  {| ReconcileVM := report; DestroyVM := report |}.

(** A VM with the given devices whose identifier is already "abc". *)
Definition vmWith (devices : list NetworkDeviceSpec)
    (failureReason : option string) : VSphereVM :=
  {| Namespace := "default";
     Name := "vm1";
     Finalizers := [VMFinalizer];
     DeletionTimestamp := None;
     Spec_BiosUUID := "abc";
     Spec_Devices := devices;
     Status_Ready := false;
     Status_Network := [];
     Status_Addresses := [];
     Status_FailureReason := failureReason;
     Status_FailureMessage := None;
     Status_Conditions := ∅ |}.

Definition dhcpDevice : NetworkDeviceSpec :=
  {| DHCP4 := true; DHCP6 := false; IPAddrs := [] |}.

Definition staticDeviceUnassigned : NetworkDeviceSpec :=
  {| DHCP4 := false; DHCP6 := false; IPAddrs := [] |}.

End vmSpec.

(* ===================================================================== *)
(** ** Specification-level notions for the further properties *)
(* ===================================================================== *)

(** The condition conditions.MarkTrue records. *)
Definition trueCondition : Condition :=
  {| cond_Status := ConditionTrue; cond_Reason := "";
     cond_Severity := ""; cond_Message := "" |}.

Definition requeueAfterTenSeconds : Result :=
  {| Requeue := false; RequeueAfter := 10 * Second |}.

Module sessionAPISpec.
Import session.

Definition isLogout (e : Event) : bool :=
  match e with
  | EvTagManagerLogout _ | EvSessionManagerLogout _ => true
  | _ => false
  end.

Definition isLogin (e : Event) : bool :=
  match e with
  | EvLogin _ => true
  | _ => false
  end.

Definition isRestLogin (e : Event) : bool :=
  match e with
  | EvRestLogin _ => true
  | _ => false
  end.

Definition count (f : Event -> bool) (events : list Event) : nat :=
  length (List.filter f events).

(** The events a call appends to the trace. *)
Definition appended (before after : State) (events : list Event) : Prop :=
  trace after = trace before ++ events.

(** The answer of [findByUUID] once the search index has been asked. *)
Definition searched (si : sessionAPI.SearchIndex) (s : Session)
    (uuid : string) (instance : bool)
    : option sessionAPI.Reference * option error :=
  match si (sess_datacenter s) uuid true instance with
  | (_, Some err) => (None, Some (Wrap err "error finding object by uuid"))
  | (ref, None) => (ref, None)
  end.

Section Built.

Variable DefaultEnableKeepAlive : bool.

(** The parameters a caller builds for a server, a user and a datacenter,
    with everything else of its choosing. *)
Definition built (server datacenter username password thumbprint : string)
    (feature : Feature) (caller : string) : Params :=
  sessionAPI.Caller caller
    (sessionAPI.WithFeatures feature
       (sessionAPI.WithThumbprint thumbprint
          (sessionAPI.WithUserInfo username password
             (sessionAPI.WithDatacenter datacenter
                (sessionAPI.WithServer server (sessionAPI.NewParams DefaultEnableKeepAlive)))))).

End Built.

End sessionAPISpec.

Module utilSpec.
Import util.

(** The configuration has a file at the hostname path. *)
Definition hasHostNameFile (config : Config) : bool :=
  existsb (fun file => String.eqb (Path file) hostNamePath)
    (Storage_Files config).

End utilSpec.

Module clusterControllerSpec.
Import clusterReconciler clusterSpec clusterController.

(** A secret owned by another cluster, and an API server that returns it
    and knows that [exampleCluster] is not among its owners. *)
Definition foreignSecret : Secret :=
  {| secret_Namespace := "default";
     secret_Name := "creds";
     secret_OwnerReferences :=
       [{| owner_APIVersion := session.GroupVersion;
           owner_Kind := "VSphereCluster";
           owner_Name := "other";
           owner_UID := "uid-other" |}];
     secret_Finalizers := [SecretIdentitySetFinalizer] |}.

Definition foreignSecretEnv : Env :=
  {| ListDeploymentZones := Ok [];
     GetVSphereMachinesInCluster := fun _ _ => Ok [];
     GetSecret := fun _ _ => Ok foreignSecret;
     UpdateSecret := fun _ => None;
     DeleteSecret := fun _ => None;
     IsOwnedByObject := fun _ _ => false;
     GetCredentials :=
       fun _ => Ok {| session.username := "admin"; session.password := "" |};
     clusterReconciler.isAPIServerOnline := false;
     vsphere := sessionSpec.vcenterUp;
     ctx_Username := "admin";
     ctx_Password := "";
     ctx_EnableKeepAlive := false;
     ctx_KeepAliveDuration := 0 |}.

(** The user name [reconcileVCenterConnectivity] connects with: the one of
    the resolved credentials when the cluster has an identity reference, the
    controller manager's otherwise. *)
Definition connectivityUser (env : Env) (c : VSphereCluster) : option string :=
  match Spec_IdentityRef c with
  | Some _ =>
      match GetCredentials env c with
      | Ok creds => Some (session.username creds)
      | Err _ => None
      end
  | None => Some (ctx_Username env)
  end.

(** An owning cluster whose control plane is not initialized. *)
Definition bootstrapping (cluster : Cluster) : Prop :=
  condIsTrue ControlPlaneInitializedCondition (cluster_Conditions cluster)
  = false.

(** The condition [reconcileDeploymentZones] records while some matched
    zone has not reported. *)
Definition waitingForZones : Condition :=
  {| cond_Status := ConditionFalse;
     cond_Reason := WaitingForFailureDomainStatusReason;
     cond_Severity := ConditionSeverityInfo;
     cond_Message := "waiting for failure domains to report ready status" |}.

(** A [Reconcile] of [exampleCluster], owned by [exampleOwner] and not
    paused, in which zone B has not reported and the closing patch fails. *)
Definition patchFails : ReconcileEnv :=
  {| Get := Ok exampleCluster;
     GetOwnerCluster := Ok (Some exampleOwner);
     IsPaused := fun _ _ => false;
     NewHelper := None;
     Patch := fun _ => Some (OtherError "the object has been modified");
     passEnv :=
       envOf (Ok [zone "A" "S1" (Some true) (Some true);
                  zone "B" "S1" (Some false) None])
         (Ok []) (Ok exampleSecret) None None |}.

(** A control-plane machine with an address, whose owning cluster waits
    for its control-plane endpoint. *)
Definition firstControlPlaneMachine : InfraMachine :=
  {| im_Namespace := "default"; im_Name := "cp-0";
     im_Addresses := ["10.0.0.5"] |}.

Definition waitingForEndpoint : WatchEnv :=
  {| IsControlPlaneMachine := fun _ => true;
     GetMachinePreferredIPAddress := fun _ => Ok "10.0.0.5";
     GetClusterFromMetadata :=
       fun _ => Ok {| oc_Namespace := "default"; oc_Name := "workload";
                      oc_Conditions := ∅;
                      oc_ControlPlaneEndpoint := {| ep_Host := ""; ep_Port := 0 |};
                      oc_InfrastructureRef := Some {| ref_Name := "c1" |} |};
     GetVSphereCluster := fun _ _ => Ok exampleCluster;
     ListVSphereClusters := Ok [exampleCluster] |}.


End clusterControllerSpec.

Module vmControllerSpec.
Import vmReconciler vmSpec vmController.

(** The VM as [reconcileDelete] hands it to the lifecycle service. *)
Definition deleting (v : VSphereVM) : VSphereVM :=
  markFalse VMProvisionedCondition DeletingReason ConditionSeverityInfo "" v.

(** The VM as [reconcileNormal] hands it to the lifecycle service. *)
Definition finalized (v : VSphereVM) : VSphereVM :=
  setFinalizers (AddFinalizer (Finalizers v) VMFinalizer) v.

(** A terminal failure is recorded on the VM. *)
Definition failed (v : VSphereVM) : Prop :=
  Status_FailureReason v <> None \/ Status_FailureMessage v <> None.

(** A lifecycle service that reports the state "ready" and the identifier
    "xyz", with one connected interface that has no address yet. *)
Definition readyWithoutAddress : VirtualMachineService :=
  let report v :=
    ({| vm_Name := Name v; vm_BiosUUID := "xyz";
        vm_State := VirtualMachineStateReady;
        vm_Network := [{| net_Connected := true;
                          net_IPAddrs := [];
                          net_MACAddr := "00:50:56:00:00:01";
                          net_NetworkName := "vm-network" |}] |}, None) in
  {| ReconcileVM := report; DestroyVM := report |}.


(** The credentials [retrieveVcenterSession] may connect with: those of
    the controller manager, or those resolved for a VSphereCluster that has
    an identity reference. *)
Definition credentialsUsed (env : SessionEnv) (username password : string)
    : Prop :=
  (username = ctx_Username env /\ password = ctx_Password env)
  \/ exists vsphereCluster creds,
       clusterReconciler.Spec_IdentityRef vsphereCluster <> None
       /\ GetCredentials env vsphereCluster = Ok creds
       /\ username = session.username creds
       /\ password = session.password creds.

(** The cache key of the session of a VM for a user. *)
Definition vmSessionKey (vm : Connection) (username : string) : string :=
  Spec_Server vm +:+ username +:+ Spec_Datacenter vm.

(** An answer to the Get of the closing poll that shows the patch, or the
    absence of the object. *)
Definition observed (env : ReconcileEnv) (localObj : VSphereVM)
    (get : result Remote) : Prop :=
  match get with
  | Err err => IsNotFound err = true
  | Ok remoteObj =>
      remote_ResourceVersion remoteObj <> localVersion env
      \/ statusEqual env localObj (remote_Status remoteObj) = true
  end.

(** The owning cluster cannot be fetched or does not pause the VM. *)
Definition notPaused (env : ReconcileEnv) (v : VSphereVM) : Prop :=
  forall cluster, GetCluster env = Ok cluster -> IsPaused env cluster v = false.

(** The VM as [Reconcile] hands it to the passes. *)
Definition available (v : VSphereVM) : VSphereVM :=
  markTrue VCenterAvailableCondition v.

(** The pass [Reconcile] runs for a VM: none when the owning cluster
    pauses it, the Deleting pass when its deletion timestamp is set, the
    Normal pass otherwise. *)
Definition dispatched (env : ReconcileEnv) (vm : VSphereVM) (pass : Pass)
    : Prop :=
  (exists cluster,
     GetCluster env = Ok cluster
     /\ IsPaused env cluster (available vm) = true
     /\ pass = {| pass_vm := available vm; pass_result := ResultZero;
                  pass_err := None; pass_calls := [] |})
  \/ (notPaused env (available vm)
      /\ DeletionTimestamp vm <> None
      /\ pass = reconcileDelete (vmService env) (available vm))
  \/ (notPaused env (available vm)
      /\ DeletionTimestamp vm = None
      /\ pass = reconcileNormal (vmService env) (available vm)).

Definition exampleConnection : Connection :=
  {| Spec_Server := "S1"; Spec_Datacenter := "dc1"; Spec_Thumbprint := "" |}.

(** A VM whose owning cluster cannot be found, on a controller manager
    that runs as "admin". *)
Definition orphanEnv (pf : session.Platform) : SessionEnv :=
  {| GetClusterFromMetadata := Err (NotFoundError "cluster not found");
     GetVSphereCluster := fun _ _ => Err (NotFoundError "not found");
     GetCredentials := fun _ => Err (OtherError "secret not found");
     ctx_Username := "admin";
     ctx_Password := "secret";
     ctx_EnableKeepAlive := false;
     ctx_KeepAliveDuration := 0;
     vsphere := pf |}.

(** A [Reconcile] of the given VM, owned by an HAProxy load balancer, with
    the given session environment and lifecycle service; the API server
    shows the patch at the second Get of the closing poll. *)
Definition reconcileEnvOf (v : VSphereVM) (senv : SessionEnv)
    (svc : VirtualMachineService) (patch : option error) : ReconcileEnv :=
  {| Get := Ok (v, exampleConnection);
     NewHelper := None;
     sessionEnv := senv;
     HasOwnerHAProxy := fun _ => true;
     GetOwnerVSphereMachine := Ok None;
     GetOwnerMachine := Ok None;
     GetFailureDomain := fun _ => None;
     GetCluster := Err (NotFoundError "cluster not found");
     IsPaused := fun _ _ => false;
     SetSummary := fun v => v;
     Patch := fun _ => patch;
     afterPatch := fun v => v;
     vmService := svc;
     localVersion := "41";
     statusEqual := fun _ _ => false;
     remoteGets :=
       [Ok {| remote_ResourceVersion := "41"; remote_Status := v |};
        Ok {| remote_ResourceVersion := "42"; remote_Status := v |}] |}.

(** A VM that is being deleted. *)
Definition deletedVM : VSphereVM :=
  {| Namespace := "default";
     Name := "vm1";
     Finalizers := [VMFinalizer];
     DeletionTimestamp := Some 1700000000;
     Spec_BiosUUID := "abc";
     Spec_Devices := [dhcpDevice];
     Status_Ready := true;
     Status_Network := [];
     Status_Addresses := ["10.0.0.5"];
     Status_FailureReason := None;
     Status_FailureMessage := None;
     Status_Conditions := ∅ |}.

End vmControllerSpec.
(* ===================================================================== *)
(** ** Properties of the session cache *)
(* ===================================================================== *)

Module sessionProofs.
Import session sessionSpec.

Ltac unfold_session :=
  unfold GetOrCreate, GetOrCreate_create, clearCache, newClient, newManager,
    probe, keepAlive, bind, ret, emit, cacheLoad, cacheStore, cacheDelete,
    alloc in *.

Ltac case_platform :=
  repeat match goal with
  | |- context [match ?x with _ => _ end] =>
      lazymatch x with
      | context [match _ with _ => _ end] => fail
      | _ => destruct x eqn:?
      end; simpl in *
  end.

(** What the creation path leaves in the cache: nothing under the key when
    it fails, the returned session when it succeeds. *)
Lemma create_cache pf p st :
  match GetOrCreate_create pf p st with
  | (Err _, st') =>
      sessionCache st' = delete (sessionKeyOf p) (sessionCache st)
  | (Ok s, st') =>
      sessionCache st' = <[sessionKeyOf p := s]> (sessionCache st)
      /\ addr s = next_addr st
      /\ next_addr st' = S (next_addr st)
      /\ complete s
      /\ buildSucceeds pf p = true
  end.
Proof.
  unfold_session. unfold buildSucceeds, connected, authenticated,
    tagAuthenticated, datacenterScoped, soapURLOf, complete.
  case_platform; auto;
    repeat split; eauto.
  all: rewrite ?orb_true_r; auto.
  all: try apply insert_delete_eq.
  all: destruct (String.eqb (datacenter p) ""); simpl in *; congruence.
Qed.

(** The creation path only appends to the trace. *)
Lemma create_trace pf p st :
  exists evs, trace (snd (GetOrCreate_create pf p st)) = trace st ++ evs.
Proof.
  unfold_session. case_platform; rewrite <- ?app_assoc; eauto.
Qed.

(** When every step of the build succeeds, the creation path returns a
    session. *)
Lemma create_succeeds pf p st :
  buildSucceeds pf p = true ->
  exists s, fst (GetOrCreate_create pf p st) = Ok s.
Proof.
  unfold buildSucceeds, connected, authenticated, tagAuthenticated,
    datacenterScoped, soapURLOf, isNil.
  intros H. unfold_session.
  destruct (ParseURL pf (server p)) as [[u|] [e|]]; simpl in *;
    try discriminate.
  destruct (vim25_NewClient pf _ _); simpl in *; try discriminate.
  destruct (Login pf _); simpl in *; try discriminate.
  destruct (rest_Login pf _); simpl in *; try discriminate.
  destruct (String.eqb (datacenter p) ""); simpl in *.
  - case_platform; eauto.
  - destruct (Finder_Datacenter pf (datacenter p)) as [dc [e|]];
      simpl in *; try discriminate.
    case_platform; eauto.
Qed.

(** A datacenter that is requested and not resolved fails the build. *)
Lemma unresolved_not_scoped pf p :
  datacenter p <> "" ->
  snd (Finder_Datacenter pf (datacenter p)) <> None ->
  buildSucceeds pf p = false.
Proof.
  intros Hdc Herr. unfold buildSucceeds, datacenterScoped.
  destruct (String.eqb_spec (datacenter p) ""); [contradiction|].
  destruct (snd (Finder_Datacenter pf (datacenter p))); [|contradiction].
  simpl. apply andb_false_r.
Qed.

(** On a miss [GetOrCreate] is the creation path. *)
Lemma GetOrCreate_miss pf p st :
  sessionCache st !! sessionKeyOf p = None ->
  GetOrCreate pf p st = GetOrCreate_create pf p st.
Proof.
  intros H. unfold GetOrCreate, bind, cacheLoad. now rewrite H.
Qed.

(** On a hit without forced refresh the cached session is returned and
    nothing else happens. *)
Lemma GetOrCreate_hit pf p st s :
  sessionCache st !! sessionKeyOf p = Some s ->
  refreshRestClient p = false ->
  GetOrCreate pf p st = (Ok s, st).
Proof.
  intros H Hr. unfold GetOrCreate, bind, cacheLoad, ret.
  now rewrite H, Hr.
Qed.

(** On a hit with forced refresh the probe decides. *)
Lemma GetOrCreate_refresh pf p st s :
  sessionCache st !! sessionKeyOf p = Some s ->
  refreshRestClient p = true ->
  GetOrCreate pf p st =
    match fst (TagManager_Session pf (addr s)) with
    | None => GetOrCreate_create pf p (probed s st)
    | Some _ => (Ok s, probed s st)
    end.
Proof.
  intros H Hr. unfold GetOrCreate, bind, cacheLoad, ret, probe, emit, probed.
  rewrite H, Hr.
  destruct (TagManager_Session pf (addr s)) as [[r|] e]; reflexivity.
Qed.

(** With a probe that returns no session next to an error, an error of the
    probe leads to the creation path. *)
Lemma GetOrCreate_refresh_error_under_contract pf p st s :
  sessionCache st !! sessionKeyOf p = Some s ->
  refreshRestClient p = true ->
  probeContract (TagManager_Session pf (addr s)) ->
  snd (TagManager_Session pf (addr s)) <> None ->
  GetOrCreate pf p st = GetOrCreate_create pf p (probed s st).
Proof.
  intros Hhit Hrefresh Hcontract Herr.
  rewrite (GetOrCreate_refresh _ _ _ _ Hhit Hrefresh).
  now rewrite (Hcontract Herr).
Qed.

(** A session that is returned is the one the cache holds under the key. *)
Lemma GetOrCreate_ok_cached pf p st s st' :
  GetOrCreate pf p st = (Ok s, st') ->
  sessionCache st' !! sessionKeyOf p = Some s.
Proof.
  intros H.
  assert (Hc : forall st0, GetOrCreate_create pf p st0 = (Ok s, st') ->
                           sessionCache st' !! sessionKeyOf p = Some s).
  { intros st0 H0. pose proof (create_cache pf p st0) as Hc.
    rewrite H0 in Hc. destruct Hc as (-> & _). apply lookup_insert_eq. }
  destruct (sessionCache st !! sessionKeyOf p) as [s0|] eqn:Hl.
  - destruct (refreshRestClient p) eqn:Hr.
    + rewrite (GetOrCreate_refresh _ _ _ _ Hl Hr) in H.
      destruct (fst (TagManager_Session pf (addr s0))); eauto.
      now inversion H; subst.
    + rewrite (GetOrCreate_hit _ _ _ _ Hl Hr) in H. now inversion H; subst.
  - rewrite (GetOrCreate_miss _ _ _ Hl) in H. eauto.
Qed.

(** The creation path keeps the cache free of partial sessions. *)
Lemma create_complete pf p st :
  cacheComplete st -> cacheComplete (snd (GetOrCreate_create pf p st)).
Proof.
  intros Hc k s. pose proof (create_cache pf p st) as H.
  destruct (GetOrCreate_create pf p st) as [[s'|e] st']; simpl.
  - destruct H as (-> & _ & _ & Hs' & _).
    rewrite lookup_insert. case_decide.
    + now intros [= <-].
    + apply Hc.
  - rewrite H. rewrite lookup_delete. case_decide; [discriminate|apply Hc].
Qed.

(** When some step of the build fails, the creation path returns an error
    and leaves nothing under the key. *)
Lemma create_fails pf p st :
  buildSucceeds pf p = false ->
  exists e, fst (GetOrCreate_create pf p st) = Err e
            /\ sessionCache (snd (GetOrCreate_create pf p st))
                 !! sessionKeyOf p = None.
Proof.
  intros Hb. pose proof (create_cache pf p st) as Hc.
  destruct (GetOrCreate_create pf p st) as [[s|e] st']; simpl.
  - destruct Hc as (_ & _ & _ & _ & Hok). congruence.
  - exists e. split; [reflexivity|]. rewrite Hc. apply lookup_delete_eq.
Qed.

(** Addresses are handed out in increasing order. *)
Lemma create_next_addr pf p st :
  (next_addr st <= next_addr (snd (GetOrCreate_create pf p st)))%nat.
Proof.
  unfold_session. case_platform; lia.
Qed.

(** Cached sessions live at allocated addresses: this holds of the empty
    cache and is kept by [GetOrCreate]. *)
Lemma addrsAllocated_empty : addrsAllocated emptyState.
Proof.
  intros k s H. simpl in H. rewrite lookup_empty in H. discriminate.
Qed.

Lemma GetOrCreate_addrsAllocated pf p st :
  addrsAllocated st -> addrsAllocated (snd (GetOrCreate pf p st)).
Proof.
  intros Ha.
  assert (Hc : forall st0, addrsAllocated st0 ->
                 addrsAllocated (snd (GetOrCreate_create pf p st0))).
  { intros st0 Ha0 k s. pose proof (create_cache pf p st0) as H.
    pose proof (create_next_addr pf p st0) as Hn.
    destruct (GetOrCreate_create pf p st0) as [[s'|e] st']; simpl in *.
    - destruct H as (-> & Haddr & -> & _).
      rewrite lookup_insert. case_decide.
      + intros [= <-]. lia.
      + intros Hk. specialize (Ha0 _ _ Hk). lia.
    - rewrite H, lookup_delete. case_decide; [discriminate|].
      intros Hk. specialize (Ha0 _ _ Hk). lia. }
  destruct (sessionCache st !! sessionKeyOf p) as [s0|] eqn:Hl.
  - destruct (refreshRestClient p) eqn:Hr.
    + rewrite (GetOrCreate_refresh _ _ _ _ Hl Hr).
      destruct (fst (TagManager_Session pf (addr s0))); [exact Ha|].
      apply Hc. exact Ha.
    + rewrite (GetOrCreate_hit _ _ _ _ Hl Hr). exact Ha.
  - rewrite (GetOrCreate_miss _ _ _ Hl). auto.
Qed.

(** C1 as claimed fails, in two ways.  First: the probe returns an error
    next to a session, and the cached session is returned.  Second: the
    probe returns an error and no session while the vCenter refuses
    connections, and the call returns an error, not a new session, with the
    key gone from the cache. *)
Lemma GetOrCreate_refresh_probe_error_counterexample :
  (snd (TagManager_Session vcenterProbeErrorWithSession (addr oldSession))
     <> None
   /\ fst (GetOrCreate vcenterProbeErrorWithSession
             (refreshing (paramsOf "vcenter" "admin" "")) oldState)
      = Ok oldSession)
  /\ (TagManager_Session vcenterDown (addr oldSession)
      = (None, Some (OtherError "connection refused"))
     /\ fst (GetOrCreate vcenterDown
               (refreshing (paramsOf "vcenter" "admin" "")) oldState)
        = Err (OtherError "connection refused")
     /\ sessionCache
          (snd (GetOrCreate vcenterDown
                  (refreshing (paramsOf "vcenter" "admin" "")) oldState))
          !! "vcenteradmin" = None).
Proof.
  repeat split. discriminate.
Qed.

(** C1, as amended.  A [GetOrCreate] call that finds a cached session under
    its key with forced refresh requested sends the liveness probe to that
    session's tag manager, and the session the probe returns decides.  When
    it is nil (no active session, or the nil that comes with an error), the
    call is the creation path run after the probe, as on a cache miss: the
    cached session is not returned and is no longer cached; a new session at
    a new address is returned and cached when the build succeeds, and the
    build's error is returned, with nothing under the key, when it fails.
    When it is not nil the cached session is returned, whatever error came
    with it. *)
Theorem GetOrCreate_refresh_probe_decides pf p st s :
  sessionCache st !! sessionKeyOf p = Some s ->
  refreshRestClient p = true ->
  addrsAllocated st ->
  In (EvTagManagerSession (addr s)) (trace (snd (GetOrCreate pf p st)))
  /\ (fst (TagManager_Session pf (addr s)) = None ->
      GetOrCreate pf p st = GetOrCreate_create pf p (probed s st)
      /\ fst (GetOrCreate pf p st) <> Ok s
      /\ sessionCache (snd (GetOrCreate pf p st)) !! sessionKeyOf p <> Some s
      /\ (buildSucceeds pf p = true ->
          exists s', fst (GetOrCreate pf p st) = Ok s'
                     /\ addr s' <> addr s
                     /\ sessionCache (snd (GetOrCreate pf p st))
                          !! sessionKeyOf p = Some s')
      /\ (buildSucceeds pf p = false ->
          exists e, fst (GetOrCreate pf p st) = Err e
                    /\ sessionCache (snd (GetOrCreate pf p st))
                         !! sessionKeyOf p = None))
  /\ (fst (TagManager_Session pf (addr s)) <> None ->
      GetOrCreate pf p st = (Ok s, probed s st)).
Proof.
  intros Hhit Hrefresh Halloc.
  rewrite (GetOrCreate_refresh _ _ _ _ Hhit Hrefresh).
  split; [|split].
  - destruct (fst (TagManager_Session pf (addr s))); simpl.
    + apply in_or_app. right. now left.
    + destruct (create_trace pf p (probed s st)) as [evs ->]. simpl.
      apply in_or_app. left. apply in_or_app. right. now left.
  - intros Hnil. rewrite Hnil. split; [reflexivity|].
    pose proof (create_cache pf p (probed s st)) as Hc.
    pose proof (create_fails pf p (probed s st)) as Hf.
    pose proof (Halloc _ _ Hhit) as Hlt.
    destruct (GetOrCreate_create pf p (probed s st)) as [[s'|e] st'] eqn:Hrun;
      simpl in *.
    + destruct Hc as (Hcache & Haddr & _ & _ & Hok).
      assert (Hne : addr s' <> addr s) by lia.
      repeat split.
      * intros [= ->]. congruence.
      * rewrite Hcache, lookup_insert_eq. intros [= ->]. congruence.
      * intros _. exists s'. rewrite Hcache, lookup_insert_eq. auto.
      * congruence.
    + repeat split.
      * discriminate.
      * rewrite Hc, lookup_delete_eq. discriminate.
      * intros Hb. destruct (create_succeeds pf p (probed s st) Hb) as [s' Hs'].
        rewrite Hrun in Hs'. discriminate.
      * exact Hf.
  - intros Hsome. destruct (fst (TagManager_Session pf (addr s)));
      [reflexivity|contradiction].
Qed.

(** C7.  On a cache miss, a requested datacenter that the finder does not
    resolve makes the call return an error and leaves no session under the
    key; a session is found under the key afterwards only if it is the one
    returned, every step of the build succeeded and the session is complete;
    and a cache without partial sessions stays so. *)
Theorem GetOrCreate_miss_never_caches_partial pf p st :
  sessionCache st !! sessionKeyOf p = None ->
  (datacenter p <> "" ->
   snd (Finder_Datacenter pf (datacenter p)) <> None ->
   (exists e, fst (GetOrCreate pf p st) = Err e)
   /\ sessionCache (snd (GetOrCreate pf p st)) !! sessionKeyOf p = None)
  /\ (forall s,
        sessionCache (snd (GetOrCreate pf p st)) !! sessionKeyOf p = Some s ->
        fst (GetOrCreate pf p st) = Ok s
        /\ buildSucceeds pf p = true
        /\ complete s)
  /\ (cacheComplete st -> cacheComplete (snd (GetOrCreate pf p st))).
Proof.
  intros Hmiss. rewrite (GetOrCreate_miss _ _ _ Hmiss).
  pose proof (create_cache pf p st) as Hc.
  split; [|split].
  - intros Hdc Herr.
    pose proof (unresolved_not_scoped pf p Hdc Herr) as Hb.
    destruct (GetOrCreate_create pf p st) as [[s|e] st']; simpl in *.
    + destruct Hc as (_ & _ & _ & _ & Hok). congruence.
    + split; [eauto|]. rewrite Hc. apply lookup_delete_eq.
  - intros s Hs.
    destruct (GetOrCreate_create pf p st) as [[s'|e] st']; simpl in *.
    + destruct Hc as (Hcache & _ & _ & Hcomplete & Hok).
      rewrite Hcache, lookup_insert_eq in Hs. injection Hs as <-. auto.
    + rewrite Hc, lookup_delete_eq in Hs. discriminate.
  - apply create_complete.
Qed.

(** C10.  The cache key is the plain concatenation of server, user name and
    datacenter.  The triples ("ab", "c", "") and ("a", "bc", "") differ and
    have the same key; and whenever two parameter sets have the same key, a
    [GetOrCreate] for the second, made without forced refresh after one for
    the first has returned a session, returns that very session. *)
Theorem sessionKey_collision_shares_slot :
  (forall p, sessionKeyOf p
             = server p +:+ Username (userinfo p) +:+ datacenter p)
  /\ ("ab", "c", "") <> ("a", "bc", "")
  /\ sessionKeyOf (paramsOf "ab" "c" "") = sessionKeyOf (paramsOf "a" "bc" "")
  /\ forall pf p1 p2 st s st',
       sessionKeyOf p1 = sessionKeyOf p2 ->
       refreshRestClient p2 = false ->
       GetOrCreate pf p1 st = (Ok s, st') ->
       GetOrCreate pf p2 st' = (Ok s, st').
Proof.
  split; [reflexivity|]. split; [discriminate|]. split; [reflexivity|].
  intros pf p1 p2 st s st' Hkey Hr Hrun.
  apply GetOrCreate_hit; [|assumption].
  rewrite <- Hkey. eapply GetOrCreate_ok_cached; eauto.
Qed.

Lemma GetOrCreate_refresh_probe_decides_witness :
  exists s',
    fst (GetOrCreate vcenterUp (refreshing (paramsOf "vcenter" "admin" ""))
           oldState) = Ok s'
    /\ addr s' <> addr oldSession.
Proof.
  destruct (GetOrCreate_refresh_probe_decides vcenterUp
              (refreshing (paramsOf "vcenter" "admin" "")) oldState oldSession)
    as (_ & H & _).
  - reflexivity.
  - reflexivity.
  - intros k s Hk. unfold oldState in Hk. simpl in Hk.
    apply lookup_singleton_Some in Hk as [_ <-]. simpl. lia.
  - destruct (H eq_refl) as (_ & _ & _ & Hok & _).
    destruct (Hok eq_refl) as (s' & Hs' & Hne & _). eauto.
Defined.

Lemma GetOrCreate_miss_never_caches_partial_witness :
  (exists e,
     fst (GetOrCreate vcenterNoDatacenter (paramsOf "vcenter" "admin" "dc1")
            emptyState) = Err e)
  /\ sessionCache
       (snd (GetOrCreate vcenterNoDatacenter
               (paramsOf "vcenter" "admin" "dc1") emptyState))
       !! sessionKeyOf (paramsOf "vcenter" "admin" "dc1") = None.
Proof.
  apply (proj1 (GetOrCreate_miss_never_caches_partial vcenterNoDatacenter
                  (paramsOf "vcenter" "admin" "dc1") emptyState eq_refl)).
  - discriminate.
  - discriminate.
Defined.

Lemma sessionKey_collision_shares_slot_witness :
  fst (GetOrCreate vcenterUp (paramsOf "a" "bc" "")
         (snd (GetOrCreate vcenterUp (paramsOf "ab" "c" "") emptyState)))
  = fst (GetOrCreate vcenterUp (paramsOf "ab" "c" "") emptyState).
Proof.
  destruct sessionKey_collision_shares_slot as (_ & _ & Hkey & Hshare).
  destruct (GetOrCreate vcenterUp (paramsOf "ab" "c" "") emptyState)
    as [[s|e] st'] eqn:Hrun.
  - simpl. now rewrite (Hshare _ _ _ _ _ _ Hkey eq_refl Hrun).
  - vm_compute in Hrun. discriminate.
Defined.

End sessionProofs.

(* ===================================================================== *)
(** ** Properties of the cluster reconciler *)
(* ===================================================================== *)

Module clusterProofs.
Import clusterReconciler clusterSpec.

Lemma contains_In l x : contains l x = true <-> In x l.
Proof.
  unfold contains. rewrite existsb_exists. split.
  - intros (y & Hy & Heq). apply String.eqb_eq in Heq. now subst.
  - intros H. exists x. split; [assumption|apply String.eqb_refl].
Qed.

Lemma shouldIncludeZone_matched zone cluster :
  shouldIncludeZone zone cluster = true <-> matched cluster zone.
Proof.
  unfold shouldIncludeZone, matched.
  destruct (Annotations cluster !! adoptAnnotation) as [names|].
  - rewrite andb_true_iff, String.eqb_eq, contains_In. split.
    + intros [Hs Hn]. eauto.
    + intros [Hs (names' & [= <-] & Hn)]. auto.
  - split; [discriminate|]. intros [_ (names & Hn & _)]. discriminate.
Qed.

(** The keys of the map built by the loop. *)
Lemma zoneLoop_keys cluster zones : forall acc acc',
  zoneLoop cluster acc zones = Some acc' ->
  forall k,
    is_Some (failureDomains acc' !! k) <->
    is_Some (failureDomains acc !! k)
    \/ exists z, In z zones /\ zone_Name z = k
                 /\ shouldIncludeZone z cluster = true
                 /\ zone_Ready z <> Some false.
Proof.
  induction zones as [|z zones IH]; simpl; intros acc acc' H k.
  - injection H as <-. split; [auto|]. intros [?|(? & [] & _)]. assumption.
  - destruct (zoneIter cluster acc z) as [acc1|] eqn:Hit; [|discriminate].
    rewrite (IH _ _ H k). clear IH H.
    unfold zoneIter in Hit.
    destruct (shouldIncludeZone z cluster) eqn:Hinc.
    + destruct (zone_Ready z) as [[|]|] eqn:Hr.
      * destruct (zone_ControlPlane z); [|discriminate].
        injection Hit as <-. simpl. rewrite lookup_insert. case_decide.
        -- split; intros _; [|left; eauto].
           right. exists z. rewrite Hr. repeat split; auto; discriminate.
        -- split; intros [?|(z' & Hin & Hn & Hi & Hrz)]; auto.
           ++ right. exists z'. tauto.
           ++ destruct Hin as [<-|Hin]; [congruence|]. right. exists z'. tauto.
      * injection Hit as <-. simpl.
        split; intros [?|(z' & Hin & Hn & Hi & Hrz)]; auto.
        -- right. exists z'. tauto.
        -- destruct Hin as [<-|Hin]; [congruence|]. right. exists z'. tauto.
      * destruct (zone_ControlPlane z); [|discriminate].
        injection Hit as <-. simpl. rewrite lookup_insert. case_decide.
        -- split; intros _; [|left; eauto].
           right. exists z. rewrite Hr. repeat split; auto; discriminate.
        -- split; intros [?|(z' & Hin & Hn & Hi & Hrz)]; auto.
           ++ right. exists z'. tauto.
           ++ destruct Hin as [<-|Hin]; [congruence|]. right. exists z'. tauto.
    + injection Hit as <-.
      split; intros [?|(z' & Hin & Hn & Hi & Hrz)]; auto.
      * right. exists z'. tauto.
      * destruct Hin as [<-|Hin]; [congruence|]. right. exists z'. tauto.
Qed.

(** Where the entries of the map built by the loop come from. *)
Lemma zoneLoop_values cluster zones : forall acc acc',
  zoneLoop cluster acc zones = Some acc' ->
  forall k v,
    failureDomains acc' !! k = Some v ->
    failureDomains acc !! k = Some v
    \/ exists z, In z zones /\ zone_Name z = k
                 /\ shouldIncludeZone z cluster = true
                 /\ zone_Ready z <> Some false
                 /\ zone_ControlPlane z = Some (fd_ControlPlane v).
Proof.
  induction zones as [|z zones IH]; simpl; intros acc acc' H k v Hv.
  - injection H as <-. auto.
  - destruct (zoneIter cluster acc z) as [acc1|] eqn:Hit; [|discriminate].
    destruct (IH _ _ H k v Hv) as [Hacc1|(z' & Hin & Hrest)];
      [|right; exists z'; tauto].
    clear IH H Hv. unfold zoneIter in Hit.
    destruct (shouldIncludeZone z cluster) eqn:Hinc;
      [|injection Hit as <-; auto].
    destruct (zone_Ready z) as [[|]|] eqn:Hr;
      try (injection Hit as <-; auto; fail).
    all: destruct (zone_ControlPlane z) as [cp|] eqn:Hcp; [|discriminate].
    all: injection Hit as <-; simpl in Hacc1.
    all: rewrite lookup_insert in Hacc1; case_decide; [|auto].
    all: injection Hacc1 as <-; right; exists z; rewrite Hr.
    all: repeat split; auto; discriminate.
Qed.

(** The two counters of the loop. *)
Lemma zoneLoop_counters cluster zones : forall acc acc',
  zoneLoop cluster acc zones = Some acc' ->
  readyNotReported acc'
    = (readyNotReported acc + length (List.filter (unreported cluster) zones))%nat
  /\ notReady acc'
    = (notReady acc + length (List.filter (reportedNotReady cluster) zones))%nat.
Proof.
  induction zones as [|z zones IH]; simpl; intros acc acc' H.
  - injection H as <-. lia.
  - destruct (zoneIter cluster acc z) as [acc1|] eqn:Hit; [|discriminate].
    destruct (IH _ _ H) as [-> ->]. clear IH H.
    unfold zoneIter in Hit.
    unfold unreported, reportedNotReady.
    destruct (shouldIncludeZone z cluster); simpl.
    + destruct (zone_Ready z) as [[|]|];
        try (destruct (zone_ControlPlane z); [|discriminate]);
        injection Hit as <-; simpl; repeat case_decide;
        try discriminate; try congruence; simpl; lia.
    + injection Hit as <-. repeat case_decide; try contradiction; lia.
Qed.

(** The loop runs to its end when no zone it copies has a nil
    ControlPlane. *)
Lemma zoneLoop_total cluster zones : forall acc,
  (forall z, In z zones -> shouldIncludeZone z cluster = true ->
             zone_Ready z <> Some false -> is_Some (zone_ControlPlane z)) ->
  exists acc', zoneLoop cluster acc zones = Some acc'.
Proof.
  induction zones as [|z zones IH]; simpl; intros acc Hcp; [eauto|].
  assert (Hz : exists acc1, zoneIter cluster acc z = Some acc1).
  { unfold zoneIter.
    destruct (shouldIncludeZone z cluster) eqn:Hinc; [|eauto].
    destruct (zone_Ready z) as [[|]|] eqn:Hr; [|eauto|].
    all: destruct (Hcp z) as [cp ->]; auto; [rewrite Hr; discriminate|eauto]. }
  destruct Hz as [acc1 ->]. apply IH. auto.
Qed.

(** What [reconcileDeploymentZones] returns once the loop has run. *)
Lemma reconcileDeploymentZones_returns env cluster zones acc :
  ListDeploymentZones env = Ok zones ->
  zoneLoop cluster zoneLoopInit zones = Some acc ->
  exists c,
    reconcileDeploymentZones env cluster
      = Returned (c, negb (0 <? readyNotReported acc)%nat, None)
    /\ Status_FailureDomains c = failureDomains acc
    /\ Finalizers c = Finalizers cluster
    /\ Status_Conditions c =
         if (0 <? readyNotReported acc)%nat then
           MarkFalse FailureDomainsAvailableCondition
             WaitingForFailureDomainStatusReason ConditionSeverityInfo
             "waiting for failure domains to report ready status"
             (Status_Conditions cluster)
         else if (0 <? size (failureDomains acc))%nat then
           if (0 <? notReady acc)%nat then
             MarkFalse FailureDomainsAvailableCondition
               FailureDomainsSkippedReason ConditionSeverityInfo
               "one or more failure domains are not ready"
               (Status_Conditions cluster)
           else MarkTrue FailureDomainsAvailableCondition
                  (Status_Conditions cluster)
         else Status_Conditions cluster.
Proof.
  intros Hlist Hloop. unfold reconcileDeploymentZones.
  rewrite Hlist, Hloop.
  destruct (0 <? readyNotReported acc)%nat; simpl; [eauto|].
  destruct (0 <? size (failureDomains acc))%nat; simpl; [|eauto].
  destruct (0 <? notReady acc)%nat; simpl; eauto.
Qed.

(** A Normal pass leaves in the status the failure-domain map that
    [reconcileDeploymentZones] wrote, and stops right after it when that
    function asks to wait. *)
Lemma reconcileNormal_after_zones env cluster vsphereCluster sessions
    triggers c ok :
  reconcileDeploymentZones env
    (setFinalizers (AddFinalizer (Finalizers vsphereCluster) ClusterFinalizer)
       vsphereCluster) = Returned (c, ok, None) ->
  exists np,
    reconcileNormal env cluster vsphereCluster sessions triggers = Returned np
    /\ Status_FailureDomains (pass_cluster (normal_pass np))
       = Status_FailureDomains c
    /\ (ok = false ->
        normal_pass np
        = {| pass_cluster := c;
             pass_result := {| Requeue := false; RequeueAfter := 10 * Second |};
             pass_err := None;
             pass_calls := [CallListDeploymentZones] |}
        /\ normal_sessions np = sessions
        /\ normal_triggers np = triggers
        /\ normal_spawned np = false).
Proof.
  intros Hz. unfold reconcileNormal. rewrite Hz.
  destruct ok.
  - destruct (reconcileIdentitySecret env c) as [[e|] calls'].
    { eexists. split; [reflexivity|]. split; [reflexivity|discriminate]. }
    destruct (reconcileVCenterConnectivity env c sessions) as [[e|] sessions'].
    { eexists. split; [reflexivity|]. split; [reflexivity|discriminate]. }
    destruct (reconcileVSphereClusterWhenAPIServerIsOnline cluster triggers)
      as [triggers' spawned].
    simpl.
    destruct (APIEndpoint_IsZero _).
    { eexists. split; [reflexivity|]. split; [reflexivity|discriminate]. }
    destruct (negb (bool_decide _)).
    { eexists. split; [reflexivity|]. split; [reflexivity|discriminate]. }
    destruct (negb (isAPIServerOnline env)).
    { eexists. split; [reflexivity|]. split; [reflexivity|discriminate]. }
    eexists. split; [reflexivity|]. split; [reflexivity|discriminate].
  - eexists. split; [reflexivity|]. split; [reflexivity|]. auto.
Qed.

Lemma filter_length_pos {A} (f : A -> bool) l x :
  In x l -> f x = true -> (0 < length (List.filter f l))%nat.
Proof.
  intros Hin Hf.
  assert (H : In x (List.filter f l)) by (apply filter_In; auto).
  destruct (List.filter f l); [destruct H|simpl; lia].
Qed.

Lemma filter_length_zero {A} (f : A -> bool) l :
  (forall x, In x l -> f x = false) -> length (List.filter f l) = 0%nat.
Proof.
  intros H. destruct (List.filter f l) as [|y ys] eqn:Hf; [reflexivity|].
  assert (Hy : In y (List.filter f l)) by (rewrite Hf; now left).
  apply filter_In in Hy as [Hin Hfy]. rewrite (H _ Hin) in Hfy. discriminate.
Qed.

(** [reconcileDeploymentZones] with the list request answered, when no
    copied zone has a nil ControlPlane: the map it writes, and its verdict. *)
Lemma reconcileDeploymentZones_spec env cluster zones :
  ListDeploymentZones env = Ok zones ->
  (forall z, In z zones -> shouldIncludeZone z cluster = true ->
             zone_Ready z <> Some false -> is_Some (zone_ControlPlane z)) ->
  exists c acc,
    zoneLoop cluster zoneLoopInit zones = Some acc
    /\ reconcileDeploymentZones env cluster
       = Returned (c, negb (0 <? readyNotReported acc)%nat, None)
    /\ Status_FailureDomains c = failureDomains acc
    /\ readyNotReported acc = length (List.filter (unreported cluster) zones)
    /\ notReady acc = length (List.filter (reportedNotReady cluster) zones)
    /\ (forall k,
          is_Some (failureDomains acc !! k) <->
          exists z, In z zones /\ zone_Name z = k
                    /\ shouldIncludeZone z cluster = true
                    /\ zone_Ready z <> Some false).
Proof.
  intros Hlist Hcp.
  destruct (zoneLoop_total cluster zones zoneLoopInit Hcp) as [acc Hloop].
  destruct (reconcileDeploymentZones_returns _ _ _ _ Hlist Hloop)
    as (c & Hrun & Hfd & _).
  destruct (zoneLoop_counters _ _ _ _ Hloop) as [Hrnr Hnr].
  exists c, acc. repeat split; auto.
  - intros Hk. apply (zoneLoop_keys _ _ _ _ Hloop k) in Hk as [Hk|Hk]; auto.
    simpl in Hk. rewrite lookup_empty in Hk. destruct Hk. discriminate.
  - intros Hk. apply (zoneLoop_keys _ _ _ _ Hloop k). auto.
Qed.

(** C2.  With a cluster on server S1 whose adoption annotation is "A:B",
    and the zones A (server S1, ready), B (server S1, not ready) and C
    (another server, any readiness) listed in any order, the function
    writes the failure-domain map with the single key A, marks the
    failure-domains condition false (a zone is not ready) and lets the pass
    go on.  In general a zone is taken into account exactly when its server
    is the cluster's and its name is in the colon-separated annotation, and
    every key of the map written is the name of such a zone. *)
Theorem reconcileDeploymentZones_three_zones :
  (forall env vc S1 S2 cpA cpB cpC readyC zones,
     S1 <> S2 ->
     Spec_Server vc = S1 ->
     Annotations vc !! adoptAnnotation = Some "A:B" ->
     ListDeploymentZones env = Ok zones ->
     zones ≡ₚ [zone "A" S1 (Some cpA) (Some true);
               zone "B" S1 cpB (Some false);
               zone "C" S2 cpC readyC] ->
     exists c,
       reconcileDeploymentZones env vc = Returned (c, true, None)
       /\ Status_FailureDomains c = {[ "A" := {| fd_ControlPlane := cpA |} ]}
       /\ Status_Conditions c !! FailureDomainsAvailableCondition
          = Some {| cond_Status := ConditionFalse;
                    cond_Reason := FailureDomainsSkippedReason;
                    cond_Severity := ConditionSeverityInfo;
                    cond_Message := "one or more failure domains are not ready" |})
  /\ (forall z c, shouldIncludeZone z c = true <-> matched c z)
  /\ (forall env vc c ok k,
        reconcileDeploymentZones env vc = Returned (c, ok, None) ->
        is_Some (Status_FailureDomains c !! k) ->
        exists zones z,
          ListDeploymentZones env = Ok zones
          /\ In z zones /\ zone_Name z = k /\ matched vc z).
Proof.
  split; [|split].
  - intros env vc S1 S2 cpA cpB cpC readyC zones Hne Hserver Hann Hlist Hperm.
    set (zA := zone "A" S1 (Some cpA) (Some true)) in *.
    set (zB := zone "B" S1 cpB (Some false)) in *.
    set (zC := zone "C" S2 cpC readyC) in *.
    assert (Hin : forall z, In z zones <-> z = zA \/ z = zB \/ z = zC).
    { intros z. split; intros H.
      - apply (Permutation_in _ Hperm) in H. simpl in H.
        destruct H as [?|[?|[?|[]]]]; auto.
      - apply (Permutation_in _ (Permutation_sym Hperm)). simpl.
        destruct H as [?|[?|?]]; auto. }
    assert (HiA : shouldIncludeZone zA vc = true).
    { unfold shouldIncludeZone. rewrite Hann, Hserver. simpl.
      now rewrite String.eqb_refl. }
    assert (HiB : shouldIncludeZone zB vc = true).
    { unfold shouldIncludeZone. rewrite Hann, Hserver. simpl.
      now rewrite String.eqb_refl. }
    assert (HiC : shouldIncludeZone zC vc = false).
    { unfold shouldIncludeZone. rewrite Hann, Hserver. simpl.
      apply andb_false_iff. left. apply String.eqb_neq. auto. }
    destruct (reconcileDeploymentZones_spec env vc zones Hlist)
      as (c & acc & Hloop & Hrun & Hfd & Hrnr & Hnr & Hkeys).
    { intros z Hz Hi Hr. apply Hin in Hz as [-> | [-> | ->]].
      - simpl. eauto.
      - simpl in Hr. congruence.
      - congruence. }
    assert (H0 : readyNotReported acc = 0%nat).
    { rewrite Hrnr. apply filter_length_zero.
      intros z Hz. apply Hin in Hz as [-> | [-> | ->]]; unfold unreported.
      - rewrite HiA. reflexivity.
      - rewrite HiB. reflexivity.
      - rewrite HiC. reflexivity. }
    assert (H1 : (0 < notReady acc)%nat).
    { rewrite Hnr. apply (filter_length_pos _ _ zB).
      - apply Hin. auto.
      - unfold reportedNotReady. rewrite HiB. reflexivity. }
    assert (HkA : forall k, is_Some (failureDomains acc !! k) <-> k = "A").
    { intros k. rewrite Hkeys. split.
      - intros (z & Hz & <- & Hi & Hr).
        apply Hin in Hz as [-> | [-> | ->]]; simpl in *; congruence.
      - intros ->. exists zA. repeat split; auto; try discriminate.
        apply Hin. auto. }
    assert (Hmap : failureDomains acc = {[ "A" := {| fd_ControlPlane := cpA |} ]}).
    { apply map_eq. intros k.
      destruct (failureDomains acc !! k) as [v|] eqn:Hv.
      - assert (k = "A") as -> by (apply HkA; eauto).
        rewrite lookup_singleton_eq. f_equal.
        destruct (zoneLoop_values _ _ _ _ Hloop _ _ Hv)
          as [He|(z & Hz & Hname & Hi & Hr & Hcp)].
        + simpl in He. rewrite lookup_empty in He. discriminate.
        + apply Hin in Hz as [-> | [-> | ->]]; simpl in *; try congruence.
          destruct v. simpl in *. congruence.
      - symmetry. apply lookup_singleton_None. intros <-.
        assert (Hs : is_Some (failureDomains acc !! "A")) by (apply HkA; auto).
        rewrite Hv in Hs. destruct Hs. discriminate. }
    destruct (reconcileDeploymentZones_returns _ _ _ _ Hlist Hloop)
      as (c' & Hrun' & Hfd' & _ & Hcond).
    rewrite Hrun in Hrun'. injection Hrun' as <-.
    exists c. rewrite Hrun, Hfd, Hmap, Hcond, H0, Hmap. simpl.
    rewrite map_size_singleton. simpl.
    destruct (0 <? notReady acc)%nat eqn:Hlt;
      [|apply Nat.ltb_ge in Hlt; lia].
    repeat split. unfold MarkFalse. apply lookup_insert_eq.
  - apply shouldIncludeZone_matched.
  - intros env vc c ok k Hrun Hk. unfold reconcileDeploymentZones in Hrun.
    destruct (ListDeploymentZones env) as [zones|e]; [|discriminate].
    destruct (zoneLoop vc zoneLoopInit zones) as [acc|] eqn:Hloop;
      [|discriminate].
    assert (Hfd : Status_FailureDomains c = failureDomains acc).
    { destruct (0 <? readyNotReported acc)%nat;
        [|destruct (0 <? size (failureDomains acc))%nat;
          [destruct (0 <? notReady acc)%nat|]];
        injection Hrun as <- _; reflexivity. }
    rewrite Hfd in Hk.
    apply (zoneLoop_keys _ _ _ _ Hloop k) in Hk as [Hk|(z & Hz & Hn & Hi & _)].
    + simpl in Hk. rewrite lookup_empty in Hk. destruct Hk. discriminate.
    + exists zones, z. repeat split; auto.
      all: apply shouldIncludeZone_matched in Hi; apply Hi.
Qed.

Lemma NoDup_map_inj {A B} (f : A -> B) l x y :
  NoDup (map f l) -> In x l -> In y l -> f x = f y -> x = y.
Proof.
  induction l as [|a l IH]; simpl; intros Hnd Hx Hy Heq; [destruct Hx|].
  apply NoDup_cons in Hnd as [Hnotin Hnd].
  rewrite list_elem_of_In in Hnotin.
  destruct Hx as [<-|Hx], Hy as [<-|Hy]; auto.
  - exfalso. apply Hnotin. rewrite Heq. now apply in_map.
  - exfalso. apply Hnotin. rewrite <- Heq. now apply in_map.
Qed.

(** C9.  In a Normal pass whose zone list request is answered (and in
    which no zone to copy has a nil ControlPlane, so that the pass returns),
    the keys of the failure-domain map left in the status are exactly the
    names of the matched zones whose readiness is true or not yet reported;
    names being unique, a matched zone reporting not-ready has no entry; and
    when some matched zone has not reported, that map, unreported zones
    included, is in the status of a pass that ends there, without error,
    asking to be requeued. *)
Theorem reconcileNormal_publishes_failure_domains env cluster vsphereCluster
    sessions triggers zones :
  ListDeploymentZones env = Ok zones ->
  (forall z, In z zones -> matched vsphereCluster z ->
             zone_Ready z <> Some false -> is_Some (zone_ControlPlane z)) ->
  exists np,
    reconcileNormal env cluster vsphereCluster sessions triggers = Returned np
    /\ (forall k,
          is_Some (Status_FailureDomains (pass_cluster (normal_pass np)) !! k)
          <-> exists z, In z zones /\ zone_Name z = k
                        /\ matched vsphereCluster z
                        /\ (zone_Ready z = Some true \/ zone_Ready z = None))
    /\ (NoDup (map zone_Name zones) ->
        forall z, In z zones -> matched vsphereCluster z ->
                  zone_Ready z = Some false ->
                  Status_FailureDomains (pass_cluster (normal_pass np))
                    !! zone_Name z = None)
    /\ ((exists z, In z zones /\ matched vsphereCluster z
                   /\ zone_Ready z = None) ->
        pass_result (normal_pass np)
          = {| Requeue := false; RequeueAfter := 10 * Second |}
        /\ pass_err (normal_pass np) = None
        /\ pass_calls (normal_pass np) = [CallListDeploymentZones]
        /\ forall z, In z zones -> matched vsphereCluster z ->
                     zone_Ready z = None ->
                     is_Some (Status_FailureDomains
                                (pass_cluster (normal_pass np))
                                !! zone_Name z)).
Proof.
  intros Hlist Hcp.
  set (c0 := setFinalizers
               (AddFinalizer (Finalizers vsphereCluster) ClusterFinalizer)
               vsphereCluster).
  assert (Hsame : forall z, shouldIncludeZone z c0 = true
                            <-> matched vsphereCluster z).
  { intros z. change (shouldIncludeZone z c0)
      with (shouldIncludeZone z vsphereCluster).
    apply shouldIncludeZone_matched. }
  destruct (reconcileDeploymentZones_spec env c0 zones Hlist)
    as (c & acc & Hloop & Hrun & Hfd & Hrnr & Hnr & Hkeys).
  { intros z Hz Hi Hr. apply Hcp; auto. now apply Hsame. }
  destruct (reconcileNormal_after_zones env cluster vsphereCluster sessions
              triggers c _ Hrun) as (np & Hnp & Hnfd & Hwait).
  exists np. split; [exact Hnp|]. rewrite Hnfd, Hfd.
  assert (Hkeys' : forall k,
            is_Some (failureDomains acc !! k)
            <-> exists z, In z zones /\ zone_Name z = k
                          /\ matched vsphereCluster z
                          /\ (zone_Ready z = Some true \/ zone_Ready z = None)).
  { intros k. rewrite Hkeys. split; intros (z & Hz & Hn & Hi & Hr);
      exists z; repeat split; auto; try (now apply Hsame).
    - destruct (zone_Ready z) as [[|]|]; auto. congruence.
    - destruct Hr as [-> | ->]; discriminate. }
  split; [exact Hkeys'|]. split.
  - intros Hnd z Hz Hm Hr.
    destruct (failureDomains acc !! zone_Name z) as [v|] eqn:Hv; [|reflexivity].
    assert (Hs : is_Some (failureDomains acc !! zone_Name z)) by eauto.
    apply Hkeys' in Hs as (z' & Hz' & Hn & _ & Hr').
    assert (z' = z) as -> by (eapply NoDup_map_inj; eauto).
    destruct Hr' as [Hr'|Hr']; congruence.
  - intros (z & Hz & Hm & Hr).
    assert (Hpos : (0 < readyNotReported acc)%nat).
    { rewrite Hrnr. apply (filter_length_pos _ _ z); auto.
      unfold unreported. rewrite (proj2 (Hsame z) Hm), Hr. reflexivity. }
    apply Nat.ltb_lt in Hpos.
    destruct Hwait as (Hpass & _); [now rewrite Hpos|].
    rewrite Hpass. simpl. repeat split.
    intros z' Hz' Hm' Hr'. apply Hkeys'. exists z'. auto.
Qed.

Lemma RemoveFinalizer_not_In fs f : ~ In f (RemoveFinalizer fs f).
Proof.
  unfold RemoveFinalizer. intros H. apply filter_In in H as [_ H].
  rewrite String.eqb_refl in H. discriminate.
Qed.

(** A Deleting pass that changes the finalizers was handed an empty list
    of machines. *)
Lemma reconcileDelete_finalizers_changed env c :
  Finalizers (pass_cluster (reconcileDelete env c)) <> Finalizers c ->
  GetVSphereMachinesInCluster env (Namespace c) (Name c) = Ok [].
Proof.
  unfold reconcileDelete. simpl.
  destruct (GetVSphereMachinesInCluster env (Namespace c) (Name c))
    as [[|m ms]|e]; simpl; auto; intros H; now contradiction H.
Qed.

(** Carrying the finalizer or owning no machine is kept by every step. *)
Lemma step_invariant w1 w2 :
  step w1 w2 ->
  In ClusterFinalizer (Finalizers (world_cluster w1)) \/ world_machines w1 = [] ->
  In ClusterFinalizer (Finalizers (world_cluster w2)) \/ world_machines w2 = [].
Proof.
  intros Hstep Hinv.
  destruct Hstep as [env w Hobs|w remaining Hsub]; simpl.
  - destruct Hinv as [Hfin|Hnone]; [|auto].
    destruct (world_machines w) as [|m ms] eqn:Hms; [auto|]. left.
    destruct (decide (Finalizers (pass_cluster (reconcileDelete env (world_cluster w)))
                      = Finalizers (world_cluster w))) as [Heq|Hchanged].
    + now rewrite Heq.
    + apply reconcileDelete_finalizers_changed in Hchanged.
      destruct Hobs as [Hobs|[e Hobs]]; congruence.
  - destruct Hinv as [Hfin|Hnone]; [auto|]. right.
    rewrite Hnone in Hsub. now apply sublist_nil_r in Hsub.
Qed.

(** C5.  A Deleting pass handed a non-empty list of owned machines asks
    for a requeue after ten seconds, reports no error and leaves the
    finalizers as they are; a pass that changes the finalizers was handed an
    empty list; hence, from a cluster that carries its finalizer, in every
    state reached by Deleting passes and machines going away, a cluster that
    still owns machines carries its finalizer. *)
Theorem reconcileDelete_keeps_finalizer_while_machines_exist :
  (forall env c machines,
     GetVSphereMachinesInCluster env (Namespace c) (Name c) = Ok machines ->
     machines <> [] ->
     pass_result (reconcileDelete env c)
       = {| Requeue := false; RequeueAfter := 10 * Second |}
     /\ RequeueAfter (pass_result (reconcileDelete env c)) = 10000000000
     /\ pass_err (reconcileDelete env c) = None
     /\ Finalizers (pass_cluster (reconcileDelete env c)) = Finalizers c)
  /\ (forall env c,
        Finalizers (pass_cluster (reconcileDelete env c)) <> Finalizers c ->
        GetVSphereMachinesInCluster env (Namespace c) (Name c) = Ok [])
  /\ (forall w0 w,
        In ClusterFinalizer (Finalizers (world_cluster w0)) ->
        reachable w0 w ->
        world_machines w <> [] ->
        In ClusterFinalizer (Finalizers (world_cluster w))).
Proof.
  split; [|split].
  - intros env c machines Hlist Hne. unfold reconcileDelete. simpl.
    rewrite Hlist. destruct machines as [|m ms]; [contradiction|].
    simpl. auto.
  - apply reconcileDelete_finalizers_changed.
  - intros w0 w Hfin Hreach.
    assert (Hinv : In ClusterFinalizer (Finalizers (world_cluster w))
                   \/ world_machines w = []).
    { assert (Hinit : In ClusterFinalizer (Finalizers (world_cluster w0))
                      \/ world_machines w0 = []) by auto.
      clear Hfin. induction Hreach as [w|w1 w2 w3 Hstep Hreach IH]; [auto|].
      apply IH. eapply step_invariant; eauto. }
    intros Hne. destruct Hinv; [assumption|contradiction].
Qed.

(** A Deleting pass with an identity-bound secret, once the owned machines
    are gone: the calls it makes and how it ends. *)
Lemma reconcileDelete_secret_cases env c :
  IsSecretIdentity c = true ->
  GetVSphereMachinesInCluster env (Namespace c) (Name c) = Ok [] ->
  reconcileDelete env c =
    let c1 := markFalse CSIAvailableCondition DeletingReason
                ConditionSeverityInfo ""
                (markFalse CCMAvailableCondition DeletingReason
                   ConditionSeverityInfo "" c) in
    let done := setFinalizers (RemoveFinalizer (Finalizers c) ClusterFinalizer) c1 in
    let list := CallListVSphereMachines (Namespace c) (Name c) in
    let get := CallGetSecret (Namespace c) (identityRefName c) in
    match GetSecret env (Namespace c) (identityRefName c) with
    | Err e =>
        {| pass_cluster := if IsNotFound e then done else c1;
           pass_result := ResultZero;
           pass_err := if IsNotFound e then None else Some e;
           pass_calls := [list; get] |}
    | Ok secret =>
        let secret' :=
          secretSetFinalizers
            (RemoveFinalizer (secret_Finalizers secret)
               SecretIdentitySetFinalizer) secret in
        match UpdateSecret env secret' with
        | Some e =>
            {| pass_cluster := c1; pass_result := ResultZero;
               pass_err := Some e;
               pass_calls := [list; get; CallUpdateSecret secret'] |}
        | None =>
            {| pass_cluster :=
                 match DeleteSecret env secret' with
                 | Some _ => c1
                 | None => done
                 end;
               pass_result := ResultZero;
               pass_err := DeleteSecret env secret';
               pass_calls := [list; get; CallUpdateSecret secret';
                              CallDeleteSecret secret'] |}
        end
    end.
Proof.
  intros Hid Hlist. unfold reconcileDelete. simpl.
  rewrite Hlist. simpl.
  change (IsSecretIdentity (markFalse _ _ _ _ (markFalse _ _ _ _ c)))
    with (IsSecretIdentity c).
  change (identityRefName (markFalse _ _ _ _ (markFalse _ _ _ _ c)))
    with (identityRefName c).
  rewrite Hid.
  destruct (GetSecret env (Namespace c) (identityRefName c)) as [secret|e].
  - destruct (UpdateSecret env _); [reflexivity|].
    destruct (DeleteSecret env _); reflexivity.
  - destruct (IsNotFound e); reflexivity.
Qed.

(** C6, as amended.  In a Deleting pass with an identity-bound secret and
    no owned machine left: a not-found answer to the get is tolerated, the
    cluster's finalizer is removed and no error is reported; when the secret
    is read, it is updated with its protective finalizer removed and then
    deleted, and when both requests succeed the cluster's finalizer is
    removed and no error is reported; an error of the update or of the
    delete, not-found included, is the error of the pass, which then leaves
    the cluster's finalizers as they are. *)
Theorem reconcileDelete_identity_secret env c :
  IsSecretIdentity c = true ->
  GetVSphereMachinesInCluster env (Namespace c) (Name c) = Ok [] ->
  let pass := reconcileDelete env c in
  let list := CallListVSphereMachines (Namespace c) (Name c) in
  let get := CallGetSecret (Namespace c) (identityRefName c) in
  (forall e, GetSecret env (Namespace c) (identityRefName c) = Err e ->
             IsNotFound e = true ->
             pass_err pass = None
             /\ pass_result pass = ResultZero
             /\ ~ In ClusterFinalizer (Finalizers (pass_cluster pass))
             /\ pass_calls pass = [list; get])
  /\ (forall secret,
        GetSecret env (Namespace c) (identityRefName c) = Ok secret ->
        let secret' :=
          secretSetFinalizers
            (RemoveFinalizer (secret_Finalizers secret)
               SecretIdentitySetFinalizer) secret in
        ~ In SecretIdentitySetFinalizer (secret_Finalizers secret')
        /\ (UpdateSecret env secret' = None ->
            pass_calls pass = [list; get; CallUpdateSecret secret';
                               CallDeleteSecret secret'])
        /\ (UpdateSecret env secret' = None ->
            DeleteSecret env secret' = None ->
            pass_err pass = None
            /\ pass_result pass = ResultZero
            /\ ~ In ClusterFinalizer (Finalizers (pass_cluster pass)))
        /\ (forall e,
              UpdateSecret env secret' = Some e ->
              pass_err pass = Some e
              /\ Finalizers (pass_cluster pass) = Finalizers c
              /\ pass_calls pass = [list; get; CallUpdateSecret secret'])
        /\ (forall e,
              UpdateSecret env secret' = None ->
              DeleteSecret env secret' = Some e ->
              pass_err pass = Some e
              /\ Finalizers (pass_cluster pass) = Finalizers c)).
Proof.
  intros Hid Hlist pass list get. subst pass.
  rewrite (reconcileDelete_secret_cases env c Hid Hlist). simpl.
  split.
  - intros e -> ->. simpl. repeat split. apply RemoveFinalizer_not_In.
  - intros secret ->. simpl. split; [apply RemoveFinalizer_not_In|].
    split; [intros ->; reflexivity|].
    split; [intros -> ->; simpl; repeat split; apply RemoveFinalizer_not_In|].
    split.
    + intros e ->. simpl. auto.
    + intros e -> ->. simpl. auto.
Qed.

Lemma reconcileDelete_identity_secret_witness :
  pass_err (reconcileDelete secretVanishes exampleCluster)
    = Some (NotFoundError "secrets creds not found")
  /\ Finalizers (pass_cluster (reconcileDelete secretVanishes exampleCluster))
     = Finalizers exampleCluster.
Proof.
  destruct (reconcileDelete_identity_secret secretVanishes exampleCluster
              eq_refl eq_refl) as [_ H].
  destruct (H exampleSecret eq_refl) as (_ & _ & _ & Hupd & _).
  destruct (Hupd _ eq_refl) as (Herr & Hfin & _).
  split; assumption.
Defined.

(** C6 as claimed fails: the update of the secret answers not-found, and
    the pass ends with that error, the cluster's finalizer still in place. *)
Lemma reconcileDelete_update_not_found_is_an_error :
  IsSecretIdentity exampleCluster = true
  /\ GetVSphereMachinesInCluster secretVanishes "default" "c1" = Ok []
  /\ GetSecret secretVanishes "default" "creds" = Ok exampleSecret
  /\ (exists e,
        UpdateSecret secretVanishes
          (secretSetFinalizers [] exampleSecret) = Some e
        /\ IsNotFound e = true
        /\ pass_err (reconcileDelete secretVanishes exampleCluster) = Some e)
  /\ In ClusterFinalizer
       (Finalizers (pass_cluster (reconcileDelete secretVanishes exampleCluster))).
Proof.
  repeat split.
  - eexists. repeat split.
  - simpl. auto.
Qed.

Lemma reconcileDeploymentZones_three_zones_witness :
  exists c,
    reconcileDeploymentZones
      (envOf (Ok [zone "A" "S1" (Some true) (Some true);
                  zone "B" "S1" None (Some false);
                  zone "C" "S2" None (Some true)])
         (Ok []) (Err (NotFoundError "")) None None)
      exampleCluster = Returned (c, true, None)
    /\ Status_FailureDomains c = {[ "A" := {| fd_ControlPlane := true |} ]}.
Proof.
  destruct (proj1 reconcileDeploymentZones_three_zones
              (envOf (Ok [zone "A" "S1" (Some true) (Some true);
                          zone "B" "S1" None (Some false);
                          zone "C" "S2" None (Some true)])
                 (Ok []) (Err (NotFoundError "")) None None)
              exampleCluster "S1" "S2" true None None (Some true) _
              ltac:(discriminate) eq_refl eq_refl eq_refl
              (Permutation_refl _))
    as (c & Hrun & Hmap & _).
  exists c. split; assumption.
Defined.

Lemma reconcileNormal_publishes_failure_domains_witness :
  exists np,
    reconcileNormal
      (envOf (Ok [zone "A" "S1" (Some true) (Some true);
                  zone "B" "S1" (Some false) None])
         (Ok []) (Ok exampleSecret) None None)
      exampleOwner exampleCluster sessionSpec.emptyState ∅ = Returned np
    /\ is_Some (Status_FailureDomains (pass_cluster (normal_pass np)) !! "B")
    /\ pass_result (normal_pass np)
       = {| Requeue := false; RequeueAfter := 10 * Second |}.
Proof.
  assert (HmB : matched exampleCluster (zone "B" "S1" (Some false) None)).
  { split; [reflexivity|]. exists "A:B". split; [reflexivity|].
    simpl. auto. }
  destruct (reconcileNormal_publishes_failure_domains
              (envOf (Ok [zone "A" "S1" (Some true) (Some true);
                          zone "B" "S1" (Some false) None])
                 (Ok []) (Ok exampleSecret) None None)
              exampleOwner exampleCluster sessionSpec.emptyState ∅ _ eq_refl)
    as (np & Hrun & Hkeys & _ & Hwait).
  - intros z [<-|[<-|[]]] _ _; simpl; eauto.
  - exists np. split; [exact Hrun|]. split.
    + apply Hkeys. exists (zone "B" "S1" (Some false) None).
      simpl. repeat split; auto. apply HmB.
    + destruct Hwait as (Hres & _); [|exact Hres].
      exists (zone "B" "S1" (Some false) None). simpl. repeat split; auto.
      apply HmB.
Defined.

Lemma reconcileDelete_keeps_finalizer_while_machines_exist_witness :
  pass_result
    (reconcileDelete
       (envOf (Ok []) (Ok [{| machine_Name := "m1" |}; {| machine_Name := "m2" |}])
          (Ok exampleSecret) None None) exampleCluster)
    = {| Requeue := false; RequeueAfter := 10 * Second |}
  /\ Finalizers
       (pass_cluster
          (reconcileDelete
             (envOf (Ok [])
                (Ok [{| machine_Name := "m1" |}; {| machine_Name := "m2" |}])
                (Ok exampleSecret) None None) exampleCluster))
     = [ClusterFinalizer].
Proof.
  destruct (proj1 reconcileDelete_keeps_finalizer_while_machines_exist
              (envOf (Ok [])
                 (Ok [{| machine_Name := "m1" |}; {| machine_Name := "m2" |}])
                 (Ok exampleSecret) None None)
              exampleCluster _ eq_refl ltac:(discriminate))
    as (Hres & _ & _ & Hfin).
  split; assumption.
Defined.

End clusterProofs.

(* ===================================================================== *)
(** ** Properties of the VM reconciler *)
(* ===================================================================== *)

Module vmProofs.
Import vmReconciler vmSpec.

Lemma isWaitingForStaticIPAllocation_lacksAddress v :
  isWaitingForStaticIPAllocation v = true <-> lacksAddress v.
Proof.
  unfold isWaitingForStaticIPAllocation, lacksAddress.
  rewrite existsb_exists. split; intros (dev & Hin & H); exists dev.
  - apply andb_true_iff in H as [H H3]. apply andb_true_iff in H as [H1 H2].
    apply negb_true_iff in H1, H2. apply Nat.eqb_eq in H3.
    destruct (IPAddrs dev); [auto|discriminate].
  - destruct H as (-> & -> & ->). auto.
Qed.

(** The ways a Normal pass can go, by what it asks of the lifecycle
    service. *)
Lemma reconcileNormal_calls svc v :
  pass_calls (reconcileNormal svc v) = []
  /\ pass_vm (reconcileNormal svc v) = v
  /\ pass_err (reconcileNormal svc v) = None
  /\ (Status_FailureReason v <> None \/ Status_FailureMessage v <> None)
  \/ pass_calls (reconcileNormal svc v) = []
     /\ Status_FailureReason v = None
     /\ Status_FailureMessage v = None
     /\ isWaitingForStaticIPAllocation v = true
     /\ pass_err (reconcileNormal svc v) = None
     /\ pass_result (reconcileNormal svc v) = ResultZero
     /\ Spec_BiosUUID (pass_vm (reconcileNormal svc v)) = Spec_BiosUUID v
     /\ Status_Conditions (pass_vm (reconcileNormal svc v))
          !! VMProvisionedCondition = Some waitingForStaticIP
  \/ exists v' vm err,
       pass_calls (reconcileNormal svc v) = [CallReconcileVM v']
       /\ Spec_BiosUUID v' = Spec_BiosUUID v
       /\ isWaitingForStaticIPAllocation v = false
       /\ ReconcileVM svc v' = (vm, err)
       /\ (err <> None
           \/ vm_State vm <> VirtualMachineStateReady
           \/ vm_BiosUUID vm = "" ->
           Spec_BiosUUID (pass_vm (reconcileNormal svc v)) = Spec_BiosUUID v)
       /\ (err <> None -> pass_err (reconcileNormal svc v) <> None)
       /\ (err = None -> vm_State vm = VirtualMachineStateReady ->
           vm_BiosUUID vm = "" ->
           pass_err (reconcileNormal svc v)
             = Some (Errorf "bios uuid is empty while VM is ready"))
       /\ (err = None -> vm_State vm = VirtualMachineStateReady ->
           vm_BiosUUID vm <> "" ->
           Spec_BiosUUID (pass_vm (reconcileNormal svc v)) = vm_BiosUUID vm).
Proof.
  unfold reconcileNormal.
  destruct (negb (bool_decide (Status_FailureReason v = None))
            || negb (bool_decide (Status_FailureMessage v = None))) eqn:Hfail.
  { left. repeat split; auto.
    apply orb_true_iff in Hfail as [H|H]; [left|right];
      apply negb_true_iff, bool_decide_eq_false in H; exact H. }
  apply orb_false_iff in Hfail as [Hr Hm].
  apply negb_false_iff, bool_decide_eq_true in Hr, Hm.
  right.
  change (isWaitingForStaticIPAllocation (setFinalizers _ v))
    with (isWaitingForStaticIPAllocation v).
  destruct (isWaitingForStaticIPAllocation v) eqn:Hwait.
  { left. simpl. repeat split; auto. unfold MarkFalse. apply lookup_insert_eq. }
  right.
  set (v' := setFinalizers (AddFinalizer (Finalizers v) VMFinalizer) v).
  destruct (ReconcileVM svc v') as [vm err] eqn:Hsvc.
  exists v', vm, err. split.
  { destruct err; [reflexivity|].
    destruct (negb (String.eqb (vm_State vm) VirtualMachineStateReady));
      [reflexivity|].
    destruct (negb (String.eqb (vm_BiosUUID vm) "")); [|reflexivity].
    destruct (length _ =? 0)%nat; reflexivity. }
  split; [reflexivity|]. split; [reflexivity|]. split; [exact Hsvc|].
  destruct err as [e|]; simpl.
  { repeat split; auto; try discriminate; congruence. }
  destruct (String.eqb_spec (vm_State vm) VirtualMachineStateReady) as [Hs|Hs];
    simpl.
  - destruct (String.eqb_spec (vm_BiosUUID vm) "") as [Hu|Hu]; simpl.
    + repeat split; auto; congruence.
    + repeat split; try congruence.
      * intros [H|[H|H]]; congruence.
      * intros _ _ _.
        match goal with
        | |- context [if ?b then _ else _] => destruct b
        end; reflexivity.
  - repeat split; auto; congruence.
Qed.

(** C3.  In a Normal pass that calls the lifecycle service and is told
    state "ready" with an empty identifier, the pass returns an error (the
    "bios uuid is empty" one when the service itself reports none) and the
    identifier of the VM resource is what it was, so a non-empty one is not
    replaced by the empty string. *)
Theorem reconcileNormal_ready_without_uuid_is_an_error svc v v' :
  In (CallReconcileVM v') (pass_calls (reconcileNormal svc v)) ->
  vm_State (fst (ReconcileVM svc v')) = VirtualMachineStateReady ->
  vm_BiosUUID (fst (ReconcileVM svc v')) = "" ->
  (exists e, pass_err (reconcileNormal svc v) = Some e)
  /\ (snd (ReconcileVM svc v') = None ->
      pass_err (reconcileNormal svc v)
        = Some (Errorf "bios uuid is empty while VM is ready"))
  /\ Spec_BiosUUID (pass_vm (reconcileNormal svc v)) = Spec_BiosUUID v
  /\ (Spec_BiosUUID v <> "" ->
      Spec_BiosUUID (pass_vm (reconcileNormal svc v)) <> "").
Proof.
  intros Hcall Hstate Huuid.
  destruct (reconcileNormal_calls svc v)
    as [(Hc & _)|[(Hc & _)|(v0 & vm & err & Hc & _ & _ & Hsvc & Hkeep & Herr
                            & Hempty & _)]];
    rewrite Hc in Hcall; try destruct Hcall.
  2: destruct H.
  injection H as ->. rewrite Hsvc in *. simpl in *.
  assert (Hsame : Spec_BiosUUID (pass_vm (reconcileNormal svc v))
                  = Spec_BiosUUID v) by auto.
  repeat split; auto.
  - destruct err as [e|].
    + destruct (pass_err (reconcileNormal svc v)) eqn:He; [eauto|].
      exfalso. now apply Herr.
    + rewrite Hempty; eauto.
  - now rewrite Hsame.
Qed.

Lemma reconcileNormal_ready_without_uuid_is_an_error_witness :
  (exists e,
     pass_err (reconcileNormal (reporting VirtualMachineStateReady "")
                 (vmWith [dhcpDevice] None)) = Some e)
  /\ Spec_BiosUUID
       (pass_vm (reconcileNormal (reporting VirtualMachineStateReady "")
                   (vmWith [dhcpDevice] None))) = "abc".
Proof.
  destruct (reconcileNormal_ready_without_uuid_is_an_error
              (reporting VirtualMachineStateReady "")
              (vmWith [dhcpDevice] None) (vmWith [dhcpDevice] None))
    as (Herr & _ & Hsame & _).
  - simpl. left. reflexivity.
  - reflexivity.
  - reflexivity.
  - split; assumption.
Defined.

(** C4 as claimed fails: the identifier is "abc", the service reports
    "ready" with the identifier "xyz", and the pass leaves "xyz" in the
    resource. *)
Lemma reconcileNormal_overwrites_identifier :
  Spec_BiosUUID (vmWith [dhcpDevice] None) = "abc"
  /\ pass_calls (reconcileNormal (reporting VirtualMachineStateReady "xyz")
                  (vmWith [dhcpDevice] None))
     = [CallReconcileVM (vmWith [dhcpDevice] None)]
  /\ Spec_BiosUUID
       (pass_vm (reconcileNormal (reporting VirtualMachineStateReady "xyz")
                   (vmWith [dhcpDevice] None))) = "xyz"
  /\ pass_err (reconcileNormal (reporting VirtualMachineStateReady "xyz")
                 (vmWith [dhcpDevice] None)) = None.
Proof.
  repeat split.
Qed.

(** C4, as amended.  A Normal pass never replaces a non-empty identifier
    by the empty one: it either leaves the identifier as it is, or the
    lifecycle service, called once, has reported state "ready" with a
    non-empty identifier and no error, and the identifier is then the
    reported one, whatever it was before. *)
Theorem reconcileNormal_identifier_never_emptied svc v :
  (Spec_BiosUUID v <> "" ->
   Spec_BiosUUID (pass_vm (reconcileNormal svc v)) <> "")
  /\ (Spec_BiosUUID (pass_vm (reconcileNormal svc v)) = Spec_BiosUUID v
      \/ exists v' vm,
           pass_calls (reconcileNormal svc v) = [CallReconcileVM v']
           /\ ReconcileVM svc v' = (vm, None)
           /\ vm_State vm = VirtualMachineStateReady
           /\ vm_BiosUUID vm <> ""
           /\ Spec_BiosUUID (pass_vm (reconcileNormal svc v)) = vm_BiosUUID vm)
  /\ (forall v' vm,
        In (CallReconcileVM v') (pass_calls (reconcileNormal svc v)) ->
        ReconcileVM svc v' = (vm, None) ->
        vm_State vm = VirtualMachineStateReady ->
        vm_BiosUUID vm <> "" ->
        Spec_BiosUUID (pass_vm (reconcileNormal svc v)) = vm_BiosUUID vm).
Proof.
  destruct (reconcileNormal_calls svc v)
    as [(Hc & Hv & _)|[(Hc & _ & _ & _ & _ & _ & Hu & _)
                      |(v0 & vm & err & Hc & _ & _ & Hsvc & Hkeep & _ & _
                        & Hset)]].
  - rewrite Hv, Hc. repeat split; auto. intros ? ? [].
  - rewrite Hu, Hc. repeat split; auto. intros ? ? [].
  - assert (Hcases : err <> None \/ vm_State vm <> VirtualMachineStateReady
                     \/ vm_BiosUUID vm = ""
                     \/ (err = None /\ vm_State vm = VirtualMachineStateReady
                         /\ vm_BiosUUID vm <> "")).
    { destruct err; [left; discriminate|].
      destruct (String.eqb_spec (vm_State vm) VirtualMachineStateReady); auto.
      destruct (String.eqb_spec (vm_BiosUUID vm) ""); auto 6. }
    rewrite Hc. split; [|split].
    + intros Hne.
      destruct Hcases as [H|[H|[H|(He & Hs & Hu)]]];
        try (rewrite Hkeep; auto; fail).
      rewrite (Hset He Hs Hu). assumption.
    + destruct Hcases as [H|[H|[H|(He & Hs & Hu)]]]; auto.
      right. exists v0, vm. subst err. auto 6.
    + intros v1 vm1 [[= <-]|[]] Hsvc1 Hs Hu.
      rewrite Hsvc in Hsvc1. injection Hsvc1 as <- ->. auto.
Qed.

Lemma reconcileNormal_identifier_never_emptied_witness :
  Spec_BiosUUID
    (pass_vm (reconcileNormal (reporting VirtualMachineStatePending "")
                (vmWith [dhcpDevice] None))) <> "".
Proof.
  apply (proj1 (reconcileNormal_identifier_never_emptied
                  (reporting VirtualMachineStatePending "")
                  (vmWith [dhcpDevice] None))).
  discriminate.
Defined.

(** C8 as claimed fails: a VM with a recorded failure and a device that
    waits for a static address goes through a Normal pass that marks no
    condition. *)
Lemma reconcileNormal_failed_vm_records_no_waiting_condition :
  lacksAddress (vmWith [staticDeviceUnassigned] (Some "CreateError"))
  /\ Status_Conditions
       (pass_vm (reconcileNormal (reporting VirtualMachineStateReady "abc")
                   (vmWith [staticDeviceUnassigned] (Some "CreateError"))))
       !! VMProvisionedCondition = None
  /\ pass_vm (reconcileNormal (reporting VirtualMachineStateReady "abc")
                (vmWith [staticDeviceUnassigned] (Some "CreateError")))
     = vmWith [staticDeviceUnassigned] (Some "CreateError").
Proof.
  split; [|split; reflexivity].
  exists staticDeviceUnassigned. simpl. auto.
Qed.

(** C8, as amended.  A Normal pass over a VM one of whose devices asks for
    neither DHCPv4 nor DHCPv6 and has no static address returns without
    error and without calling the lifecycle service; when no failure is
    recorded on the VM, it also marks the provisioned condition false with
    the waiting-for-static-IP reason, and asks for no requeue. *)
Theorem reconcileNormal_waits_for_static_ip svc v :
  lacksAddress v ->
  pass_err (reconcileNormal svc v) = None
  /\ pass_calls (reconcileNormal svc v) = []
  /\ (Status_FailureReason v = None ->
      Status_FailureMessage v = None ->
      Status_Conditions (pass_vm (reconcileNormal svc v))
        !! VMProvisionedCondition = Some waitingForStaticIP
      /\ pass_result (reconcileNormal svc v) = ResultZero).
Proof.
  intros Hlack. apply isWaitingForStaticIPAllocation_lacksAddress in Hlack.
  destruct (reconcileNormal_calls svc v)
    as [(Hc & _ & He & Hfailed)|[(Hc & _ & _ & _ & He & Hres & _ & Hcond)
                                |(v0 & vm & err & _ & _ & Hw & _)]].
  - split; [assumption|]. split; [assumption|].
    intros Hr Hm. destruct Hfailed; contradiction.
  - repeat split; auto.
  - congruence.
Qed.

Lemma reconcileNormal_waits_for_static_ip_witness :
  pass_calls (reconcileNormal (reporting VirtualMachineStateReady "abc")
                (vmWith [dhcpDevice; staticDeviceUnassigned] None)) = []
  /\ Status_Conditions
       (pass_vm (reconcileNormal (reporting VirtualMachineStateReady "abc")
                   (vmWith [dhcpDevice; staticDeviceUnassigned] None)))
       !! VMProvisionedCondition = Some waitingForStaticIP.
Proof.
  destruct (reconcileNormal_waits_for_static_ip
              (reporting VirtualMachineStateReady "abc")
              (vmWith [dhcpDevice; staticDeviceUnassigned] None))
    as (_ & Hcalls & Hcond).
  - exists staticDeviceUnassigned. simpl. auto.
  - destruct (Hcond eq_refl eq_refl) as [Hc _]. split; assumption.
Defined.

End vmProofs.

(* ===================================================================== *)
(** ** Properties of the Ignition helpers *)
(* ===================================================================== *)

Module utilProofs.
Import util utilSpec.

Lemma setHostName_has hostname config :
  hasHostNameFile (setHostName hostname config) = true.
Proof.
  unfold setHostName, hasHostNameFile.
  destruct (existsb _ (Storage_Files config)) eqn:H; [exact H|].
  simpl. rewrite existsb_app, H. reflexivity.
Qed.

(** X1.  [setHostName] leaves a configuration that has a file at the
    hostname path; the first hostname written stays: a second call, with
    whatever name, changes nothing; a call appends at most one file after
    the files already there and leaves the network units alone, and a
    configuration that already has a hostname file is returned as it is. *)
Theorem setHostName_first_wins hostname hostname' config :
  hasHostNameFile (setHostName hostname config) = true
  /\ setHostName hostname' (setHostName hostname config)
     = setHostName hostname config
  /\ (exists added,
        Storage_Files (setHostName hostname config)
          = Storage_Files config ++ added
        /\ (length added <= 1)%nat
        /\ forall file, In file added ->
             Path file = hostNamePath
             /\ Contents_Source file = "data:," +:+ hostname)
  /\ Networkd_Units (setHostName hostname config) = Networkd_Units config
  /\ (hasHostNameFile config = true -> setHostName hostname config = config).
Proof.
  split; [apply setHostName_has|]. split.
  - pose proof (setHostName_has hostname config) as H.
    unfold hasHostNameFile in H. unfold setHostName at 1. now rewrite H.
  - unfold setHostName, hasHostNameFile.
    destruct (existsb _ (Storage_Files config)); simpl.
    + split; [|auto]. exists []. rewrite app_nil_r.
      split; [reflexivity|]. split; [simpl; lia|]. intros ? [].
    + split; [|split; [reflexivity|discriminate]].
      eexists. split; [reflexivity|].
      split; [simpl; lia|]. intros file [<-|[]]. auto.
Qed.

Lemma lastFirstAddress_app devices devices' :
  lastFirstAddress (devices ++ devices')
  = fold_left
      (fun ip4 device =>
         match vmReconciler.IPAddrs device with
         | addr :: _ => addr
         | [] => ip4
         end)
      devices' (lastFirstAddress devices).
Proof. unfold lastFirstAddress. apply fold_left_app. Qed.

Lemma fold_no_address devices ip4 :
  (forall d, In d devices -> vmReconciler.IPAddrs d = []) ->
  fold_left
    (fun ip4 device =>
       match vmReconciler.IPAddrs device with
       | addr :: _ => addr
       | [] => ip4
       end)
    devices ip4 = ip4.
Proof.
  revert ip4. induction devices as [|d devices IH]; simpl; intros ip4 H.
  - reflexivity.
  - rewrite (H d) by auto. apply IH. auto.
Qed.

(** X2.  The address [setNetowrk] writes is the first address of the last
    device that has addresses, and the empty string when no device has one;
    the unit is appended only to a configuration without units, which then
    has exactly that unit; a configuration with units is returned as it is,
    so a second call changes nothing; the files are never touched. *)
Theorem setNetowrk_address_and_first_wins :
  (forall before device after addr addrs,
     vmReconciler.IPAddrs device = addr :: addrs ->
     (forall d, In d after -> vmReconciler.IPAddrs d = []) ->
     lastFirstAddress (before ++ device :: after) = addr)
  /\ (forall devices,
        (forall d, In d devices -> vmReconciler.IPAddrs d = []) ->
        lastFirstAddress devices = "")
  /\ (forall devices config,
        Networkd_Units config = [] ->
        Networkd_Units (setNetowrk devices config)
        = [{| Contents := "[Match]" +:+ LF +:+ "Name=ens12" +:+ LF +:+ LF
                          +:+ "[Network]" +:+ LF +:+ "Address="
                          +:+ lastFirstAddress devices;
              unit_Name := "00-ens12.network" |}])
  /\ (forall devices config,
        Networkd_Units config <> [] -> setNetowrk devices config = config)
  /\ (forall devices devices' config,
        setNetowrk devices' (setNetowrk devices config)
        = setNetowrk devices config)
  /\ (forall devices config,
        Storage_Files (setNetowrk devices config) = Storage_Files config).
Proof.
  split; [|split; [|split; [|split; [|split]]]].
  - intros before device after addr addrs Hd Hafter.
    rewrite lastFirstAddress_app. simpl. rewrite Hd.
    now apply fold_no_address.
  - intros devices H. unfold lastFirstAddress. now apply fold_no_address.
  - intros devices config H. unfold setNetowrk. rewrite H. reflexivity.
  - intros devices config H. unfold setNetowrk.
    destruct (Networkd_Units config); [contradiction|reflexivity].
  - intros devices devices' config. unfold setNetowrk at 1.
    assert (H : (length (Networkd_Units (setNetowrk devices config)) =? 0)%nat
                = false).
    { unfold setNetowrk. destruct (Networkd_Units config) eqn:Hu; simpl.
      - reflexivity.
      - rewrite Hu. reflexivity. }
    now rewrite H.
  - intros devices config. unfold setNetowrk.
    destruct (length _ =? 0)%nat; reflexivity.
Qed.

Lemma setNetowrk_address_and_first_wins_witness :
  lastFirstAddress
    [{| vmReconciler.DHCP4 := false; vmReconciler.DHCP6 := false;
        vmReconciler.IPAddrs := ["10.0.0.1"; "10.0.0.2"] |};
     {| vmReconciler.DHCP4 := false; vmReconciler.DHCP6 := false;
        vmReconciler.IPAddrs := ["10.0.0.3"] |};
     {| vmReconciler.DHCP4 := true; vmReconciler.DHCP6 := false;
        vmReconciler.IPAddrs := [] |}] = "10.0.0.3".
Proof.
  apply (proj1 setNetowrk_address_and_first_wins
           [{| vmReconciler.DHCP4 := false; vmReconciler.DHCP6 := false;
               vmReconciler.IPAddrs := ["10.0.0.1"; "10.0.0.2"] |}]
           {| vmReconciler.DHCP4 := false; vmReconciler.DHCP6 := false;
              vmReconciler.IPAddrs := ["10.0.0.3"] |}
           [{| vmReconciler.DHCP4 := true; vmReconciler.DHCP6 := false;
               vmReconciler.IPAddrs := [] |}]
           "10.0.0.3" []).
  - reflexivity.
  - intros d [<-|[]]. reflexivity.
Defined.

(** X3.  The two helpers work on different parts of the configuration:
    applied in either order they give the same configuration. *)
Theorem setHostName_setNetowrk_commute hostname devices config :
  setHostName hostname (setNetowrk devices config)
  = setNetowrk devices (setHostName hostname config).
Proof.
  unfold setHostName, setNetowrk.
  destruct (length (Networkd_Units config) =? 0)%nat eqn:Hu;
    destruct (existsb _ (Storage_Files config)) eqn:Hf; simpl;
    rewrite ?Hu, ?Hf; reflexivity.
Qed.

End utilProofs.

(* ===================================================================== *)
(** ** Further properties of the session cache *)
(* ===================================================================== *)

Module sessionAPIProofs.
Import session sessionSpec sessionProofs sessionAPI sessionAPISpec.

(** X4.  [clearCache] always removes the entry of its key and no other;
    it logs out of the tag manager and then of the vCenter session exactly
    when an entry was cached, and hands out no address; run again it finds
    nothing to do: no call is made and the state stays as it is. *)
Theorem clearCache_evicts key st :
  sessionCache (snd (clearCache key st)) = delete key (sessionCache st)
  /\ sessionCache (snd (clearCache key st)) !! key = None
  /\ (forall k, k <> key ->
        sessionCache (snd (clearCache key st)) !! k = sessionCache st !! k)
  /\ next_addr (snd (clearCache key st)) = next_addr st
  /\ appended st (snd (clearCache key st))
       match sessionCache st !! key with
       | Some s => [EvTagManagerLogout (addr s);
                    EvSessionManagerLogout (addr s)]
       | None => []
       end
  /\ clearCache key (snd (clearCache key st)) = (tt, snd (clearCache key st)).
Proof.
  unfold clearCache, appended, bind, ret, emit, cacheLoad, cacheDelete.
  destruct (sessionCache st !! key) as [s|] eqn:Hl; simpl;
    rewrite lookup_delete_eq; simpl.
  all: repeat split; auto using lookup_delete_eq.
  all: try (intros k Hk; now apply lookup_delete_ne).
  all: try (now rewrite <- app_assoc).
  all: try (now rewrite app_nil_r).
  all: f_equal; f_equal; apply delete_id, lookup_delete_eq.
Qed.

Lemma create_other_keys pf p st k :
  k <> sessionKeyOf p ->
  sessionCache (snd (GetOrCreate_create pf p st)) !! k = sessionCache st !! k.
Proof.
  intros Hk. pose proof (create_cache pf p st) as H.
  destruct (GetOrCreate_create pf p st) as [[s|e] st']; simpl.
  - destruct H as (-> & _). now apply lookup_insert_ne.
  - rewrite H. now apply lookup_delete_ne.
Qed.

(** X5.  [GetOrCreate] only ever changes the cache slot of its own key.
    When it returns a session, that session is the one cached under the key;
    when it returns an error, nothing is cached under the key any more, also
    when a session was cached before the call. *)
Theorem GetOrCreate_own_slot pf p st :
  (forall k, k <> sessionKeyOf p ->
     sessionCache (snd (GetOrCreate pf p st)) !! k = sessionCache st !! k)
  /\ (forall s, fst (GetOrCreate pf p st) = Ok s ->
        sessionCache (snd (GetOrCreate pf p st)) !! sessionKeyOf p = Some s)
  /\ (forall e, fst (GetOrCreate pf p st) = Err e ->
        sessionCache (snd (GetOrCreate pf p st)) !! sessionKeyOf p = None).
Proof.
  split; [|split].
  - intros k Hk.
    destruct (sessionCache st !! sessionKeyOf p) as [s0|] eqn:Hl.
    + destruct (refreshRestClient p) eqn:Hr.
      * rewrite (GetOrCreate_refresh _ _ _ _ Hl Hr).
        destruct (fst (TagManager_Session pf (addr s0))); [reflexivity|].
        now rewrite create_other_keys.
      * now rewrite (GetOrCreate_hit _ _ _ _ Hl Hr).
    + rewrite (GetOrCreate_miss _ _ _ Hl). now apply create_other_keys.
  - intros s Hs. apply (GetOrCreate_ok_cached pf p st).
    destruct (GetOrCreate pf p st). simpl in Hs. now subst.
  - intros e He.
    assert (Hc : forall st0 st1 r, GetOrCreate_create pf p st0 = (r, st1) ->
                   r = Err e -> sessionCache st1 !! sessionKeyOf p = None).
    { intros st0 st1 r Hrun ->. pose proof (create_cache pf p st0) as H.
      rewrite Hrun in H. rewrite H. apply lookup_delete_eq. }
    destruct (sessionCache st !! sessionKeyOf p) as [s0|] eqn:Hl.
    + destruct (refreshRestClient p) eqn:Hr.
      * rewrite (GetOrCreate_refresh _ _ _ _ Hl Hr) in *.
        destruct (fst (TagManager_Session pf (addr s0))); [discriminate|].
        destruct (GetOrCreate_create pf p (probed s0 st)) eqn:Hrun.
        eapply Hc; eauto.
      * rewrite (GetOrCreate_hit _ _ _ _ Hl Hr) in He. discriminate.
    + rewrite (GetOrCreate_miss _ _ _ Hl) in *.
      destruct (GetOrCreate_create pf p st) eqn:Hrun. eapply Hc; eauto.
Qed.

Lemma GetOrCreate_own_slot_witness :
  sessionCache
    (snd (GetOrCreate vcenterDown (refreshing (paramsOf "vcenter" "admin" ""))
            oldState))
    !! sessionKeyOf (refreshing (paramsOf "vcenter" "admin" "")) = None.
Proof.
  apply (proj2 (proj2 (GetOrCreate_own_slot vcenterDown
                         (refreshing (paramsOf "vcenter" "admin" ""))
                         oldState))
           (OtherError "connection refused")).
  reflexivity.
Defined.

(** The events of the creation path: its logouts all come first, then at
    most one login on each endpoint, exactly one on success. *)
Lemma create_events pf p st :
  exists events,
    appended st (snd (GetOrCreate_create pf p st)) events
    /\ (count isLogin events <= 1)%nat
    /\ (count isRestLogin events <= 1)%nat
    /\ (forall s, fst (GetOrCreate_create pf p st) = Ok s ->
          count isLogin events = 1%nat /\ count isRestLogin events = 1%nat)
    /\ count isLogout events
       = match sessionCache st !! sessionKeyOf p with
         | Some _ => 2%nat
         | None => 0%nat
         end.
Proof.
  unfold appended. unfold_session.
  destruct (sessionCache st !! sessionKeyOf p); simpl.
  all: case_platform.
  all: eexists; split; [rewrite <- ?app_assoc; reflexivity|].
  all: unfold count; simpl; repeat split; try lia; try discriminate.
Qed.

(** X6.  One [GetOrCreate] call logs in at most once on the vCenter and at
    most once on the REST endpoint; it logs in exactly once on each when it
    returns a session that was not cached before, and makes no call at all
    when it returns a cached session without forced refresh. *)
Theorem GetOrCreate_logs_in_once pf p st :
  exists events,
    appended st (snd (GetOrCreate pf p st)) events
    /\ (count isLogin events <= 1)%nat
    /\ (count isRestLogin events <= 1)%nat
    /\ (forall s, fst (GetOrCreate pf p st) = Ok s ->
          sessionCache st !! sessionKeyOf p <> Some s ->
          count isLogin events = 1%nat /\ count isRestLogin events = 1%nat)
    /\ (forall s, sessionCache st !! sessionKeyOf p = Some s ->
          refreshRestClient p = false ->
          events = [] /\ fst (GetOrCreate pf p st) = Ok s).
Proof.
  destruct (sessionCache st !! sessionKeyOf p) as [s0|] eqn:Hl.
  - destruct (refreshRestClient p) eqn:Hr.
    + rewrite (GetOrCreate_refresh _ _ _ _ Hl Hr).
      destruct (fst (TagManager_Session pf (addr s0))).
      * exists [EvTagManagerSession (addr s0)]. unfold appended, count. simpl.
        split; [reflexivity|]. split; [lia|]. split; [lia|]. split.
        -- intros s [= <-] Hne. now contradiction Hne.
        -- discriminate.
      * destruct (create_events pf p (probed s0 st))
          as (events & Happ & Hl1 & Hl2 & Hok & _).
        exists (EvTagManagerSession (addr s0) :: events).
        unfold appended in *. rewrite Happ. simpl. rewrite <- app_assoc.
        unfold count in *. simpl.
        split; [reflexivity|]. split; [exact Hl1|]. split; [exact Hl2|]. split.
        -- intros s Hs _. exact (Hok s Hs).
        -- discriminate.
    + rewrite (GetOrCreate_hit _ _ _ _ Hl Hr). exists [].
      unfold appended, count. simpl. rewrite app_nil_r.
      split; [reflexivity|]. split; [lia|]. split; [lia|]. split.
      * intros s [= <-] Hne. now contradiction Hne.
      * intros s [= <-] _. auto.
  - rewrite (GetOrCreate_miss _ _ _ Hl).
    destruct (create_events pf p st) as (events & Happ & Hl1 & Hl2 & Hok & _).
    exists events.
    split; [exact Happ|]. split; [exact Hl1|]. split; [exact Hl2|]. split.
    + intros s Hs _. exact (Hok s Hs).
    + discriminate.
Qed.

(** X7.  The cache key is made of the server, the user name and the
    datacenter, whatever the password, the thumbprint, the keep-alive
    settings and the caller.  Once a session is returned for a server, user
    and datacenter, a call for the same three with another password, another
    thumbprint and other settings returns that session and leaves the state,
    trace included, as it is: no call is made, whatever the vCenter would
    answer. *)
Theorem GetOrCreate_ignores_password_and_thumbprint
    (DefaultEnableKeepAlive : bool) pf pf' st s st'
    server datacenter username
    password thumbprint feature caller
    password' thumbprint' feature' caller' :
  sessionKeyOf (built DefaultEnableKeepAlive server datacenter username password thumbprint
                  feature caller)
  = server +:+ username +:+ datacenter
  /\ (GetOrCreate pf
        (built DefaultEnableKeepAlive server datacenter username password
           thumbprint feature caller)
        st = (Ok s, st') ->
      GetOrCreate pf'
        (built DefaultEnableKeepAlive server datacenter username password'
           thumbprint' feature' caller') st' = (Ok s, st')).
Proof.
  split; [reflexivity|]. intros Hrun.
  apply GetOrCreate_hit; [|reflexivity].
  apply (GetOrCreate_ok_cached _ _ _ _ _ Hrun).
Qed.

Lemma GetOrCreate_ignores_password_and_thumbprint_witness :
  fst (GetOrCreate vcenterDown
         (built false "vcenter" "" "admin" "wrong" "AA:BB"
            {| EnableKeepAlive := true; KeepAliveDuration := 5 |} "vm")
         (snd (GetOrCreate vcenterUp
                 (built false "vcenter" "" "admin" "secret" ""
                    {| EnableKeepAlive := false; KeepAliveDuration := 0 |}
                    "cluster") emptyState)))
  = fst (GetOrCreate vcenterUp
           (built false "vcenter" "" "admin" "secret" ""
              {| EnableKeepAlive := false; KeepAliveDuration := 0 |}
              "cluster") emptyState).
Proof.
  destruct (GetOrCreate vcenterUp
              (built false "vcenter" "" "admin" "secret" ""
                 {| EnableKeepAlive := false; KeepAliveDuration := 0 |}
                 "cluster") emptyState) as [[s|e] st'] eqn:Hrun.
  - simpl.
    now rewrite (proj2 (GetOrCreate_ignores_password_and_thumbprint false
                          vcenterUp vcenterDown emptyState s st' "vcenter" "" "admin"
                          "secret" "" _ "cluster" "wrong" "AA:BB"
                          {| EnableKeepAlive := true; KeepAliveDuration := 5 |}
                          "vm") Hrun).
  - vm_compute in Hrun. discriminate.
Defined.

(** X8.  The keep-alive callback makes one round trip.  When it succeeds
    the cache is untouched.  When it fails the error is returned and the
    entry of the key is evicted, so that the next [GetOrCreate] for that key,
    forced refresh or not, runs the creation path, which then has no session
    left to log out of. *)
Theorem keepAlive_failure_forces_rebuild pf key st :
  (GetCurrentTime pf = None ->
   fst (keepAlive pf key st) = None
   /\ sessionCache (snd (keepAlive pf key st)) = sessionCache st
   /\ appended st (snd (keepAlive pf key st)) [EvGetCurrentTime])
  /\ (forall e, GetCurrentTime pf = Some e ->
        fst (keepAlive pf key st) = Some e
        /\ sessionCache (snd (keepAlive pf key st))
           = delete key (sessionCache st)
        /\ forall pf' p, sessionKeyOf p = key ->
             GetOrCreate pf' p (snd (keepAlive pf key st))
             = GetOrCreate_create pf' p (snd (keepAlive pf key st))
             /\ exists events,
                  appended (snd (keepAlive pf key st))
                    (snd (GetOrCreate pf' p (snd (keepAlive pf key st))))
                    events
                  /\ count isLogout events = 0%nat).
Proof.
  split.
  - intros H. unfold keepAlive, appended, bind, ret, emit. rewrite H.
    simpl. auto.
  - intros e H.
    assert (Hst : sessionCache (snd (keepAlive pf key st))
                  = delete key (sessionCache st)).
    { unfold keepAlive, clearCache, bind, ret, emit, cacheLoad, cacheDelete.
      rewrite H. simpl. destruct (sessionCache st !! key); reflexivity. }
    split; [|split; [exact Hst|]].
    + unfold keepAlive, clearCache, bind, ret, emit, cacheLoad, cacheDelete.
      rewrite H. simpl. destruct (sessionCache st !! key); reflexivity.
    + intros pf' p <-.
      assert (Hmiss : sessionCache (snd (keepAlive pf (sessionKeyOf p) st))
                        !! sessionKeyOf p = None).
      { rewrite Hst. apply lookup_delete_eq. }
      rewrite (GetOrCreate_miss _ _ _ Hmiss). split; [reflexivity|].
      destruct (create_events pf' p (snd (keepAlive pf (sessionKeyOf p) st)))
        as (events & Happ & _ & _ & _ & Hlogout).
      exists events. split; [exact Happ|]. now rewrite Hmiss in Hlogout.
Qed.

Lemma keepAlive_failure_forces_rebuild_witness :
  fst (keepAlive vcenterDown "vcenteradmin" oldState)
    = Some (OtherError "connection refused")
  /\ sessionCache (snd (keepAlive vcenterDown "vcenteradmin" oldState))
     = delete "vcenteradmin" (sessionCache oldState).
Proof.
  destruct (proj2 (keepAlive_failure_forces_rebuild vcenterDown
                     "vcenteradmin" oldState)
              (OtherError "connection refused") eq_refl) as (H1 & H2 & _).
  split; assumption.
Defined.

(** X9.  A session built by the creation path connects to the parsed
    host with the credentials of the parameters, without certificate check
    exactly when no thumbprint is given and pinned to the given thumbprint
    for that host otherwise; its tag manager is logged in with the same
    credentials; and it is scoped to the datacenter the finder resolved
    exactly when a datacenter is requested. *)
Theorem GetOrCreate_create_session_shape pf p st s st' :
  GetOrCreate_create pf p st = (Ok s, st') ->
  exists parsed c f m,
    ParseURL pf (server p) = (Some parsed, None)
    /\ Client s = Some c /\ Finder s = Some f /\ TagManager s = Some m
    /\ client_url c = {| Host := Host parsed; User := userinfo p |}
    /\ client_insecure c = String.eqb (thumbprint p) ""
    /\ client_thumbprint c
       = (if String.eqb (thumbprint p) "" then None
          else Some (Host parsed, thumbprint p))
    /\ client_keepalive c
       = (if EnableKeepAlive (feature p)
          then Some (KeepAliveDuration (feature p)) else None)
    /\ manager_user m = userinfo p
    /\ sess_datacenter s
       = (if String.eqb (datacenter p) "" then None
          else fst (Finder_Datacenter pf (datacenter p)))
    /\ finder_dc f = sess_datacenter s.
Proof.
  unfold_session.
  destruct (ParseURL pf (server p)) as [[parsed|] [e|]] eqn:Hparse;
    simpl; try (destruct (sessionCache st !! _); discriminate).
  intros H. exists parsed.
  destruct (sessionCache st !! sessionKeyOf p); simpl in H.
  all: destruct (vim25_NewClient pf _ _); simpl in H; [discriminate|].
  all: destruct (Login pf _); simpl in H; [discriminate|].
  all: destruct (rest_Login pf _); simpl in H; [discriminate|].
  all: destruct (String.eqb (datacenter p) "") eqn:Hdc; simpl in H.
  all: try (destruct (Finder_Datacenter pf (datacenter p)) as [dc [e|]];
            simpl in H; [discriminate|]).
  all: injection H as <- _.
  all: do 3 eexists; simpl.
  all: repeat split; destruct (String.eqb (thumbprint p) ""); reflexivity.
Qed.

Lemma GetOrCreate_create_session_shape_witness :
  exists s,
    fst (GetOrCreate_create vcenterUp
           (built false "vcenter" "dc1" "admin" "secret" "AA:BB"
              {| EnableKeepAlive := false; KeepAliveDuration := 0 |} "vm")
           emptyState) = Ok s
    /\ sess_datacenter s = Some "dc1".
Proof.
  destruct (GetOrCreate_create vcenterUp
              (built false "vcenter" "dc1" "admin" "secret" "AA:BB"
                 {| EnableKeepAlive := false; KeepAliveDuration := 0 |} "vm")
              emptyState) as [r st'] eqn:Hrun.
  destruct r as [s|e]; [|vm_compute in Hrun; discriminate].
  destruct (GetOrCreate_create_session_shape _ _ _ _ _ Hrun)
    as (parsed & c & f & m & _ & _ & _ & _ & _ & _ & _ & _ & _ & Hdc & _).
  exists s. split; [reflexivity|]. exact Hdc.
Defined.

(** [GetOrCreate] keeps the cache free of partial sessions. *)
Lemma GetOrCreate_complete pf p st :
  cacheComplete st -> cacheComplete (snd (GetOrCreate pf p st)).
Proof.
  intros Hc.
  destruct (sessionCache st !! sessionKeyOf p) as [s0|] eqn:Hl.
  - destruct (refreshRestClient p) eqn:Hr.
    + rewrite (GetOrCreate_refresh _ _ _ _ Hl Hr).
      destruct (fst (TagManager_Session pf (addr s0))); [exact Hc|].
      apply create_complete. exact Hc.
    + rewrite (GetOrCreate_hit _ _ _ _ Hl Hr). exact Hc.
  - rewrite (GetOrCreate_miss _ _ _ Hl). now apply create_complete.
Qed.

(** X10.  A lookup by UUID on a session without client fails without
    asking the search index.  On a session returned by [GetOrCreate] from a
    cache of complete sessions it always asks the search index, for virtual
    machines, within the datacenter of the session, by BIOS UUID for
    [FindByBIOSUUID] and by instance UUID for [FindByInstanceUUID]; an error
    of the search comes back wrapped, with no reference. *)
Theorem findByUUID_on_cached_sessions :
  (forall si si' s uuid instance,
     Client s = None ->
     findByUUID si s uuid instance = findByUUID si' s uuid instance
     /\ exists e, findByUUID si s uuid instance = (None, Some e))
  /\ (forall si pf p st s uuid,
        cacheComplete st ->
        fst (GetOrCreate pf p st) = Ok s ->
        FindByBIOSUUID si s uuid = searched si s uuid false
        /\ FindByInstanceUUID si s uuid = searched si s uuid true)
  /\ (forall si s uuid instance e,
        snd (si (sess_datacenter s) uuid true instance) = Some e ->
        searched si s uuid instance
        = (None, Some (Wrap e "error finding object by uuid"))).
Proof.
  split; [|split].
  - intros si si' s uuid instance H. unfold findByUUID. rewrite H. eauto.
  - intros si pf p st s uuid Hc Hs.
    assert (Hcomplete : complete s).
    { destruct (GetOrCreate pf p st) as [r st'] eqn:Hrun. simpl in Hs. subst r.
      pose proof (GetOrCreate_ok_cached _ _ _ _ _ Hrun) as Hk.
      pose proof (GetOrCreate_complete pf p st Hc) as Hc'.
      rewrite Hrun in Hc'. exact (Hc' _ _ Hk). }
    destruct Hcomplete as ([c Hclient] & _).
    unfold FindByBIOSUUID, FindByInstanceUUID, findByUUID, searched.
    rewrite Hclient. auto.
  - intros si s uuid instance e H. unfold searched.
    destruct (si (sess_datacenter s) uuid true instance) as [r o].
    simpl in H. now subst.
Qed.

Lemma findByUUID_on_cached_sessions_witness :
  exists s,
    fst (GetOrCreate vcenterUp (paramsOf "vcenter" "admin" "dc1") emptyState)
      = Ok s
    /\ FindByBIOSUUID (fun dc uuid _ _ => (Some (uuid +:+ "@vm-42"), None))
         s "4203-aa" = (Some "4203-aa@vm-42", None).
Proof.
  destruct (GetOrCreate vcenterUp (paramsOf "vcenter" "admin" "dc1") emptyState)
    as [r st'] eqn:Hrun.
  destruct r as [s|e]; [|vm_compute in Hrun; discriminate].
  exists s. split; [reflexivity|].
  rewrite (proj1 (proj1 (proj2 findByUUID_on_cached_sessions)
                    (fun dc uuid _ _ => (Some (uuid +:+ "@vm-42"), None))
                    vcenterUp (paramsOf "vcenter" "admin" "dc1") emptyState
                    s "4203-aa"
                    ltac:(intros k s0 H; simpl in H; rewrite lookup_empty in H;
                          discriminate)
                    ltac:(rewrite Hrun; reflexivity))).
  reflexivity.
Defined.

End sessionAPIProofs.

(* ===================================================================== *)
(** ** Further properties of the cluster reconciler *)
(* ===================================================================== *)

Module clusterControllerProofs.
Import clusterReconciler clusterSpec clusterController clusterControllerSpec.

Lemma ContainsFinalizer_In fs f : ContainsFinalizer fs f = true <-> In f fs.
Proof.
  unfold ContainsFinalizer. rewrite existsb_exists. split.
  - intros (x & Hx & Heq). apply String.eqb_eq in Heq. now subst.
  - intros H. exists f. split; [assumption|apply String.eqb_refl].
Qed.

Lemma AddFinalizer_In fs f : In f (AddFinalizer fs f).
Proof.
  unfold AddFinalizer. destruct (ContainsFinalizer fs f) eqn:H.
  - now apply ContainsFinalizer_In.
  - apply in_or_app. right. now left.
Qed.

(** X11.  [reconcileIdentitySecret] does nothing for a cluster without
    secret identity.  Otherwise it reads the secret; a secret that has
    owners, none of them this cluster, is an error and is not updated; in
    every other case the secret is sent in one update, carrying the
    protective finalizer (added at the end unless already there), with this
    cluster as its single owner when it had none and its owners unchanged
    when this cluster was among them; the error of the update is the
    result. *)
Theorem reconcileIdentitySecret_ownership env c :
  (IsSecretIdentity c = false -> reconcileIdentitySecret env c = (None, []))
  /\ (IsSecretIdentity c = true ->
      let get := CallGetSecret (Namespace c) (identityRefName c) in
      (forall e, GetSecret env (Namespace c) (identityRefName c) = Err e ->
                 reconcileIdentitySecret env c = (Some e, [get]))
      /\ (forall secret,
            GetSecret env (Namespace c) (identityRefName c) = Ok secret ->
            (IsOwnedByObject env secret c = false ->
             secret_OwnerReferences secret <> [] ->
             exists e, reconcileIdentitySecret env c = (Some e, [get]))
            /\ (IsOwnedByObject env secret c = true
                \/ secret_OwnerReferences secret = [] ->
                exists updated,
                  reconcileIdentitySecret env c
                  = (UpdateSecret env updated, [get; CallUpdateSecret updated])
                  /\ secret_Finalizers updated
                     = AddFinalizer (secret_Finalizers secret)
                         SecretIdentitySetFinalizer
                  /\ In SecretIdentitySetFinalizer (secret_Finalizers updated)
                  /\ secret_Name updated = secret_Name secret
                  /\ secret_Namespace updated = secret_Namespace secret
                  /\ secret_OwnerReferences updated
                     = (if IsOwnedByObject env secret c
                        then secret_OwnerReferences secret
                        else [{| owner_APIVersion := session.GroupVersion;
                                 owner_Kind := Kind c;
                                 owner_Name := Name c;
                                 owner_UID := UID c |}])))).
Proof.
  split.
  - intros H. unfold reconcileIdentitySecret. now rewrite H.
  - intros H get. unfold reconcileIdentitySecret. rewrite H. split.
    + intros e ->. reflexivity.
    + intros secret ->. split.
      * intros Ho Hne. rewrite Ho. simpl.
        destruct (secret_OwnerReferences secret); [contradiction|].
        simpl. eauto.
      * intros Hok.
        assert (Hgo : negb (IsOwnedByObject env secret c)
                      && (0 <? length (secret_OwnerReferences secret))%nat
                      = false).
        { destruct Hok as [-> | ->]; [reflexivity|]. simpl.
          apply andb_false_r. }
        rewrite Hgo.
        destruct (IsOwnedByObject env secret c); simpl.
        all: unfold AddFinalizer.
        all: destruct (ContainsFinalizer _ SecretIdentitySetFinalizer) eqn:Hf;
          simpl; rewrite ?Hf; simpl.
        all: eexists; split; [reflexivity|]; simpl; rewrite ?Hf.
        all: repeat split; auto.
        all: try (now apply ContainsFinalizer_In).
        all: apply in_or_app; right; now left.
Qed.

Lemma reconcileIdentitySecret_ownership_witness :
  exists e,
    reconcileIdentitySecret foreignSecretEnv exampleCluster
    = (Some e, [CallGetSecret "default" "creds"]).
Proof.
  destruct (proj2 (reconcileIdentitySecret_ownership foreignSecretEnv
                     exampleCluster) eq_refl) as [_ H].
  destruct (H foreignSecret eq_refl) as [Hconflict _].
  exact (Hconflict eq_refl ltac:(discriminate)).
Defined.

Lemma append_empty_r (s : string) : s +:+ "" = s.
Proof.
  induction s as [|a s IH]; [reflexivity|].
  change (String a (s +:+ "") = String a s). now f_equal.
Qed.

(** X12.  [reconcileVCenterConnectivity] makes no call to the vCenter when
    the credentials of the identity reference cannot be resolved, which is
    its error then; nor when a session is cached for the cluster's server
    and the user name it connects with, in which case it reports success
    whatever the state of the vCenter; and whenever it reports success a
    session is cached under that server and user name. *)
Theorem reconcileVCenterConnectivity_uses_cache env c st :
  (forall e, Spec_IdentityRef c <> None ->
             GetCredentials env c = Err e ->
             reconcileVCenterConnectivity env c st = (Some e, st))
  /\ (forall username s,
        connectivityUser env c = Some username ->
        session.sessionCache st !! (Spec_Server c +:+ username) = Some s ->
        reconcileVCenterConnectivity env c st = (None, st))
  /\ (forall st',
        reconcileVCenterConnectivity env c st = (None, st') ->
        exists username s,
          connectivityUser env c = Some username
          /\ session.sessionCache st' !! (Spec_Server c +:+ username)
             = Some s).
Proof.
  unfold reconcileVCenterConnectivity, connectivityUser.
  split; [|split].
  - intros e Hid He. destruct (Spec_IdentityRef c); [|contradiction].
    now rewrite He.
  - intros username s Hu Hs.
    assert (Hhit : forall u pw,
              session.username u = username ->
              session.GetOrCreate (vsphere env)
                {| session.server := Spec_Server c;
                   session.datacenter := "";
                   session.userinfo := Some u;
                   session.thumbprint := Spec_Thumbprint c;
                   session.feature :=
                     {| session.EnableKeepAlive := ctx_EnableKeepAlive env;
                        session.KeepAliveDuration := ctx_KeepAliveDuration env |};
                   session.refreshRestClient := false;
                   session.caller := pw |} st = (Ok s, st)).
    { intros u pw Hname. apply sessionProofs.GetOrCreate_hit; [|reflexivity].
      unfold session.sessionKeyOf.
      cbn [session.server session.userinfo session.datacenter
           session.Username].
      rewrite Hname, append_empty_r. exact Hs. }
    destruct (Spec_IdentityRef c).
    + destruct (GetCredentials env c) as [creds|e]; [|discriminate].
      injection Hu as Hu. unfold session.bind, session.ret.
      now rewrite (Hhit creds _ Hu).
    + injection Hu as Hu. unfold session.bind, session.ret.
      now rewrite (Hhit {| session.username := ctx_Username env;
                           session.password := ctx_Password env |} _ Hu).
  - intros st' Hrun.
    assert (Hok : forall u r st1,
              session.GetOrCreate (vsphere env)
                {| session.server := Spec_Server c;
                   session.datacenter := "";
                   session.userinfo := Some u;
                   session.thumbprint := Spec_Thumbprint c;
                   session.feature :=
                     {| session.EnableKeepAlive := ctx_EnableKeepAlive env;
                        session.KeepAliveDuration := ctx_KeepAliveDuration env |};
                   session.refreshRestClient := false;
                   session.caller := "clusterReconciler" |} st = (r, st1) ->
              resultError r = None ->
              exists s, session.sessionCache st1
                          !! (Spec_Server c +:+ session.username u) = Some s).
    { intros u r st1 Hg Hr. destruct r as [s|e]; [|discriminate].
      exists s. apply sessionProofs.GetOrCreate_ok_cached in Hg.
      unfold session.sessionKeyOf in Hg.
      cbn [session.server session.userinfo session.datacenter
           session.Username] in Hg.
      now rewrite append_empty_r in Hg. }
    destruct (Spec_IdentityRef c).
    + destruct (GetCredentials env c) as [creds|e]; [|discriminate].
      unfold session.bind, session.ret in Hrun.
      destruct (session.GetOrCreate _ _ st) as [r st1] eqn:Hg.
      injection Hrun as Hr <-.
      destruct (Hok _ _ _ Hg Hr) as [s Hs]. eauto.
    + unfold session.bind, session.ret in Hrun.
      destruct (session.GetOrCreate _ _ st) as [r st1] eqn:Hg.
      injection Hrun as Hr <-.
      destruct (Hok _ _ _ Hg Hr) as [s Hs]. eauto.
Qed.

Lemma reconcileVCenterConnectivity_uses_cache_witness :
  reconcileVCenterConnectivity
    (envOf (Ok []) (Ok []) (Ok exampleSecret) None None) exampleCluster
    {| session.sessionCache := {[ "S1admin" := sessionSpec.oldSession ]};
       session.next_addr := 1;
       session.trace := [] |}
  = (None,
     {| session.sessionCache := {[ "S1admin" := sessionSpec.oldSession ]};
        session.next_addr := 1;
        session.trace := [] |}).
Proof.
  apply (proj1 (proj2 (reconcileVCenterConnectivity_uses_cache _ _ _))
           "admin" sessionSpec.oldSession).
  - reflexivity.
  - reflexivity.
Defined.

(** X13.  [reconcileVSphereClusterWhenAPIServerIsOnline] starts the polling
    goroutine exactly when the owning cluster's control plane is not
    initialized and its UID is not in the trigger set; it then adds that UID
    and otherwise leaves the set as it is, so UIDs are never removed and an
    immediately repeated call starts nothing. *)
Theorem apiServerTrigger_at_most_once cluster triggers :
  let r := reconcileVSphereClusterWhenAPIServerIsOnline cluster triggers in
  (snd r = true <-> bootstrapping cluster /\ cluster_UID cluster ∉ triggers)
  /\ (snd r = true -> fst r = {[cluster_UID cluster]} ∪ triggers)
  /\ (snd r = false -> fst r = triggers)
  /\ triggers ⊆ fst r
  /\ snd (reconcileVSphereClusterWhenAPIServerIsOnline cluster (fst r)) = false.
Proof.
  unfold reconcileVSphereClusterWhenAPIServerIsOnline, bootstrapping. simpl.
  destruct (condIsTrue _ _) eqn:Hc; simpl.
  - split; [split; [discriminate|intros [? _]; discriminate]|].
    split; [discriminate|]. split; [reflexivity|]. split; [set_solver|].
    reflexivity.
  - destruct (bool_decide (cluster_UID cluster ∈ triggers)) eqn:Hin; simpl.
    + rewrite Hin. apply bool_decide_eq_true in Hin.
      split; [split; [discriminate|intros [_ ?]; contradiction]|].
      split; [discriminate|]. split; [reflexivity|]. split; [set_solver|].
      reflexivity.
    + apply bool_decide_eq_false in Hin.
      assert (Hnow : bool_decide (cluster_UID cluster
                                   ∈ {[cluster_UID cluster]} ∪ triggers) = true)
        by (apply bool_decide_eq_true; set_solver).
      rewrite Hnow.
      split; [split; auto|]. split; [reflexivity|].
      split; [discriminate|]. split; [set_solver|]. reflexivity.
Qed.

Lemma poll_ends_on_true conditions n :
  pollImmediateInfinite conditions = Some n -> In true conditions.
Proof.
  revert n. induction conditions as [|b conditions IH]; simpl; intros n H.
  - discriminate.
  - destruct b; [now left|].
    destruct (pollImmediateInfinite conditions) as [m|]; [|discriminate].
    right. eauto.
Qed.

Lemma poll_never_ends conditions :
  (forall b, In b conditions -> b = false) ->
  pollImmediateInfinite conditions = None.
Proof.
  induction conditions as [|b conditions IH]; simpl; intros H; [reflexivity|].
  rewrite (H b) by auto. rewrite IH; auto.
Qed.

(** X14.  The goroutine started for a cluster whose control plane is not
    initialized removes the cluster's UID from the trigger set, and nothing
    else, only after the API server has been seen online and a Get of the
    owning cluster has answered not-found: its second poll reads the
    condition on the cluster object it was started with, not on the one it
    fetches.  As long as every Get succeeds or fails otherwise, the UID
    stays in the set, however many times the poll runs. *)
Theorem apiServerTrigger_released_only_when_cluster_gone cluster online gets
    triggers :
  bootstrapping cluster ->
  (forall triggers',
     apiServerOnlineGoroutine cluster online gets triggers = Some triggers' ->
     triggers' = triggers ∖ {[cluster_UID cluster]}
     /\ In true online
     /\ exists e, In (Err e) gets /\ IsNotFound e = true)
  /\ ((forall e, In (Err e) gets -> IsNotFound e = false) ->
      apiServerOnlineGoroutine cluster online gets triggers = None)
  /\ (forall fetched,
        isControlPlaneInitialized (Ok fetched) cluster = false).
Proof.
  intros Hboot. unfold bootstrapping in Hboot.
  unfold apiServerOnlineGoroutine. split; [|split].
  - intros triggers' H.
    destruct (pollImmediateInfinite online) as [n|] eqn:Ho; [|discriminate].
    destruct (pollImmediateInfinite (map _ gets)) as [m|] eqn:Hg;
      [|discriminate].
    injection H as <-. split; [reflexivity|].
    split; [eapply poll_ends_on_true; eauto|].
    apply poll_ends_on_true in Hg. apply in_map_iff in Hg as (get & Hget & Hin).
    unfold isControlPlaneInitialized in Hget.
    destruct get as [fetched|e]; [congruence|].
    exists e. split; [assumption|].
    destruct (IsNotFound e); [reflexivity|discriminate].
  - intros Hgets.
    destruct (pollImmediateInfinite online); [|reflexivity].
    rewrite poll_never_ends; [reflexivity|].
    intros b Hb. apply in_map_iff in Hb as (get & <- & Hin).
    unfold isControlPlaneInitialized.
    destruct get as [fetched|e]; [assumption|].
    now rewrite (Hgets e Hin).
  - intros fetched. exact Hboot.
Qed.

Lemma apiServerTrigger_released_only_when_cluster_gone_witness :
  apiServerOnlineGoroutine exampleOwner [false; true]
    [Ok exampleOwner;
     Ok {| cluster_UID := "uid-owner"; cluster_DeletionTimestamp := None;
           cluster_Conditions :=
             MarkTrue ControlPlaneInitializedCondition ∅ |};
     Err (OtherError "timeout")]
    {[ "uid-owner" ]} = None.
Proof.
  apply (proj1 (proj2 (apiServerTrigger_released_only_when_cluster_gone
                         exampleOwner [false; true] _ {[ "uid-owner" ]}
                         eq_refl))).
  intros e [H|[H|[H|[]]]]; try discriminate. injection H as <-. reflexivity.
Defined.

Ltac neq_str :=
  let H := fresh in intros H; vm_compute in H; discriminate H.

Ltac cond_simpl :=
  unfold condIsTrue, markTrue, markFalse, MarkTrue, MarkFalse in *;
  simpl in *;
  repeat (rewrite lookup_insert_eq in * || rewrite lookup_insert_ne in * by neq_str);
  simpl in *.

(** What [reconcileDeploymentZones] leaves alone. *)
Lemma reconcileDeploymentZones_frame env c c' ok err :
  reconcileDeploymentZones env c = Returned (c', ok, err) ->
  Finalizers c' = Finalizers c
  /\ Status_Ready c' = Status_Ready c
  /\ Spec_ControlPlaneEndpoint c' = Spec_ControlPlaneEndpoint c
  /\ (forall t, t <> FailureDomainsAvailableCondition ->
        Status_Conditions c' !! t = Status_Conditions c !! t)
  /\ (ok = false -> err = None ->
      Status_Conditions c' !! FailureDomainsAvailableCondition
      = Some waitingForZones).
Proof.
  unfold reconcileDeploymentZones.
  destruct (ListDeploymentZones env) as [zones|e].
  - destruct (zoneLoop c zoneLoopInit zones) as [acc|]; [|discriminate].
    destruct (0 <? readyNotReported acc)%nat;
      [|destruct (0 <? size (failureDomains acc))%nat;
        [destruct (0 <? notReady acc)%nat|]].
    all: intros [= <- <- <-]; simpl.
    all: repeat split; try discriminate; auto.
    all: try (intros t Ht; unfold MarkTrue, MarkFalse;
              now rewrite lookup_insert_ne by auto).
    intros _ _. unfold MarkFalse. apply lookup_insert_eq.
  - intros [= <- <- <-]. repeat split; auto; discriminate.
Qed.

(** X15.  Whatever a Normal pass of the cluster reconciler meets, the
    cluster it leaves carries the cluster finalizer, added at the end of the
    finalizers unless already there; the pass never marks the CCM condition
    true; it asks for a requeue, after ten seconds and without error, only
    when it stops on zones that have not reported, which the
    failure-domains condition then says; and a pass that returns an error
    leaves the readiness flag as it was. *)
Theorem reconcileNormal_finalizer_requeue env cluster vc sessions triggers np :
  reconcileNormal env cluster vc sessions triggers = Returned np ->
  Finalizers (pass_cluster (normal_pass np))
    = AddFinalizer (Finalizers vc) ClusterFinalizer
  /\ In ClusterFinalizer (Finalizers (pass_cluster (normal_pass np)))
  /\ (condIsTrue CCMAvailableCondition
        (Status_Conditions (pass_cluster (normal_pass np))) = true ->
      condIsTrue CCMAvailableCondition (Status_Conditions vc) = true)
  /\ (pass_result (normal_pass np) = ResultZero
      \/ pass_result (normal_pass np) = requeueAfterTenSeconds
         /\ pass_err (normal_pass np) = None
         /\ Status_Conditions (pass_cluster (normal_pass np))
              !! FailureDomainsAvailableCondition = Some waitingForZones)
  /\ (pass_err (normal_pass np) <> None ->
      Status_Ready (pass_cluster (normal_pass np)) = Status_Ready vc).
Proof.
  unfold reconcileNormal. cbv zeta.
  destruct (reconcileDeploymentZones env _) as [[[c ok] err]|] eqn:Hz;
    [|discriminate].
  apply reconcileDeploymentZones_frame in Hz
    as (Hfin & Hready & _ & Hconds & Hwait).
  simpl in Hfin, Hready, Hconds.
  assert (Hccm : Status_Conditions c !! CCMAvailableCondition
                 = Status_Conditions vc !! CCMAvailableCondition)
    by (apply Hconds; neq_str).
  pose proof (AddFinalizer_In (Finalizers vc) ClusterFinalizer) as Hin.
  rewrite <- Hfin in Hin.
  destruct err as [e|].
  { destruct ok; cbn beta iota; intros [= <-]; simpl.
    all: repeat split; auto; try congruence.
    all: unfold condIsTrue; now rewrite Hccm. }
  destruct ok.
  2: { cbn beta iota; intros [= <-]. simpl.
       split; [assumption|]. split; [assumption|].
       split; [unfold condIsTrue; now rewrite Hccm|].
       split; [|congruence].
       right. repeat split. now apply Hwait. }
  destruct (reconcileIdentitySecret env c) as [[e|] calls'].
  { cbn beta iota; intros [= <-]. cond_simpl. rewrite Hccm. repeat split; auto. }
  destruct (reconcileVCenterConnectivity env c sessions) as [[e|] sessions'].
  { cbn beta iota; intros [= <-]. cond_simpl. rewrite Hccm. repeat split; auto. }
  destruct (reconcileVSphereClusterWhenAPIServerIsOnline cluster triggers)
    as [triggers' spawned].
  cbn [setReady markTrue Spec_ControlPlaneEndpoint setConditions].
  destruct (APIEndpoint_IsZero _).
  { cbn beta iota; intros [= <-]. cond_simpl. rewrite Hccm. repeat split; auto; congruence. }
  destruct (negb (bool_decide _)).
  { cbn beta iota; intros [= <-]. cond_simpl. repeat split; auto; congruence. }
  destruct (negb (clusterReconciler.isAPIServerOnline env)).
  { cbn beta iota; intros [= <-]. cond_simpl. rewrite Hccm. repeat split; auto; congruence. }
  cbn beta iota; intros [= <-]. cond_simpl. rewrite Hccm.
  repeat split; auto; congruence.
Qed.

Lemma reconcileNormal_finalizer_requeue_witness :
  exists np,
    reconcileNormal
      (envOf (Ok [zone "A" "S1" (Some true) (Some true);
                  zone "B" "S1" (Some false) None])
         (Ok []) (Ok exampleSecret) None None)
      exampleOwner exampleCluster sessionSpec.emptyState ∅ = Returned np
    /\ pass_result (normal_pass np) = requeueAfterTenSeconds
    /\ In ClusterFinalizer (Finalizers (pass_cluster (normal_pass np))).
Proof.
  eexists. split; [reflexivity|]. split; [reflexivity|].
  eapply (reconcileNormal_finalizer_requeue
            (envOf (Ok [zone "A" "S1" (Some true) (Some true);
                        zone "B" "S1" (Some false) None])
               (Ok []) (Ok exampleSecret) None None)
            exampleOwner exampleCluster sessionSpec.emptyState ∅).
  reflexivity.
Defined.

(** X16.  A Normal pass of the cluster reconciler never resets the
    readiness flag: a cluster that was ready stays ready, also when the
    vCenter cannot be reached.  The flag is set only by a pass without error
    that has marked the vCenter available; the CSI condition is marked true
    only by such a pass that finds the control-plane endpoint set, the owning
    cluster not being deleted and the API server online; and the polling
    goroutine is started only by a pass that has set the flag, for an owning
    cluster whose control plane is not initialized, whose UID is then in the
    trigger set. *)
Theorem reconcileNormal_readiness env cluster vc sessions triggers np :
  reconcileNormal env cluster vc sessions triggers = Returned np ->
  (Status_Ready vc = true ->
   Status_Ready (pass_cluster (normal_pass np)) = true)
  /\ (Status_Ready (pass_cluster (normal_pass np)) = true ->
      Status_Ready vc = true
      \/ Status_Conditions (pass_cluster (normal_pass np))
           !! VCenterAvailableCondition = Some trueCondition
         /\ pass_err (normal_pass np) = None)
  /\ (condIsTrue CSIAvailableCondition
        (Status_Conditions (pass_cluster (normal_pass np))) = true ->
      condIsTrue CSIAvailableCondition (Status_Conditions vc) = true
      \/ clusterReconciler.isAPIServerOnline env = true
         /\ APIEndpoint_IsZero (Spec_ControlPlaneEndpoint vc) = false
         /\ cluster_DeletionTimestamp cluster = None
         /\ Status_Ready (pass_cluster (normal_pass np)) = true
         /\ pass_err (normal_pass np) = None)
  /\ (normal_spawned np = true ->
      Status_Ready (pass_cluster (normal_pass np)) = true
      /\ bootstrapping cluster
      /\ cluster_UID cluster ∈ normal_triggers np).
Proof.
  unfold reconcileNormal. cbv zeta.
  destruct (reconcileDeploymentZones env _) as [[[c ok] err]|] eqn:Hz;
    [|discriminate].
  apply reconcileDeploymentZones_frame in Hz
    as (_ & Hready & Hep & Hconds & _).
  simpl in Hready, Hep, Hconds.
  assert (Hcsi : Status_Conditions c !! CSIAvailableCondition
                 = Status_Conditions vc !! CSIAvailableCondition)
    by (apply Hconds; neq_str).
  assert (Hspawn : forall t sp,
            reconcileVSphereClusterWhenAPIServerIsOnline cluster triggers
              = (t, sp) ->
            sp = true -> bootstrapping cluster /\ cluster_UID cluster ∈ t).
  { unfold reconcileVSphereClusterWhenAPIServerIsOnline, bootstrapping.
    intros t sp H Hsp.
    destruct (condIsTrue _ _); [congruence|].
    destruct (bool_decide _); [congruence|].
    injection H as <- _. split; [reflexivity|set_solver]. }
  assert (Hgoal : forall np0,
            (exists c0 res e0 calls s t,
               np0 = {| normal_pass := {| pass_cluster := c0;
                                          pass_result := res;
                                          pass_err := e0;
                                          pass_calls := calls |};
                        normal_sessions := s; normal_triggers := t;
                        normal_spawned := false |}
               /\ Status_Ready c0 = Status_Ready vc
               /\ Status_Conditions c0 !! CSIAvailableCondition
                  = Status_Conditions vc !! CSIAvailableCondition) ->
            (Status_Ready vc = true ->
             Status_Ready (pass_cluster (normal_pass np0)) = true)
            /\ (Status_Ready (pass_cluster (normal_pass np0)) = true ->
                Status_Ready vc = true
                \/ Status_Conditions (pass_cluster (normal_pass np0))
                     !! VCenterAvailableCondition = Some trueCondition
                   /\ pass_err (normal_pass np0) = None)
            /\ (condIsTrue CSIAvailableCondition
                  (Status_Conditions (pass_cluster (normal_pass np0))) = true ->
                condIsTrue CSIAvailableCondition (Status_Conditions vc) = true
                \/ clusterReconciler.isAPIServerOnline env = true
                   /\ APIEndpoint_IsZero (Spec_ControlPlaneEndpoint vc) = false
                   /\ cluster_DeletionTimestamp cluster = None
                   /\ Status_Ready (pass_cluster (normal_pass np0)) = true
                   /\ pass_err (normal_pass np0) = None)
            /\ (normal_spawned np0 = true ->
                Status_Ready (pass_cluster (normal_pass np0)) = true
                /\ bootstrapping cluster
                /\ cluster_UID cluster ∈ normal_triggers np0)).
  { intros np0 (c0 & res & e0 & calls & s & t & -> & Hr & Hc). simpl.
    unfold condIsTrue. rewrite Hr, Hc.
    split; [auto|]. split; [auto|]. split; [auto|]. discriminate. }
  destruct err as [e|].
  { destruct ok; cbn beta iota; intros [= <-]; apply Hgoal.
    all: do 6 eexists; split; [reflexivity|]; auto. }
  destruct ok.
  2: { cbn beta iota; intros [= <-]. apply Hgoal.
       do 6 eexists. split; [reflexivity|]. auto. }
  destruct (reconcileIdentitySecret env c) as [[e|] calls'].
  { cbn beta iota; intros [= <-]. apply Hgoal.
    do 6 eexists. split; [reflexivity|]. cond_simpl. auto. }
  destruct (reconcileVCenterConnectivity env c sessions) as [[e|] sessions'].
  { cbn beta iota; intros [= <-]. apply Hgoal.
    do 6 eexists. split; [reflexivity|]. cond_simpl. auto. }
  clear Hgoal.
  destruct (reconcileVSphereClusterWhenAPIServerIsOnline cluster triggers)
    as [triggers' spawned].
  specialize (Hspawn _ _ eq_refl).
  cbn [setReady markTrue Spec_ControlPlaneEndpoint setConditions].
  rewrite Hep.
  destruct (APIEndpoint_IsZero _) eqn:Hzero.
  { cbn beta iota; intros [= <-]. cond_simpl. rewrite Hcsi.
    split; [auto|]. split; [auto|]. split; [auto|].
    intros Hs. split; [reflexivity|]. now apply Hspawn. }
  destruct (bool_decide (cluster_DeletionTimestamp cluster = None)) eqn:Hdel;
    simpl.
  2: { cbn beta iota; intros [= <-]. cond_simpl.
       split; [auto|]. split; [auto|]. split; [discriminate|].
       intros Hs. split; [reflexivity|]. now apply Hspawn. }
  apply bool_decide_eq_true in Hdel.
  destruct (clusterReconciler.isAPIServerOnline env) eqn:Honline; simpl.
  2: { cbn beta iota; intros [= <-]. cond_simpl. rewrite Hcsi.
       split; [auto|]. split; [auto|]. split; [auto|].
       intros Hs. split; [reflexivity|]. now apply Hspawn. }
  cbn beta iota; intros [= <-]. cond_simpl.
  split; [auto|]. split; [auto|]. split; [intros _; right; auto|].
  intros Hs. split; [reflexivity|]. now apply Hspawn.
Qed.

Lemma reconcileNormal_readiness_witness :
  exists np,
    reconcileNormal
      (envOf (Ok []) (Ok []) (Ok exampleSecret) None None)
      exampleOwner exampleCluster sessionSpec.emptyState ∅ = Returned np
    /\ Status_Ready (pass_cluster (normal_pass np)) = true
    /\ cluster_UID exampleOwner ∈ normal_triggers np.
Proof.
  edestruct (reconcileNormal_readiness
               (envOf (Ok []) (Ok []) (Ok exampleSecret) None None)
               exampleOwner exampleCluster sessionSpec.emptyState ∅)
    as (_ & _ & _ & H); [reflexivity|].
  eexists. split; [reflexivity|].
  destruct (H eq_refl) as (Hready & _ & Hin). split; assumption.
Defined.

Lemma reconcileNormal_finalizers env cluster vc sessions triggers np :
  reconcileNormal env cluster vc sessions triggers = Returned np ->
  Finalizers (pass_cluster (normal_pass np))
  = AddFinalizer (Finalizers vc) ClusterFinalizer.
Proof.
  unfold reconcileNormal. cbv zeta.
  destruct (reconcileDeploymentZones env _) as [[[c ok] err]|] eqn:Hz;
    [|discriminate].
  apply reconcileDeploymentZones_frame in Hz as (Hfin & _).
  simpl in Hfin.
  destruct err as [e|]; [destruct ok; intros [= <-]; exact Hfin|].
  destruct ok; [|intros [= <-]; exact Hfin].
  destruct (reconcileIdentitySecret env c) as [[e|] calls'];
    [intros [= <-]; exact Hfin|].
  destruct (reconcileVCenterConnectivity env c sessions) as [[e|] sessions'];
    [intros [= <-]; exact Hfin|].
  destruct (reconcileVSphereClusterWhenAPIServerIsOnline cluster triggers)
    as [triggers' spawned].
  destruct (APIEndpoint_IsZero _); [intros [= <-]; exact Hfin|].
  destruct (negb (bool_decide _)); [intros [= <-]; exact Hfin|].
  destruct (negb (clusterReconciler.isAPIServerOnline env));
    intros [= <-]; exact Hfin.
Qed.

Lemma reconcileDelete_finalizers env c :
  Finalizers (pass_cluster (reconcileDelete env c)) = Finalizers c
  \/ Finalizers (pass_cluster (reconcileDelete env c))
     = RemoveFinalizer (Finalizers c) ClusterFinalizer.
Proof.
  unfold reconcileDelete. simpl.
  destruct (GetVSphereMachinesInCluster env _ _) as [[|m ms]|e]; simpl; auto.
  destruct (IsSecretIdentity _); simpl; auto.
  destruct (GetSecret env _ _) as [secret|e]; simpl.
  - destruct (UpdateSecret env _); simpl; auto.
    destruct (DeleteSecret env _); simpl; auto.
  - destruct (IsNotFound e); simpl; auto.
Qed.

(** X17.  [Reconcile] of the cluster controller hands the cluster to the
    patch at most once, and not at all when the cluster is not found, has no
    owner yet or is paused, in which cases nothing else happens and no error
    is returned.  A patch that fails always shows in the returned error.
    The cluster handed to the patch carries the cluster finalizer when the
    cluster is not being deleted, and has no finalizer it did not have when
    it is being deleted. *)
Theorem Reconcile_patches_once env sessions triggers r :
  Reconcile env sessions triggers = Returned r ->
  (length (rec_patched r) <= 1)%nat
  /\ (rec_patched r = [] ->
      rec_result r = ResultZero
      /\ rec_sessions r = sessions /\ rec_triggers r = triggers)
  /\ (forall c, In c (rec_patched r) -> Patch env c <> None ->
                rec_err r <> None)
  /\ (forall e, Get env = Err e ->
        rec_patched r = []
        /\ rec_err r = if IsNotFound e then None else Some e)
  /\ (forall vc, Get env = Ok vc ->
        GetOwnerCluster env = Ok None
        \/ (exists cluster, GetOwnerCluster env = Ok (Some cluster)
                            /\ IsPaused env cluster vc = true) ->
        rec_patched r = [] /\ rec_err r = None)
  /\ (forall vc c, Get env = Ok vc -> In c (rec_patched r) ->
        (DeletionTimestamp vc = None -> In ClusterFinalizer (Finalizers c))
        /\ (DeletionTimestamp vc <> None ->
            forall f, In f (Finalizers c) -> In f (Finalizers vc))).
Proof.
  unfold Reconcile. cbv zeta.
  destruct (Get env) as [vc|e].
  2: { destruct (IsNotFound e) eqn:Hnf; intros [= <-]; simpl.
       all: split; [lia|]; split; [auto|]; split; [intros ? []|].
       all: split; [intros e' [= <-]; now rewrite Hnf|].
       all: split; [intros ? [=]|intros ? ? [=]]. }
  destruct (GetOwnerCluster env) as [[cluster|]|e].
  3: { intros [= <-]; simpl.
       split; [lia|]; split; [auto|]; split; [intros ? []|].
       split; [discriminate|].
       split; [|intros ? ? _ []].
       intros vc' _ [[=]|(cluster & [=] & _)]. }
  2: { intros [= <-]; simpl.
       split; [lia|]; split; [auto|]; split; [intros ? []|].
       split; [discriminate|].
       split; [auto|intros ? ? _ []]. }
  destruct (IsPaused env cluster vc) eqn:Hp.
  { intros [= <-]; simpl.
    split; [lia|]; split; [auto|]; split; [intros ? []|].
    split; [discriminate|].
    split; [auto|intros ? ? _ []]. }
  assert (Hnot : forall vc', Ok vc = Ok vc' ->
            Ok (Some cluster) = Ok None
            \/ (exists cluster', Ok (Some cluster) = Ok (Some cluster')
                                 /\ IsPaused env cluster' vc' = true) ->
            False).
  { intros vc' [= <-] [[=]|(cluster' & [= <-] & Hp')]. congruence. }
  destruct (NewHelper env) as [e|].
  { intros [= <-]; simpl.
    split; [lia|]; split; [auto|]; split; [intros ? []|].
    split; [discriminate|].
    split; [|intros ? ? _ []].
    intros vc' H1 H2; destruct (Hnot vc' H1 H2). }
  assert (Hpatch : forall pass s t,
            (length (rec_patched (patchOnExit env pass s t)) <= 1)%nat
            /\ (rec_patched (patchOnExit env pass s t) = [] ->
                rec_result (patchOnExit env pass s t) = ResultZero
                /\ rec_sessions (patchOnExit env pass s t) = sessions
                /\ rec_triggers (patchOnExit env pass s t) = triggers)
            /\ (forall c, In c (rec_patched (patchOnExit env pass s t)) ->
                  Patch env c <> None ->
                  rec_err (patchOnExit env pass s t) <> None)).
  { intros pass s t. unfold patchOnExit. simpl.
    split; [lia|]. split; [discriminate|].
    intros c [<-|[]] Hc. destruct (Patch env (pass_cluster pass));
      [|contradiction].
    destruct (pass_err pass); discriminate. }
  destruct (bool_decide (DeletionTimestamp vc = None)) eqn:Hdel; simpl.
  - apply bool_decide_eq_true in Hdel.
    destruct (reconcileNormal (passEnv env) cluster vc sessions triggers)
      as [np|] eqn:Hrun; [|discriminate].
    intros [= <-].
    destruct (Hpatch (normal_pass np) (normal_sessions np) (normal_triggers np))
      as (H1 & H2 & H3).
    split; [exact H1|]. split; [exact H2|]. split; [exact H3|].
    split; [discriminate|].
    split; [intros vc' Hv Ho; destruct (Hnot vc' Hv Ho)|].
    intros vc' c [= <-] [<-|[]]. split; [|congruence].
    intros _. rewrite (reconcileNormal_finalizers _ _ _ _ _ _ Hrun).
    apply AddFinalizer_In.
  - apply bool_decide_eq_false in Hdel.
    intros [= <-].
    destruct (Hpatch (reconcileDelete (passEnv env) vc) sessions triggers)
      as (H1 & H2 & H3).
    split; [exact H1|]. split; [exact H2|]. split; [exact H3|].
    split; [discriminate|].
    split; [intros vc' Hv Ho; destruct (Hnot vc' Hv Ho)|].
    intros vc' c [= <-] [<-|[]]. split; [congruence|].
    intros _ f Hf.
    destruct (reconcileDelete_finalizers (passEnv env) vc) as [Heq|Heq];
      rewrite Heq in Hf; [assumption|].
    unfold RemoveFinalizer in Hf. now apply filter_In in Hf as [Hf _].
Qed.

Lemma Reconcile_patches_once_witness :
  exists r,
    Reconcile patchFails sessionSpec.emptyState ∅ = Returned r
    /\ rec_err r <> None
    /\ rec_result r = requeueAfterTenSeconds.
Proof.
  edestruct (Reconcile_patches_once patchFails sessionSpec.emptyState ∅)
    as (_ & _ & H & _); [reflexivity|].
  eexists. split; [reflexivity|]. split; [|reflexivity].
  eapply H; [left; reflexivity|discriminate].
Defined.

(** X18.  [controlPlaneMachineToCluster] returns at most one request.  A
    request is returned only for a VSphereMachine object that is a
    control-plane machine with at least one address and a preferred address,
    whose owning cluster is found, has no initialized control plane and no
    control-plane endpoint, and whose VSphereCluster, found under the
    machine's namespace and the name of the owning cluster's infrastructure
    reference, has no control-plane endpoint either; the request carries that
    namespace and name.  Once the control plane is initialized or the owning
    cluster has an endpoint, nothing is requested, and the infrastructure
    reference is not even read. *)
Theorem controlPlaneMachineToCluster_guards env o :
  (forall requests,
     controlPlaneMachineToCluster env o = Returned requests ->
     (length requests <= 1)%nat
     /\ forall request, In request requests ->
          exists m preferred cluster infrastructureRef vsphereCluster,
            o = ObjVSphereMachine m
            /\ IsControlPlaneMachine env m = true
            /\ im_Addresses m <> []
            /\ GetMachinePreferredIPAddress env m = Ok preferred
            /\ GetClusterFromMetadata env m = Ok cluster
            /\ condIsTrue ControlPlaneInitializedCondition
                 (oc_Conditions cluster) = false
            /\ APIEndpoint_IsZero (oc_ControlPlaneEndpoint cluster) = true
            /\ oc_InfrastructureRef cluster = Some infrastructureRef
            /\ GetVSphereCluster env (im_Namespace m)
                 (ref_Name infrastructureRef) = Ok vsphereCluster
            /\ APIEndpoint_IsZero
                 (Spec_ControlPlaneEndpoint vsphereCluster) = true
            /\ request = {| req_Namespace := im_Namespace m;
                            req_Name := ref_Name infrastructureRef |})
  /\ (forall m cluster,
        o = ObjVSphereMachine m ->
        GetClusterFromMetadata env m = Ok cluster ->
        condIsTrue ControlPlaneInitializedCondition (oc_Conditions cluster)
          = true
        \/ APIEndpoint_IsZero (oc_ControlPlaneEndpoint cluster) = false ->
        controlPlaneMachineToCluster env o = Returned [])
  /\ (controlPlaneMachineToCluster env o = Panicked ->
      exists m cluster,
        o = ObjVSphereMachine m
        /\ GetClusterFromMetadata env m = Ok cluster
        /\ oc_InfrastructureRef cluster = None).
Proof.
  unfold controlPlaneMachineToCluster.
  destruct o as [m|z|].
  2,3: split; [intros ? [= <-]; split; [simpl; lia|intros ? []]|];
       split; [intros ? ? [=]|discriminate].
  destruct (IsControlPlaneMachine env m) eqn:Hcp; simpl.
  2: { split; [intros ? [= <-]; split; [simpl; lia|intros ? []]|].
       split; [reflexivity|discriminate]. }
  destruct (im_Addresses m) as [|a addrs] eqn:Ha; simpl.
  { split; [intros ? [= <-]; split; [simpl; lia|intros ? []]|].
    split; [reflexivity|discriminate]. }
  destruct (GetMachinePreferredIPAddress env m) as [preferred|e] eqn:Hpref.
  2: { split; [intros ? [= <-]; split; [simpl; lia|intros ? []]|].
       split; [reflexivity|discriminate]. }
  destruct (GetClusterFromMetadata env m) as [cluster|e] eqn:Hcl.
  2: { split; [intros ? [= <-]; split; [simpl; lia|intros ? []]|].
       split; [reflexivity|discriminate]. }
  destruct (condIsTrue _ (oc_Conditions cluster)) eqn:Hinit.
  { split; [intros ? [= <-]; split; [simpl; lia|intros ? []]|].
    split; [reflexivity|discriminate]. }
  destruct (APIEndpoint_IsZero (oc_ControlPlaneEndpoint cluster)) eqn:Hep;
    simpl.
  2: { split; [intros ? [= <-]; split; [simpl; lia|intros ? []]|].
       split; [reflexivity|discriminate]. }
  assert (Hset : forall m' cluster' (out : outcome (list Request)),
            ObjVSphereMachine m = ObjVSphereMachine m' ->
            GetClusterFromMetadata env m' = Ok cluster' ->
            condIsTrue ControlPlaneInitializedCondition
              (oc_Conditions cluster') = true
            \/ APIEndpoint_IsZero (oc_ControlPlaneEndpoint cluster') = false ->
            out = Returned []).
  { intros m' cluster' out [= <-] Hc'. rewrite Hcl in Hc'.
    injection Hc' as <-. intros [H|H]; congruence. }
  destruct (oc_InfrastructureRef cluster) as [infrastructureRef|] eqn:Href.
  2: { split; [discriminate|]. split; [intros m' cluster' Hm Hc Hd; exact (Hset m' cluster' _ Hm Hc Hd)|].
       intros _. eauto. }
  destruct (GetVSphereCluster env _ _) as [vsphereCluster|e] eqn:Hvc.
  2: { split; [intros ? [= <-]; split; [simpl; lia|intros ? []]|].
       split; [reflexivity|discriminate]. }
  destruct (APIEndpoint_IsZero (Spec_ControlPlaneEndpoint vsphereCluster))
    eqn:Hvep; simpl.
  2: { split; [intros ? [= <-]; split; [simpl; lia|intros ? []]|].
       split; [reflexivity|discriminate]. }
  split; [|split; [intros m' cluster' Hm Hc Hd;
                    exact (Hset m' cluster' _ Hm Hc Hd)|discriminate]].
  intros requests [= <-]. split; [simpl; lia|].
  intros request [<-|[]].
  exists m, preferred, cluster, infrastructureRef, vsphereCluster.
  repeat split; auto; congruence.
Qed.

Lemma controlPlaneMachineToCluster_guards_witness :
  (length [{| req_Namespace := "default"; req_Name := "c1" |}] <= 1)%nat
  /\ controlPlaneMachineToCluster waitingForEndpoint
       (ObjVSphereMachine firstControlPlaneMachine)
     = Returned [{| req_Namespace := "default"; req_Name := "c1" |}].
Proof.
  split; [|reflexivity].
  apply (proj1 (controlPlaneMachineToCluster_guards waitingForEndpoint
                  (ObjVSphereMachine firstControlPlaneMachine))
           [{| req_Namespace := "default"; req_Name := "c1" |}] eq_refl).
Defined.



End clusterControllerProofs.

(* ===================================================================== *)
(** ** Further properties of the VM reconciler *)
(* ===================================================================== *)

Module vmControllerProofs.
Import vmReconciler vmSpec vmController vmControllerSpec.

Lemma reconcileDelete_calls svc v :
  pass_calls (reconcileDelete svc v) = [CallDestroyVM (deleting v)].
Proof.
  unfold reconcileDelete, deleting.
  destruct (DestroyVM svc _) as [vm [e|]]; [reflexivity|].
  now destruct (negb _).
Qed.

(** X20.  A Deleting pass of the VM reconciler calls the lifecycle
    service's destroy operation exactly once and never asks for a requeue.
    The VM finalizer is removed exactly when that call reports no error and
    the state "notfound"; when it reports an error the pass returns it
    wrapped, keeps the finalizers and marks the provisioned condition false
    with reason "DeletionFailed"; in every other case the pass returns no
    error and keeps the finalizers.  The identifier is never touched. *)
Theorem reconcileDelete_removes_finalizer_when_gone svc v :
  pass_calls (reconcileDelete svc v) = [CallDestroyVM (deleting v)]
  /\ pass_result (reconcileDelete svc v) = ResultZero
  /\ Spec_BiosUUID (pass_vm (reconcileDelete svc v)) = Spec_BiosUUID v
  /\ (forall vm, DestroyVM svc (deleting v) = (vm, None) ->
        vm_State vm = VirtualMachineStateNotFound ->
        pass_err (reconcileDelete svc v) = None
        /\ Finalizers (pass_vm (reconcileDelete svc v))
           = RemoveFinalizer (Finalizers v) VMFinalizer
        /\ ~ In VMFinalizer (Finalizers (pass_vm (reconcileDelete svc v))))
  /\ (forall vm, DestroyVM svc (deleting v) = (vm, None) ->
        vm_State vm <> VirtualMachineStateNotFound ->
        pass_err (reconcileDelete svc v) = None
        /\ Finalizers (pass_vm (reconcileDelete svc v)) = Finalizers v)
  /\ (forall vm e, DestroyVM svc (deleting v) = (vm, Some e) ->
        pass_err (reconcileDelete svc v)
          = Some (Wrap e "failed to destroy VM")
        /\ Finalizers (pass_vm (reconcileDelete svc v)) = Finalizers v
        /\ Status_Conditions (pass_vm (reconcileDelete svc v))
             !! VMProvisionedCondition
           = Some {| cond_Status := ConditionFalse;
                     cond_Reason := "DeletionFailed";
                     cond_Severity := ConditionSeverityWarning;
                     cond_Message := errorMessage e |}).
Proof.
  unfold reconcileDelete, deleting.
  destruct (DestroyVM svc _) as [vm [e|]] eqn:Hd.
  - cbn. split; [reflexivity|]. split; [reflexivity|].
    split; [reflexivity|].
    split; [intros vm' [=]|]. split; [intros vm' [=]|].
    intros vm' e' [= <- <-].
    split; [reflexivity|]. split; [reflexivity|].
    unfold MarkFalse. apply lookup_insert_eq.
  - destruct (String.eqb_spec (vm_State vm) VirtualMachineStateNotFound)
      as [Hs|Hs]; cbn.
    + split; [reflexivity|]. split; [reflexivity|].
      split; [reflexivity|].
      split.
      { intros vm' [= <-] _. split; [reflexivity|].
        split; [reflexivity|]. apply clusterProofs.RemoveFinalizer_not_In. }
      split; [intros vm' [= <-] Hn; contradiction|].
      intros vm' e' [=].
    + split; [reflexivity|]. split; [reflexivity|].
      split; [reflexivity|].
      split; [intros vm' [= <-] Hn; contradiction|].
      split; [intros vm' [= <-] _; split; reflexivity|].
      intros vm' e' [=].
Qed.

Lemma reconcileDelete_removes_finalizer_when_gone_witness :
  pass_err (reconcileDelete (reporting VirtualMachineStateNotFound "")
              (vmWith [dhcpDevice] None)) = None
  /\ Finalizers (pass_vm (reconcileDelete
                           (reporting VirtualMachineStateNotFound "")
                           (vmWith [dhcpDevice] None))) = [].
Proof.
  destruct (proj1 (proj2 (proj2 (proj2
              (reconcileDelete_removes_finalizer_when_gone
                 (reporting VirtualMachineStateNotFound "")
                 (vmWith [dhcpDevice] None)))))
              _ eq_refl eq_refl) as (He & Hf & _).
  split; [exact He|exact Hf].
Defined.


(** The branches of a Normal pass, for a VM that has not failed. *)
Lemma reconcileNormal_failed svc v :
  failed v -> reconcileNormal svc v
              = {| pass_vm := v; pass_result := ResultZero;
                   pass_err := None; pass_calls := [] |}.
Proof.
  unfold failed, reconcileNormal. intros Hf.
  destruct (negb (bool_decide (Status_FailureReason v = None))
            || negb (bool_decide (Status_FailureMessage v = None))) eqn:H;
    [reflexivity|].
  apply orb_false_iff in H as [Hr Hm].
  apply negb_false_iff, bool_decide_eq_true in Hr, Hm.
  destruct Hf; contradiction.
Qed.

Lemma reconcileNormal_not_failed svc v :
  ~ failed v ->
  reconcileNormal svc v
  = if isWaitingForStaticIPAllocation (finalized v) then
      {| pass_vm := markFalse VMProvisionedCondition
                      WaitingForStaticIPAllocationReason
                      ConditionSeverityInfo "" (finalized v);
         pass_result := ResultZero; pass_err := None; pass_calls := [] |}
    else
      match ReconcileVM svc (finalized v) with
      | (_, Some err) =>
          {| pass_vm := finalized v; pass_result := ResultZero;
             pass_err := Some (Wrap err "failed to reconcile VM");
             pass_calls := [CallReconcileVM (finalized v)] |}
      | (vm, None) =>
          if negb (String.eqb (vm_State vm) VirtualMachineStateReady) then
            {| pass_vm := finalized v; pass_result := ResultZero;
               pass_err := None;
               pass_calls := [CallReconcileVM (finalized v)] |}
          else if negb (String.eqb (vm_BiosUUID vm) "") then
            if (length (concat (map net_IPAddrs (vm_Network vm))) =? 0)%nat
            then
              {| pass_vm := reconcileNetwork
                              (setBiosUUID (vm_BiosUUID vm) (finalized v)) vm;
                 pass_result := requeueAfterTenSeconds;
                 pass_err := None;
                 pass_calls := [CallReconcileVM (finalized v)] |}
            else
              {| pass_vm := markTrue VMProvisionedCondition
                              (setReady true
                                 (reconcileNetwork
                                    (setBiosUUID (vm_BiosUUID vm)
                                       (finalized v)) vm));
                 pass_result := ResultZero; pass_err := None;
                 pass_calls := [CallReconcileVM (finalized v)] |}
          else
            {| pass_vm := finalized v; pass_result := ResultZero;
               pass_err := Some (Errorf "bios uuid is empty while VM is ready");
               pass_calls := [CallReconcileVM (finalized v)] |}
      end.
Proof.
  unfold failed, reconcileNormal, finalized. intros Hf.
  destruct (negb (bool_decide (Status_FailureReason v = None))
            || negb (bool_decide (Status_FailureMessage v = None))) eqn:H.
  { exfalso. apply Hf. apply orb_true_iff in H as [H|H]; [left|right];
      apply negb_true_iff, bool_decide_eq_false in H; exact H. }
  reflexivity.
Qed.

Lemma failed_dec v : failed v \/ ~ failed v.
Proof.
  unfold failed.
  destruct (Status_FailureReason v), (Status_FailureMessage v);
    try (left; (left; discriminate) || (right; discriminate)).
  right. intros [H|H]; now apply H.
Qed.

Lemma in_concat_addresses a (ns : list NetworkStatus) :
  In a (concat (map net_IPAddrs ns))
  <-> exists n, In n ns /\ In a (net_IPAddrs n).
Proof.
  rewrite in_concat. split.
  - intros (l & Hl & Ha). apply in_map_iff in Hl as (n & <- & Hn). eauto.
  - intros (n & Hn & Ha). exists (net_IPAddrs n). split; [|exact Ha].
    apply in_map_iff. eauto.
Qed.

Ltac normal_branches svc v :=
  destruct (isWaitingForStaticIPAllocation (finalized v)) eqn:Hwait;
  [|destruct (ReconcileVM svc (finalized v)) as [vm [err|]] eqn:Hsvc;
    [|destruct (String.eqb_spec (vm_State vm) VirtualMachineStateReady)
        as [Hstate|Hstate];
      [destruct (String.eqb_spec (vm_BiosUUID vm) "") as [Hid|Hid];
       [|destruct (length (concat (map net_IPAddrs (vm_Network vm))) =? 0)%nat
           eqn:Hlen]|]]];
  cbn [negb pass_vm pass_result pass_err pass_calls].

(** X21.  A Normal pass of the VM reconciler never takes Status.Ready
    back.  It sets Status.Ready only when the lifecycle service, asked once
    with the VM carrying the finalizer, reported no error, the state
    "ready" and a non-empty identifier, and the reported interfaces hold at
    least one address: the pass then returns no error and no requeue, has
    stored that identifier, lists exactly the addresses of the reported
    interfaces and has marked the provisioned condition true. *)
Theorem reconcileNormal_ready_needs_addresses svc v :
  (Status_Ready v = true ->
   Status_Ready (pass_vm (reconcileNormal svc v)) = true)
  /\ (Status_Ready v = false ->
      Status_Ready (pass_vm (reconcileNormal svc v)) = true ->
      exists vm,
        pass_calls (reconcileNormal svc v) = [CallReconcileVM (finalized v)]
        /\ ReconcileVM svc (finalized v) = (vm, None)
        /\ vm_State vm = VirtualMachineStateReady
        /\ vm_BiosUUID vm <> ""
        /\ Spec_BiosUUID (pass_vm (reconcileNormal svc v)) = vm_BiosUUID vm
        /\ Status_Addresses (pass_vm (reconcileNormal svc v)) <> []
        /\ (forall a,
              In a (Status_Addresses (pass_vm (reconcileNormal svc v)))
              <-> exists n, In n (vm_Network vm) /\ In a (net_IPAddrs n))
        /\ Status_Conditions (pass_vm (reconcileNormal svc v))
             !! VMProvisionedCondition = Some trueCondition
        /\ pass_err (reconcileNormal svc v) = None
        /\ pass_result (reconcileNormal svc v) = ResultZero).
Proof.
  destruct (failed_dec v) as [Hf|Hf].
  { rewrite (reconcileNormal_failed svc v Hf). cbn. split; [auto|].
    intros H1 H2. congruence. }
  rewrite (reconcileNormal_not_failed svc v Hf).
  normal_branches svc v.
  all: split; [intros H; cbn; exact H || reflexivity|].
  all: cbn; intros H1 H2; try congruence.
  exists vm. split; [reflexivity|]. split; [reflexivity|].
  split; [exact Hstate|]. split; [exact Hid|]. split; [reflexivity|].
  split.
  { intros Hnil. rewrite Hnil in Hlen. discriminate. }
  split; [intros a; apply in_concat_addresses|].
  split; [apply lookup_insert_eq|]. split; reflexivity.
Qed.

Lemma reconcileNormal_ready_needs_addresses_witness :
  Status_Ready (pass_vm (reconcileNormal
                           (reporting VirtualMachineStateReady "xyz")
                           (vmWith [dhcpDevice] None))) = true
  /\ Status_Addresses (pass_vm (reconcileNormal
                                  (reporting VirtualMachineStateReady "xyz")
                                  (vmWith [dhcpDevice] None))) <> [].
Proof.
  destruct (proj2 (reconcileNormal_ready_needs_addresses
                     (reporting VirtualMachineStateReady "xyz")
                     (vmWith [dhcpDevice] None)) eq_refl eq_refl)
    as (vm & _ & _ & _ & _ & _ & Ha & _).
  split; [reflexivity|exact Ha].
Defined.

(** X22.  A Normal pass of the VM reconciler asks for a requeue only
    after ten seconds, only without an error, and only when the lifecycle
    service reported no error, the state "ready", a non-empty identifier
    and interfaces that hold no address.  The pass has then stored the
    identifier and the reported interfaces, has emptied Status.Addresses,
    and has left Status.Ready and the conditions as they were: a VM that
    was ready stays ready without an address. *)
Theorem reconcileNormal_requeues_only_without_addresses svc v :
  pass_result (reconcileNormal svc v) <> ResultZero ->
  pass_result (reconcileNormal svc v) = requeueAfterTenSeconds
  /\ pass_err (reconcileNormal svc v) = None
  /\ Status_Addresses (pass_vm (reconcileNormal svc v)) = []
  /\ Status_Ready (pass_vm (reconcileNormal svc v)) = Status_Ready v
  /\ Status_Conditions (pass_vm (reconcileNormal svc v)) = Status_Conditions v
  /\ exists vm,
       ReconcileVM svc (finalized v) = (vm, None)
       /\ vm_State vm = VirtualMachineStateReady
       /\ vm_BiosUUID vm <> ""
       /\ (forall n, In n (vm_Network vm) -> net_IPAddrs n = [])
       /\ Spec_BiosUUID (pass_vm (reconcileNormal svc v)) = vm_BiosUUID vm
       /\ Status_Network (pass_vm (reconcileNormal svc v)) = vm_Network vm.
Proof.
  destruct (failed_dec v) as [Hf|Hf].
  { rewrite (reconcileNormal_failed svc v Hf). cbn. congruence. }
  rewrite (reconcileNormal_not_failed svc v Hf).
  normal_branches svc v.
  all: intros Hr; try congruence.
  apply Nat.eqb_eq in Hlen. apply length_zero_iff_nil in Hlen.
  split; [reflexivity|]. split; [reflexivity|].
  split; [exact Hlen|]. split; [reflexivity|]. split; [reflexivity|].
  exists vm. split; [reflexivity|]. split; [exact Hstate|].
  split; [exact Hid|]. split; [|split; reflexivity].
  intros n Hn. destruct (net_IPAddrs n) as [|a l] eqn:Hn'; [reflexivity|].
  exfalso.
  assert (Ha : In a (concat (map net_IPAddrs (vm_Network vm)))).
  { apply in_concat_addresses. exists n. split; [exact Hn|].
    rewrite Hn'. now left. }
  rewrite Hlen in Ha. destruct Ha.
Qed.

Lemma reconcileNormal_requeues_only_without_addresses_witness :
  pass_result (reconcileNormal readyWithoutAddress (vmWith [dhcpDevice] None))
  = requeueAfterTenSeconds
  /\ Spec_BiosUUID (pass_vm (reconcileNormal readyWithoutAddress
                               (vmWith [dhcpDevice] None))) = "xyz".
Proof.
  destruct (reconcileNormal_requeues_only_without_addresses
              readyWithoutAddress (vmWith [dhcpDevice] None))
    as (Hr & _ & _ & _ & _ & vm & Hsvc & _ & _ & _ & Hid & _).
  - vm_compute. discriminate.
  - split; [exact Hr|]. rewrite Hid.
    injection Hsvc as <-. reflexivity.
Defined.

(** X23.  A Normal pass of the VM reconciler leaves a VM whose failure
    reason or failure message is set exactly as it is, without calling the
    lifecycle service.  For every other VM the resource it returns carries
    the VM finalizer and every finalizer it had, and the lifecycle service
    is called at most once, with a VM that already carries the finalizer
    and is otherwise the VM received. *)
Theorem reconcileNormal_finalizer_before_service svc v :
  (failed v ->
   pass_vm (reconcileNormal svc v) = v
   /\ pass_calls (reconcileNormal svc v) = []
   /\ pass_err (reconcileNormal svc v) = None
   /\ pass_result (reconcileNormal svc v) = ResultZero)
  /\ (~ failed v ->
      In VMFinalizer (Finalizers (pass_vm (reconcileNormal svc v)))
      /\ (forall f, In f (Finalizers v) ->
                    In f (Finalizers (pass_vm (reconcileNormal svc v))))
      /\ (length (pass_calls (reconcileNormal svc v)) <= 1)%nat
      /\ forall c, In c (pass_calls (reconcileNormal svc v)) ->
           exists v', c = CallReconcileVM v'
                      /\ In VMFinalizer (Finalizers v')
                      /\ setFinalizers (Finalizers v) v' = v).
Proof.
  split; intros Hf.
  { rewrite (reconcileNormal_failed svc v Hf). cbn. auto. }
  rewrite (reconcileNormal_not_failed svc v Hf).
  assert (Hhas : In VMFinalizer (AddFinalizer (Finalizers v) VMFinalizer))
    by apply clusterControllerProofs.AddFinalizer_In.
  assert (Hkeep : forall f, In f (Finalizers v) ->
                            In f (AddFinalizer (Finalizers v) VMFinalizer)).
  { intros f Hin. unfold AddFinalizer.
    destruct (ContainsFinalizer _ _); [exact Hin|].
    apply in_or_app. now left. }
  assert (Hcall : exists v', CallReconcileVM (finalized v) = CallReconcileVM v'
                             /\ In VMFinalizer (Finalizers v')
                             /\ setFinalizers (Finalizers v) v' = v).
  { exists (finalized v). split; [reflexivity|]. split; [exact Hhas|].
    destruct v; reflexivity. }
  normal_branches svc v.
  all: cbn; split; [exact Hhas|]; split; [exact Hkeep|]; split; [lia|].
  all: intros c Hc; cbn in Hc;
    first [destruct Hc as [<-|[]]; exact Hcall | destruct Hc].
Qed.

Lemma reconcileNormal_finalizer_before_service_witness :
  In VMFinalizer
    (Finalizers (pass_vm (reconcileNormal
                            (reporting VirtualMachineStatePending "")
                            (vmWith [dhcpDevice] None)))).
Proof.
  refine (proj1 (proj2 (reconcileNormal_finalizer_before_service
                          (reporting VirtualMachineStatePending "")
                          (vmWith [dhcpDevice] None)) _)).
  intros [H|H]; now apply H.
Defined.


(** The poll ends at the first value that is true. *)
Lemma poll_first_true conditions n :
  pollImmediateInfinite conditions = Some n
  <-> exists before after,
        conditions = before ++ true :: after
        /\ n = S (length before)
        /\ forall b, In b before -> b = false.
Proof.
  revert n. induction conditions as [|b conditions IH]; intros n; cbn.
  - split; [discriminate|]. intros (before & after & H & _).
    destruct before; discriminate.
  - destruct b.
    + split.
      * intros [= <-]. exists [], conditions. split; [reflexivity|].
        split; [reflexivity|]. intros b [].
      * intros (before & after & H & -> & Hb).
        destruct before as [|b before]; [reflexivity|].
        injection H as <- _. now specialize (Hb true (or_introl eq_refl)).
    + split.
      * destruct (pollImmediateInfinite conditions) as [m|] eqn:Hp;
          [|discriminate].
        intros [= <-].
        destruct (proj1 (IH m) eq_refl) as (before & after & -> & -> & Hb).
        exists (false :: before), after. split; [reflexivity|].
        split; [reflexivity|]. intros b [<-|Hin]; auto.
      * intros (before & after & H & -> & Hb).
        destruct before as [|b before]; [discriminate|].
        injection H as _ ->.
        rewrite (proj2 (IH (S (length before)))); [reflexivity|].
        exists before, after. split; [reflexivity|].
        split; [reflexivity|]. intros b' Hb'. apply Hb. now right.
Qed.

Lemma patchObserved_observed env localObj get :
  patchObserved (statusEqual env) (localVersion env) localObj get = true
  <-> observed env localObj get.
Proof.
  unfold patchObserved, observed. destruct get as [remoteObj|err];
    [|reflexivity].
  destruct (String.eqb_spec (localVersion env)
              (remote_ResourceVersion remoteObj)) as [Heq|Hne]; cbn.
  - destruct (statusEqual env localObj (remote_Status remoteObj)).
    + split; auto.
    + split; [discriminate|]. intros [H|H]; [congruence|discriminate].
  - split; auto.
Qed.

(** X24.  The closing poll of [Reconcile] ends after n Gets exactly when
    the n-th answer is the first that says the object is not found, or
    carries a resource version other than the local one, or a status equal
    to the local one.  It does not end while the API server answers with
    other errors or with the local resource version and another status,
    whether or not the patch before it succeeded. *)
Theorem closing_poll_ends_at_first_observation env pass sessions :
  let localObj := afterPatch env (SetSummary env (pass_vm pass)) in
  (forall n,
     rec_polls (patchOnExit env pass sessions) = Some n
     <-> exists before get after,
           remoteGets env = before ++ get :: after
           /\ n = S (length before)
           /\ observed env localObj get
           /\ forall g, In g before -> ~ observed env localObj g)
  /\ ((forall g, In g (remoteGets env) -> ~ observed env localObj g) ->
      rec_polls (patchOnExit env pass sessions) = None).
Proof.
  intros localObj. unfold patchOnExit; cbn [rec_polls]. fold localObj.
  set (f := patchObserved (statusEqual env) (localVersion env) localObj).
  assert (Hf : forall g, f g = false <-> ~ observed env localObj g).
  { intros g. unfold f. rewrite <- patchObserved_observed.
    destruct (patchObserved _ _ _ g); split; auto; try discriminate.
    intros H. now contradiction H. }
  split.
  - intros n. rewrite poll_first_true. split.
    + intros (before & after & Hmap & -> & Hb).
      apply map_eq_app in Hmap as (gs & rest & Hgets & Hgs & Hrest).
      apply map_eq_cons in Hrest as (g & gs' & -> & Hg & Hgs').
      exists gs, g, gs'. split; [exact Hgets|].
      split; [now rewrite <- Hgs, length_map|].
      split; [now apply patchObserved_observed|].
      intros g' Hin. apply Hf. apply Hb. rewrite <- Hgs.
      now apply in_map.
    + intros (before & g & after & Hgets & -> & Hobs & Hb).
      exists (map f before), (map f after). rewrite Hgets, map_app. cbn.
      apply patchObserved_observed in Hobs. fold f in Hobs. rewrite Hobs.
      split; [reflexivity|]. split; [now rewrite length_map|].
      intros b Hin. apply in_map_iff in Hin as (g' & <- & Hin).
      apply Hf. auto.
  - intros Hnone. apply clusterControllerProofs.poll_never_ends.
    intros b Hin. apply in_map_iff in Hin as (g & <- & Hin).
    apply Hf. auto.
Qed.

Lemma closing_poll_ends_at_first_observation_witness :
  rec_polls
    (patchOnExit
       (reconcileEnvOf (vmWith [dhcpDevice] None)
          (orphanEnv sessionSpec.vcenterUp)
          (reporting VirtualMachineStatePending "")
          (Some (OtherError "conflict")))
       (reconcileNormal (reporting VirtualMachineStatePending "")
          (vmWith [dhcpDevice] None))
       sessionSpec.emptyState) = Some 2%nat.
Proof.
  apply (proj1 (closing_poll_ends_at_first_observation _ _ _)).
  eexists [_], _, []. split; [reflexivity|]. split; [reflexivity|].
  split.
  - left. discriminate.
  - intros g [<-|[]]. intros [H|H]; [now apply H|discriminate].
Defined.


Lemma sessionKeyOf_sessionParams env vm username password :
  session.sessionKeyOf (sessionParams env vm username password)
  = vmSessionKey vm username.
Proof. reflexivity. Qed.

(** What a call of [GetOrCreate] with the parameters of the VM reconciler
    leaves behind. *)
Lemma GetOrCreate_sessionParams env vm username password st r st' :
  session.GetOrCreate (vsphere env)
    (sessionParams env vm username password) st = (r, st') ->
  (forall s, r = Ok s ->
     session.sessionCache st' !! vmSessionKey vm username = Some s)
  /\ (forall s0, session.sessionCache st !! vmSessionKey vm username = Some s0 ->
        r = Ok s0 /\ st' = st).
Proof.
  intros Hg. split.
  - intros s ->. apply sessionProofs.GetOrCreate_ok_cached in Hg.
    now rewrite sessionKeyOf_sessionParams in Hg.
  - intros s0 Hhit.
    rewrite (sessionProofs.GetOrCreate_hit _ _ _ s0) in Hg;
      [|now rewrite sessionKeyOf_sessionParams|reflexivity].
    now injection Hg as <- <-.
Qed.

(** The ways [retrieveVcenterSession] ends. *)
Lemma retrieveVcenterSession_cases env vm st :
  (retrieveVcenterSession env vm st = (Panicked, st)
   /\ exists cluster,
        GetClusterFromMetadata env = Ok cluster
        /\ clusterController.oc_InfrastructureRef cluster = None)
  \/ (exists vsphereCluster e,
        retrieveVcenterSession env vm st
        = (Returned
             (Err (Wrap e "failed to retrieve credentials from IdentityRef")),
           st)
        /\ clusterReconciler.Spec_IdentityRef vsphereCluster <> None
        /\ GetCredentials env vsphereCluster = Err e)
  \/ (exists username password,
        credentialsUsed env username password
        /\ retrieveVcenterSession env vm st
           = (Returned
                (fst (session.GetOrCreate (vsphere env)
                        (sessionParams env vm username password) st)),
              snd (session.GetOrCreate (vsphere env)
                     (sessionParams env vm username password) st))).
Proof.
  assert (Hfallback :
    forall username password,
      session.bind
        (session.GetOrCreate (vsphere env)
           (sessionParams env vm username password))
        (fun r => session.ret (Returned r)) st
      = (Returned
           (fst (session.GetOrCreate (vsphere env)
                   (sessionParams env vm username password) st)),
         snd (session.GetOrCreate (vsphere env)
                (sessionParams env vm username password) st))).
  { intros username password. unfold session.bind, session.ret.
    now destruct (session.GetOrCreate _ _ st). }
  assert (Hmanager :
    credentialsUsed env (ctx_Username env) (ctx_Password env))
    by (left; split; reflexivity).
  unfold retrieveVcenterSession.
  destruct (GetClusterFromMetadata env) as [cluster|e] eqn:Hc.
  2: { right. right. exists (ctx_Username env), (ctx_Password env).
       split; [exact Hmanager|apply Hfallback]. }
  destruct (clusterController.oc_InfrastructureRef cluster) as [ref|] eqn:Href.
  2: { left. split; [reflexivity|]. eauto. }
  destruct (GetVSphereCluster env _ _) as [vsphereCluster|e] eqn:Hv.
  2: { right. right. exists (ctx_Username env), (ctx_Password env).
       split; [exact Hmanager|apply Hfallback]. }
  destruct (clusterReconciler.Spec_IdentityRef vsphereCluster) as [id|] eqn:Hid.
  2: { right. right. exists (ctx_Username env), (ctx_Password env).
       split; [exact Hmanager|apply Hfallback]. }
  destruct (GetCredentials env vsphereCluster) as [creds|e] eqn:Hcreds.
  - right. right. exists (session.username creds), (session.password creds).
    split; [|apply Hfallback].
    right. exists vsphereCluster, creds. rewrite Hid.
    split; [discriminate|]. split; [exact Hcreds|]. split; reflexivity.
  - right. left. exists vsphereCluster, e. split; [reflexivity|].
    rewrite Hid. split; [discriminate|exact Hcreds].
Qed.




(** The passes touch no condition but the provisioned one. *)
Lemma reconcileDelete_other_conditions svc v t :
  t <> VMProvisionedCondition ->
  Status_Conditions (pass_vm (reconcileDelete svc v)) !! t
  = Status_Conditions v !! t.
Proof.
  intros Ht. unfold reconcileDelete.
  destruct (DestroyVM svc _) as [vm [e|]].
  - cbn. unfold MarkFalse.
    rewrite !lookup_insert_ne
      by (intros Heq; apply Ht; symmetry; exact Heq).
    reflexivity.
  - destruct (negb _); cbn; unfold MarkFalse;
      rewrite lookup_insert_ne
        by (intros Heq; apply Ht; symmetry; exact Heq);
      reflexivity.
Qed.

Lemma reconcileNormal_other_conditions svc v t :
  t <> VMProvisionedCondition ->
  Status_Conditions (pass_vm (reconcileNormal svc v)) !! t
  = Status_Conditions v !! t.
Proof.
  intros Ht. destruct (failed_dec v) as [Hf|Hf].
  { now rewrite (reconcileNormal_failed svc v Hf). }
  rewrite (reconcileNormal_not_failed svc v Hf).
  normal_branches svc v.
  all: cbn; unfold MarkFalse, MarkTrue;
    rewrite ?lookup_insert_ne
      by (intros Heq; apply Ht; symmetry; exact Heq);
    reflexivity.
Qed.

(** The ways [Reconcile] returns: without a pass, or with the deferred
    patch after the pause check, a Deleting pass or a Normal pass. *)
Lemma Reconcile_elim env sessions r (P : Prop) :
  (rec_patched r = [] -> rec_calls r = [] -> rec_result r = ResultZero ->
   rec_polls r = Some 0%nat -> P) ->
  (forall vm connection authSession sessions' pass,
     Get env = Ok (vm, connection) ->
     NewHelper env = None ->
     retrieveVcenterSession (sessionEnv env) connection sessions
     = (Returned (Ok authSession), sessions') ->
     r = patchOnExit env pass sessions' ->
     dispatched env vm pass -> P) ->
  Reconcile env sessions = Returned r -> P.
Proof.
  intros Hstop Hpass. unfold Reconcile. cbv zeta.
  destruct (Get env) as [[vm connection]|e] eqn:Hget.
  2: { destruct (IsNotFound e); intros [= <-]; now apply Hstop. }
  destruct (NewHelper env) as [e|] eqn:Hhelper.
  { intros [= <-]; now apply Hstop. }
  destruct (retrieveVcenterSession (sessionEnv env) connection sessions)
    as [[[authSession|e]|] sessions'] eqn:Hsession.
  2: { intros [= <-]; now apply Hstop. }
  2: { discriminate. }
  fold (available vm).
  specialize (fun pass => Hpass vm connection authSession sessions' pass
                            eq_refl eq_refl Hsession).
  unfold dispatched in Hpass.
  assert (Hdispatch :
      (if match GetCluster env with
          | Ok cluster => IsPaused env cluster (available vm)
          | Err _ => false
          end
       then Returned (patchOnExit env
                        {| pass_vm := available vm; pass_result := ResultZero;
                           pass_err := None; pass_calls := [] |} sessions')
       else if negb (bool_decide (DeletionTimestamp (available vm) = None))
            then Returned (patchOnExit env
                             (reconcileDelete (vmService env) (available vm))
                             sessions')
            else Returned (patchOnExit env
                             (reconcileNormal (vmService env) (available vm))
                             sessions')) = Returned r -> P).
  { destruct (match GetCluster env with
              | Ok cluster => IsPaused env cluster (available vm)
              | Err _ => false
              end) eqn:Hpaused.
    - intros [= <-]. eapply Hpass; [reflexivity|]. left.
      destruct (GetCluster env) as [cluster|e]; [|discriminate]. eauto.
    - assert (Hnot : notPaused env (available vm)).
      { intros cluster Hc. now rewrite Hc in Hpaused. }
      change (DeletionTimestamp (available vm)) with (DeletionTimestamp vm).
      destruct (bool_decide (DeletionTimestamp vm = None)) eqn:Hd; cbn.
      + apply bool_decide_eq_true in Hd.
        intros [= <-]. eapply Hpass; [reflexivity|]. right. right. auto.
      + apply bool_decide_eq_false in Hd.
        intros [= <-]. eapply Hpass; [reflexivity|]. right. left. auto. }
  destruct (negb (HasOwnerHAProxy env (available vm))); [|exact Hdispatch].
  destruct (GetOwnerVSphereMachine env) as [[vsphereMachine|]|e];
    try (intros [= <-]; now apply Hstop).
  destruct (GetOwnerMachine env) as [[machine|]|e];
    try (intros [= <-]; now apply Hstop).
  destruct (machine_FailureDomain machine) as [failureDomain|];
    [|exact Hdispatch].
  destruct (GetFailureDomain env failureDomain) as [e|]; [|exact Hdispatch].
  destruct (IsNotFound e); [exact Hdispatch|].
  intros [= <-]; now apply Hstop.
Qed.

Lemma Reconcile_cases env sessions r :
  Reconcile env sessions = Returned r ->
  (rec_patched r = [] /\ rec_calls r = [] /\ rec_result r = ResultZero
   /\ rec_polls r = Some 0%nat)
  \/ exists vm connection authSession sessions' pass,
       Get env = Ok (vm, connection)
       /\ NewHelper env = None
       /\ retrieveVcenterSession (sessionEnv env) connection sessions
          = (Returned (Ok authSession), sessions')
       /\ r = patchOnExit env pass sessions'
       /\ dispatched env vm pass.
Proof.
  apply Reconcile_elim.
  - intros. left. auto.
  - intros vm connection authSession sessions' pass ? ? ? ? ?. right.
    exists vm, connection, authSession, sessions', pass. auto.
Qed.

(** X26.  Whenever [Reconcile] of a VSphereVM returns, it has patched at
    most once.  A pass without a patch made no call to the lifecycle
    service, asks for no requeue and polled nothing.  The object handed to
    the patch is the summary of a VM whose vCenter-available condition is
    true, and a session is then cached for the VM's server and datacenter;
    an error of the patch makes the pass end in an error, and a pass that
    ended without error and with a patch saw the patch succeed. *)
Theorem Reconcile_patches_at_most_once env sessions r :
  Reconcile env sessions = Returned r ->
  (length (rec_patched r) <= 1)%nat
  /\ (rec_patched r = [] ->
      rec_calls r = [] /\ rec_result r = ResultZero
      /\ rec_polls r = Some 0%nat)
  /\ (forall patched, In patched (rec_patched r) ->
        (exists v,
           patched = SetSummary env v
           /\ Status_Conditions v !! VCenterAvailableCondition
              = Some trueCondition)
        /\ (exists vm connection username s,
              Get env = Ok (vm, connection)
              /\ session.sessionCache (rec_sessions r)
                   !! vmSessionKey connection username = Some s)
        /\ (Patch env patched <> None -> rec_err r <> None)).
Proof.
  intros H. apply Reconcile_cases in H
    as [(Hp & Hc & Hr & Hpoll)
       |(vm & connection & s & sessions' & pass & Hget & _ & Hsession & ->
         & Hd)].
  { rewrite Hp. split; [cbn; lia|]. split; [auto|]. intros patched []. }
  cbn [patchOnExit rec_patched rec_calls rec_result rec_polls rec_err
       rec_sessions].
  split; [cbn; lia|]. split; [discriminate|].
  intros patched [<-|[]]. split; [|split].
  - exists (pass_vm pass). split; [reflexivity|].
    assert (Hav : Status_Conditions (available vm) !! VCenterAvailableCondition
                  = Some trueCondition) by apply lookup_insert_eq.
    destruct Hd as [(cluster & _ & _ & ->)|[(_ & _ & ->)|(_ & _ & ->)]].
    + exact Hav.
    + rewrite reconcileDelete_other_conditions; [exact Hav|discriminate].
    + rewrite reconcileNormal_other_conditions; [exact Hav|discriminate].
  - destruct (retrieveVcenterSession_cases (sessionEnv env) connection sessions)
      as [(Hp & _)|[(vc & e0 & Hr & _)|(u & pw & Hu & Hr)]];
      rewrite Hsession in *; [discriminate..|].
    destruct (session.GetOrCreate _ _ sessions) as [res st1] eqn:Hg.
    injection Hr as <- <-.
    exists vm, connection, u, s. split; [exact Hget|].
    now apply (proj1 (GetOrCreate_sessionParams _ _ _ _ _ _ _ Hg)).
  - intros Hpatch.
    destruct (Patch env (SetSummary env (pass_vm pass))) as [e|];
      [|contradiction].
    destruct (pass_err pass); discriminate.
Qed.

Lemma Reconcile_patches_at_most_once_witness :
  exists r,
    Reconcile
      (reconcileEnvOf (vmWith [dhcpDevice] None)
         (orphanEnv sessionSpec.vcenterUp)
         (reporting VirtualMachineStateReady "xyz")
         (Some (OtherError "conflict")))
      sessionSpec.emptyState = Returned r
    /\ length (rec_patched r) = 1%nat
    /\ rec_err r <> None.
Proof.
  eexists. split; [reflexivity|].
  edestruct (Reconcile_patches_at_most_once
               (reconcileEnvOf (vmWith [dhcpDevice] None)
                  (orphanEnv sessionSpec.vcenterUp)
                  (reporting VirtualMachineStateReady "xyz")
                  (Some (OtherError "conflict")))
               sessionSpec.emptyState) as (_ & _ & Hp); [reflexivity|].
  split; [reflexivity|].
  refine (proj2 (proj2 (Hp _ (or_introl eq_refl))) _). discriminate.
Defined.

(** X27.  [Reconcile] calls the lifecycle service at most once, and only
    in a pass that also patches, for a VM that was fetched and that its
    owning cluster does not pause.  It asks to destroy the VM only when the
    deletion timestamp is set, and to reconcile it only when the timestamp
    is not set, no failure is recorded and no device waits for a static
    address; the VM handed over has the vCenter-available condition true. *)
Theorem Reconcile_dispatch env sessions r :
  Reconcile env sessions = Returned r ->
  forall c, In c (rec_calls r) ->
    exists vm connection,
      Get env = Ok (vm, connection)
      /\ rec_calls r = [c]
      /\ rec_patched r <> []
      /\ notPaused env (available vm)
      /\ match c with
         | CallDestroyVM v =>
             DeletionTimestamp vm <> None /\ v = deleting (available vm)
         | CallReconcileVM v =>
             DeletionTimestamp vm = None
             /\ ~ failed vm
             /\ isWaitingForStaticIPAllocation vm = false
             /\ v = finalized (available vm)
         end.
Proof.
  intros H c Hc. apply Reconcile_cases in H
    as [(Hp & Hcalls & _)
       |(vm & connection & s & sessions' & pass & Hget & _ & _ & -> & Hd)].
  { rewrite Hcalls in Hc. destruct Hc. }
  cbn [patchOnExit rec_patched rec_calls] in *.
  exists vm, connection. split; [exact Hget|].
  destruct Hd as [(cluster & _ & _ & ->)|[(Hn & Hdel & ->)|(Hn & Hdel & ->)]].
  - destruct Hc.
  - pose proof (reconcileDelete_calls
                  (vmService env) (available vm)) as Hcalls.
    rewrite Hcalls in *. destruct Hc as [<-|[]].
    split; [reflexivity|]. split; [discriminate|]. split; [exact Hn|].
    split; [exact Hdel|reflexivity].
  - destruct (failed_dec (available vm)) as [Hf|Hf].
    { rewrite (reconcileNormal_failed _ _ Hf) in Hc. destruct Hc. }
    rewrite (reconcileNormal_not_failed _ _ Hf) in *.
    destruct (isWaitingForStaticIPAllocation (finalized (available vm)))
      eqn:Hwait; [destruct Hc|].
    assert (Hcalls : forall p, In c (pass_calls p) ->
              pass_calls p = [CallReconcileVM (finalized (available vm))] ->
              pass_calls p = [c] /\ c = CallReconcileVM (finalized (available vm))).
    { intros p Hin Hp. rewrite Hp in Hin. destruct Hin as [<-|[]]. auto. }
    destruct (ReconcileVM (vmService env) (finalized (available vm)))
      as [vmr [err|]];
      [|destruct (negb (vm_State vmr =? VirtualMachineStateReady)%string);
        [|destruct (negb (vm_BiosUUID vmr =? "")%string);
          [destruct (length _ =? 0)%nat|]]].
    all: destruct (Hcalls _ Hc eq_refl) as [Hone ->].
    all: split; [exact Hone|]; split; [discriminate|]; split; [exact Hn|].
    all: split; [exact Hdel|]; split; [exact Hf|]; split;
      [exact Hwait|reflexivity].
Qed.

Lemma Reconcile_dispatch_witness :
  exists r,
    Reconcile
      (reconcileEnvOf deletedVM (orphanEnv sessionSpec.vcenterUp)
         (reporting VirtualMachineStateNotFound "") None)
      sessionSpec.emptyState = Returned r
    /\ rec_calls r = [CallDestroyVM (deleting (available deletedVM))].
Proof.
  eexists. split; [reflexivity|].
  edestruct (Reconcile_dispatch
               (reconcileEnvOf deletedVM (orphanEnv sessionSpec.vcenterUp)
                  (reporting VirtualMachineStateNotFound "") None)
               sessionSpec.emptyState)
    as (vm & connection & Hget & Hcalls & _); [reflexivity| |].
  - left. reflexivity.
  - exact Hcalls.
Defined.

End vmControllerProofs.
